(** * QuickCall: a shallow embedding of the control panel and its companion server

  The development follows the layout of the repository:

  - [Js], [JsArray] : the JavaScript values, strings and arrays the code relies on;
  - [Phone]   : [formatPhoneNumber] / [isValidPhoneNumber] (telephonyService.ts);
  - [TelephonyService], [SipService] : [onEvent] / [removeEvent];
  - [Letta]   : the stateful-agent HTTP client (lettaApi.ts);
  - [App]     : the single-page application state container (types.ts, App.tsx);
  - [Server]  : the companion process: token endpoint and make-call endpoint;
  - [Observe] : the vocabulary of the statements;

  followed by the properties, in the same order.

  Strings are Rocq strings (sequences of 8-bit characters).  The code only
  inspects ASCII characters (decimal digits, '+', '.', ':'), and no byte of
  a multi-byte character is one of these, so the byte view and the
  UTF-16 view of the source agree on every operation modelled here. *)

From stdpp Require Import base decidable option list strings pretty gmap.
From Stdlib Require Import ZArith Ascii String Lia.

Set Warnings "-register-all".

Local Open Scope Z_scope.

(* ===================================================================== *)
(** * JavaScript values and string primitives                             *)
(* ===================================================================== *)

Module Js.

(** A JSON-like value, as [express.json()] places it in [req.body].
    Numbers are those written as integers: [JNum n] is the number the
    literal [n] denotes, that is the double nearest to [n];
    [JUndefined] is an absent field. *)
Inductive jsval : Type :=
| JUndefined
| JNull
| JBool (b : bool)
| JNum (n : Z)
| JStr (s : string)
| JArr (items : list jsval)
| JObj (fields : list (string * jsval)).

(** [ToBoolean]: what [!v] and [v || w] test. *)
Definition truthy (v : jsval) : bool :=
  match v with
  | JUndefined | JNull => false
  | JBool b => b
  | JNum n => negb (n =? 0)
  | JStr s => negb (String.eqb s "")
  | JArr _ | JObj _ => true
  end.

(** [a || b] *)
Definition js_or (a b : jsval) : jsval := if truthy a then a else b.

(** [items.join(sep)] on already converted items. *)
Fixpoint join (sep : string) (l : list string) : string :=
  match l with
  | [] => ""
  | [x] => x
  | x :: rest => x +:+ sep +:+ join sep rest
  end.

(** The double nearest to the non-negative integer [n] (round to nearest,
    ties to even); [None] when that is Infinity. *)
Definition nearest_double (n : Z) : option Z :=
  if n <? 2 ^ 53 then Some n
  else
    let e := Z.log2 n - 52 in
    let q := Z.shiftr n e in
    let r := n - Z.shiftl q e in
    let half := Z.shiftl 1 (e - 1) in
    let q' := if r <? half then q
              else if half <? r then q + 1
              else if Z.even q then q else q + 1 in
    let d := Z.shiftl q' e in
    if d <? 2 ^ 1024 then Some d else None.

(** The integer whose decimal the engine prints for the double [x]: among
    the integers the double [x] is nearest to, one with the fewest
    significant digits, and of those the closest to [x].  [k] is the
    number of significant digits tried, [digits] the number of digits of
    [x]. *)
Fixpoint shortest (fuel : nat) (k digits x : Z) : Z :=
  match fuel with
  | O => x
  | S fuel' =>
      let p := 10 ^ (digits - k) in
      let below := x / p * p in
      let above := below + p in
      let ok v := bool_decide (nearest_double v = Some x) in
      if ok below && ok above then
        if x - below <? above - x then below
        else if above - x <? x - below then above
        else if Z.even (x / p) then below else above
      else if ok below then below
      else if ok above then above
      else shortest fuel' (k + 1) digits x
  end.

Fixpoint strip_zeros (rev_digits : list ascii) : list ascii :=
  match rev_digits with
  | "0"%char :: rest => strip_zeros rest
  | _ => rev_digits
  end.

(** The digits of a positive integer without its trailing zeros. *)
Definition significant (v : Z) : string :=
  string_of_list_ascii (rev (strip_zeros (rev (list_ascii_of_string (pretty v))))).

(** How a positive integer is written: in full up to 21 digits, with an
    exponent from 22 digits on. *)
Definition positive_text (v : Z) : string :=
  let n := Z.of_nat (String.length (pretty v)) in
  if n <=? 21 then pretty v
  else
    match significant v with
    | String d "" => String d "" +:+ "e+" +:+ pretty (n - 1)
    | String d rest => String d "" +:+ "." +:+ rest +:+ "e+" +:+ pretty (n - 1)
    | "" => ""
    end.

(** [String(n)] for the number that the integer literal [n] denotes: up to
    2^53 every integer is a double and prints with all its digits. *)
Definition number_text (n : Z) : string :=
  if Z.abs n <? 2 ^ 53 then pretty n
  else
    (if n <? 0 then "-" else "") +:+
    match nearest_double (Z.abs n) with
    | None => "Infinity"
    | Some x =>
        let digits := Z.of_nat (String.length (pretty x)) in
        positive_text (shortest (Z.to_nat digits) 1 digits x)
    end.

(** A JavaScript [Error] object, identified by its message. *)
Inductive exn : Type := Error (message : string).

(** [error.message] *)
Definition message_of (e : exn) : string := let 'Error m := e in m.

(** The [TypeError] of a conversion that finds no primitive value (the
    wording is V8's). *)
Definition cannot_convert : exn := Error "Cannot convert object to primitive value".

(** Does the object have an own property of that name? *)
Definition has_key (fields : list (string * jsval)) (key : string) : bool :=
  existsb (fun kv => String.eqb kv.1 key) fields.

(** [String(v)], the conversion a template literal applies to [${v}].  An
    object parsed from JSON has no callable property of its own, so one
    with an own [toString] key cannot be converted: its [toString] is not
    callable and [Object.prototype.valueOf] gives the object back.  Every
    other object prints as [[object Object]].  An array joins the
    conversions of its elements, [null] and [undefined] printing as the
    empty string there. *)
Fixpoint toString (v : jsval) : exn + string :=
  match v with
  | JUndefined => inr "undefined"
  | JNull => inr "null"
  | JBool true => inr "true"
  | JBool false => inr "false"
  | JNum n => inr (number_text n)
  | JStr s => inr s
  | JArr items =>
      match
        (fix elems (l : list jsval) : exn + list string :=
           match l with
           | [] => inr []
           | x :: l' =>
               match (match x with
                      | JUndefined | JNull => inr ""
                      | _ => toString x
                      end) with
               | inl e => inl e
               | inr text =>
                   match elems l' with
                   | inl e => inl e
                   | inr texts => inr (text :: texts)
                   end
               end
           end) items
      with
      | inl e => inl e
      | inr texts => inr (join "," texts)
      end
  | JObj fields =>
      if has_key fields "toString" then inl cannot_convert
      else inr "[object Object]"
  end.

(** [a || b] on strings. *)
Definition or_text (a b : string) : string := if String.eqb a "" then b else a.

(** [s.length] *)
Definition len (s : string) : Z := Z.of_nat (String.length s).

(** Relative index of [slice]: negative counts from the end, then clamp. *)
Definition rel_index (s : string) (i : Z) : Z :=
  if i <? 0 then Z.max (len s + i) 0 else Z.min i (len s).

(** [s.slice(b, e)] *)
Definition slice (s : string) (b e : Z) : string :=
  let from := rel_index s b in
  let to := rel_index s e in
  substring (Z.to_nat from) (Z.to_nat (Z.max (to - from) 0)) s.

(** [s.slice(b)] *)
Definition slice_from (s : string) (b : Z) : string := slice s b (len s).

(** [s.startsWith(p)] *)
Definition startsWith (s p : string) : bool := String.prefix p s.

(** [s.endsWith(p)] *)
Definition endsWith (s p : string) : bool :=
  (String.length p <=? String.length s)%nat &&
  String.eqb (substring (String.length s - String.length p) (String.length p) s) p.

(** [s.includes(p)]: [p] occurs somewhere in [s]. *)
Fixpoint includes (s p : string) : bool :=
  String.prefix p s ||
  match s with
  | "" => false
  | String _ s' => includes s' p
  end.

(** [s.replace(/c/g, d)] for a one-character pattern. *)
Fixpoint replace_char (c d : ascii) (s : string) : string :=
  match s with
  | "" => ""
  | String x s' => String (if Ascii.eqb x c then d else x) (replace_char c d s')
  end.

(** [s.split(c)[0]]: everything before the first [c]. *)
Fixpoint before_first (c : ascii) (s : string) : string :=
  match s with
  | "" => ""
  | String x s' => if Ascii.eqb x c then "" else String x (before_first c s')
  end.

End Js.

(* ===================================================================== *)
(** * Phone numbers (telephonyService.ts)                                 *)
(* ===================================================================== *)

Module Phone.
Import Js.

(** [\d]: an ASCII decimal digit. *)
Definition is_digit (c : ascii) : bool :=
  ((48 <=? nat_of_ascii c) && (nat_of_ascii c <=? 57))%nat.

(** [phoneNumber.replace(/\D/g, '')] *)
Fixpoint digits_of (s : string) : string :=
  match s with
  | "" => ""
  | String c s' => if is_digit c then String c (digits_of s') else digits_of s'
  end.

Definition formatPhoneNumber (phoneNumber : string) : string :=
  let digits := digits_of phoneNumber in
  if len digits =? 10 then
    "(" +:+ slice digits 0 3 +:+ ") " +:+ slice digits 3 6 +:+ "-" +:+ slice_from digits 6
  else if (len digits =? 11) && bool_decide (String.get 0 digits = Some "1"%char) then
    "+1 (" +:+ slice digits 1 4 +:+ ") " +:+ slice digits 4 7 +:+ "-" +:+ slice_from digits 7
  else phoneNumber.

Definition isValidPhoneNumber (phoneNumber : string) : bool :=
  let digits := digits_of phoneNumber in
  (len digits =? 10) ||
  ((len digits =? 11) && bool_decide (String.get 0 digits = Some "1"%char)).

End Phone.

(* ===================================================================== *)
(** * Event-callback registration (telephonyService.ts, sipService.ts)    *)
(* ===================================================================== *)

(** Array primitives used on the handler lists.  Handlers are functions;
    [indexOf] compares them with [===], that is by identity, which is a
    decidable equality on whatever type names the handlers. *)
Module JsArray.
Section Array.
Context {A : Type} `{EqDecision A}.

(** [arr.push(x)] *)
Definition push (arr : list A) (x : A) : list A := arr ++ [x].

(** [arr.indexOf(x)]: the first position holding [x], or [-1]. *)
Fixpoint indexOf (arr : list A) (x : A) : Z :=
  match arr with
  | [] => -1
  | y :: rest =>
      if decide (y = x) then 0
      else let i := indexOf rest x in if i <? 0 then -1 else i + 1
  end.

(** [arr.splice(index, 1)] for a non-negative [index]: the element at
    that position is dropped; a position past the end drops nothing. *)
Definition splice1 (arr : list A) (index : Z) : list A :=
  delete (Z.to_nat index) arr.

End Array.
End JsArray.

(** [ConnectionState] of the real-time library, the only part of a
    [Room] the services read. *)
Inductive ConnectionState : Type :=
| Disconnected | Connecting | Connected | Reconnecting.

Module TelephonyService.
Section Service.
Context {Handler : Type} `{EqDecision Handler}.

Record t : Type := mk {
  room : option ConnectionState;
  eventHandlers : list Handler
}.

(** [constructor()] *)
Definition create : t := {| room := None; eventHandlers := [] |}.

Definition onEvent (this : t) (handler : Handler) : t :=
  {| room := room this;
     eventHandlers := JsArray.push (eventHandlers this) handler |}.

Definition removeEvent (this : t) (handler : Handler) : t :=
  let index := JsArray.indexOf (eventHandlers this) handler in
  if index >? -1 then
    {| room := room this;
       eventHandlers := JsArray.splice1 (eventHandlers this) index |}
  else this.

End Service.
Global Arguments t : clear implicits.
End TelephonyService.

Module SipService.
Section Service.
Context {Handler : Type} `{EqDecision Handler}.

Record t : Type := mk {
  room : option ConnectionState;
  eventHandlers : list Handler
}.

Definition create : t := {| room := None; eventHandlers := [] |}.

Definition onEvent (this : t) (handler : Handler) : t :=
  {| room := room this;
     eventHandlers := JsArray.push (eventHandlers this) handler |}.

Definition removeEvent (this : t) (handler : Handler) : t :=
  let index := JsArray.indexOf (eventHandlers this) handler in
  if index >? -1 then
    {| room := room this;
       eventHandlers := JsArray.splice1 (eventHandlers this) index |}
  else this.

End Service.
Global Arguments t : clear implicits.
End SipService.

(* ===================================================================== *)
(** * The stateful-agent HTTP client (lettaApi.ts)                        *)
(* ===================================================================== *)

Module Letta.
Import Js.

Record LettaAgent : Type := mkLettaAgent {
  id : string;
  name : string;
  (** [persona] is tested for truthiness by the callers; an absent
      persona and the empty one take the same branch there, so both are
      the empty string here. *)
  persona : string;
  human : string;
  created_at : string;
  updated_at : string
}.

(** How an axios call ends: with the response data, with an axios error
    (carrying [error.response?.data?.message], when there is one, and
    [error.message]), or with some other exception. *)
Inductive http (A : Type) : Type :=
| HttpOk (data : A)
| AxiosError (response_message : option string) (message : string)
| OtherFailure.
Global Arguments HttpOk {A} data.
Global Arguments AxiosError {A} response_message message.
Global Arguments OtherFailure {A}.

(** [error.response?.data?.message || error.message] *)
Definition axios_message (response_message : option string) (message : string) : string :=
  match response_message with
  | Some m => if String.eqb m "" then message else m
  | None => message
  end.

(** The requests the client sends. *)
Inductive request : Type :=
| GetAgents
| DeleteAgent (agentId : string).

Section Client.

(** The remote server: an arbitrary state [Srv] and its answer to each of
    the two requests. *)
Context {Srv : Type}.
Variable http_get_agents : Srv -> Srv * http (list LettaAgent).
Variable http_delete_agent : string -> Srv -> Srv * http ().

(** The world an [async] method runs in: the server and the requests sent
    so far, oldest first. *)
Record world : Type := mkWorld {
  server : Srv;
  sent : list request
}.

(** Outcome of an [async] method: resolved or rejected. *)
Inductive outcome (A : Type) : Type :=
| Resolved (a : A)
| Rejected (e : exn).
Global Arguments Resolved {A} a.
Global Arguments Rejected {A} e.

(** State-and-exception monad of the client. *)
Definition M (A : Type) : Type := world -> world * outcome A.

Definition ret {A} (a : A) : M A := fun w => (w, Resolved a).
Definition throw {A} (e : exn) : M A := fun w => (w, Rejected e).
Definition bind {A B} (m : M A) (k : A -> M B) : M B :=
  fun w => match m w with
           | (w', Resolved a) => k a w'
           | (w', Rejected e) => (w', Rejected e)
           end.
Definition try_catch {A} (m : M A) (handler : exn -> M A) : M A :=
  fun w => match m w with
           | (w', Resolved a) => (w', Resolved a)
           | (w', Rejected e) => handler e w'
           end.

Notation "'await' x '<~' m ';' k" := (bind m (fun x => k))
  (at level 10, x name, m at level 100, k at level 200).

(** [axios.get(`${baseUrl}/v1/agents/`)] *)
Definition axios_get_agents : world -> world * http (list LettaAgent) :=
  fun w => let '(s, r) := http_get_agents (server w) in
           ({| server := s; sent := sent w ++ [GetAgents] |}, r).

(** [axios.delete(`${baseUrl}/v1/agents/${agentId}`)] *)
Definition axios_delete_agent (agentId : string) : world -> world * http () :=
  fun w => let '(s, r) := http_delete_agent agentId (server w) in
           ({| server := s; sent := sent w ++ [DeleteAgent agentId] |}, r).

Definition getAgents : M (list LettaAgent) :=
  fun w => match axios_get_agents w with
           | (w', HttpOk data) => (w', Resolved data)
           | (w', AxiosError rm m) =>
               (w', Rejected (Error ("Failed to fetch agents: " +:+ axios_message rm m)))
           | (w', OtherFailure) =>
               (w', Rejected (Error "Failed to fetch agents: Unknown error"))
           end.

Definition deleteAgent (agentId : string) : M () :=
  fun w => match axios_delete_agent agentId w with
           | (w', HttpOk _) => (w', Resolved ())
           | (w', AxiosError rm m) =>
               (w', Rejected (Error ("Failed to delete agent: " +:+ axios_message rm m)))
           | (w', OtherFailure) =>
               (w', Rejected (Error "Failed to delete agent: Unknown error"))
           end.

(** An entry of [results] in [deleteAllAgents]. *)
Record deletion : Type := mkDeletion {
  del_id : string;
  success : bool;
  error : option exn
}.

(** The [for (const agent of agents)] loop: one deletion after the other,
    a failed one recorded and the loop carried on. *)
Fixpoint delete_each (agents : list LettaAgent) (results : list deletion)
  : M (list deletion) :=
  match agents with
  | [] => ret results
  | agent :: rest =>
      await r <~
        try_catch
          (await _ <~ deleteAgent (id agent) ;
           ret (JsArray.push results
                  {| del_id := id agent; success := true; error := None |}))
          (fun e =>
           ret (JsArray.push results
                  {| del_id := id agent; success := false; error := Some e |})) ;
      delete_each rest r
  end.

(** The [catch] clause only ever sees the [Error] objects thrown by
    [getAgents] and by the [try] block itself (the loop catches those of
    [deleteAgent]); none of them is an axios error. *)
Definition deleteAllAgents : M () :=
  try_catch
    (await agents <~ getAgents ;
     if (List.length agents =? 0)%nat then ret ()
     else
       await results <~ delete_each agents [] ;
       let successCount := List.length (filter (fun r => success r = true) results) in
       let failCount := List.length (filter (fun r => success r = false) results) in
       if (0 <? failCount)%nat && (successCount =? 0)%nat then
         throw (Error ("All " +:+ pretty failCount +:+ " agent deletions failed"))
       else ret ())
    (fun error =>
       if includes (message_of error) "agent deletions failed" then throw error
       else throw (Error ("Failed to delete all agents: " +:+ message_of error))).

End Client.
End Letta.

(* ===================================================================== *)
(** * The application state container (types.ts, App.tsx)                 *)
(* ===================================================================== *)

(** A JavaScript [Date], by the way it was built: [new Date(text)] or a
    reading of the clock in milliseconds. *)
Inductive Date : Type :=
| DateOfString (text : string)
| DateOfClock (ms : Z).

Inductive AgentStatus : Type := online | offline | busy.
Inductive WorkerStatus : Type := stopped | starting | running | stopping.

Module Agent.
Record t : Type := mk {
  id : string;
  name : string;
  status : AgentStatus;
  avatar : option string;
  lastActive : Date;
  description : option string;
  autoReceiveCalls : option bool;
  assignedPhoneNumber : option string;
  workerStatus : option WorkerStatus
}.
End Agent.

Inductive Sender : Type := sender_agent | sender_caller.
Inductive MessageType : Type := text_message | audio_message.

Module Message.
Record t : Type := mk {
  id : string;
  content : string;
  timestamp : Date;
  sender : Sender;
  type : MessageType
}.
End Message.

Record CallerInfo : Type := mkCallerInfo {
  caller_name : option string;
  caller_phone : option string
}.

Inductive SessionStatus : Type := session_active | session_ended | session_paused.

Module ChatSession.
Record t : Type := mk {
  id : string;
  agentId : string;
  messages : list Message.t;
  status : SessionStatus;
  startTime : Date;
  endTime : option Date;
  callerInfo : option CallerInfo
}.
End ChatSession.

Module FileItem.
Record t : Type := mk {
  id : string;
  name : string;
  size : Z;
  type : string;
  uploadDate : Date;
  url : option string
}.
End FileItem.

Inductive CallStatus : Type := call_connecting | call_connected | call_ended | call_failed.

(** The declared type of [id] is [string]; at run time it holds whatever
    it was given, which for a started call is the [roomName] of the
    server's answer. *)
Module VoiceCall.
Record t : Type := mk {
  id : Js.jsval;
  agentId : string;
  status : CallStatus;
  startTime : Date;
  endTime : option Date;
  duration : option Z;
  callerInfo : option CallerInfo
}.
End VoiceCall.

Module App.
Import Js.

Record AppState : Type := mkAppState {
  agents : list Agent.t;
  selectedAgent : option Agent.t;
  currentSession : option ChatSession.t;
  currentCall : option VoiceCall.t;
  context : string;
  files : list FileItem.t;
  isContextUpdating : bool
}.

(** The argument of [setAppState]: a function of the previous state.
    React applies the queued functions one after the other. *)
Definition updater : Type := AppState -> AppState.

Definition apply_updates (queue : list updater) (s : AppState) : AppState :=
  foldl (fun prev u => u prev) s queue.

(** [lettaAgents.filter(agent => !agent.name.endsWith('sleeptime')).map(...)],
    the expression shared by [loadLettaAgents] and [handleDeleteAllAgents]. *)
Definition formatAgent (agent : Letta.LettaAgent) : Agent.t :=
  {| Agent.id := Letta.id agent;
     Agent.name := Letta.name agent;
     Agent.status := online;
     Agent.avatar := None;
     Agent.lastActive := DateOfString (Letta.updated_at agent);
     Agent.description :=
       Some (if truthy (JStr (Letta.persona agent))
             then before_first "." (Letta.persona agent)
             else "Letta AI Agent");
     Agent.autoReceiveCalls := Some true;
     Agent.assignedPhoneNumber := None;
     Agent.workerStatus := None |}.

Definition formatAgents (lettaAgents : list Letta.LettaAgent) : list Agent.t :=
  map formatAgent
    (filter (fun agent => negb (endsWith (Letta.name agent) "sleeptime") = true)
            lettaAgents).

(** [prev => ({ ...prev, agents: formattedAgents })] *)
Definition set_agents (formattedAgents : list Agent.t) : updater :=
  fun prev =>
    {| agents := formattedAgents;
       selectedAgent := selectedAgent prev;
       currentSession := currentSession prev;
       currentCall := currentCall prev;
       context := context prev;
       files := files prev;
       isContextUpdating := isContextUpdating prev |}.

(** [prev => ({ ...prev, agents: formattedAgents, selectedAgent: null,
    currentSession: null })] *)
Definition reset_agents (formattedAgents : list Agent.t) : updater :=
  fun prev =>
    {| agents := formattedAgents;
       selectedAgent := None;
       currentSession := None;
       currentCall := currentCall prev;
       context := context prev;
       files := files prev;
       isContextUpdating := isContextUpdating prev |}.

(** [prev => ({ ...prev, isContextUpdating: true })] *)
Definition begin_context_update : updater :=
  fun prev =>
    {| agents := agents prev;
       selectedAgent := selectedAgent prev;
       currentSession := currentSession prev;
       currentCall := currentCall prev;
       context := context prev;
       files := files prev;
       isContextUpdating := true |}.

(** [prev => ({ ...prev, context: newContext, isContextUpdating: false })] *)
Definition finish_context_update (newContext : string) : updater :=
  fun prev =>
    {| agents := agents prev;
       selectedAgent := selectedAgent prev;
       currentSession := currentSession prev;
       currentCall := currentCall prev;
       context := newContext;
       files := files prev;
       isContextUpdating := false |}.

(** [handleContextUpdate]: one update before the simulated one-second API
    call and one after it.  [during] is whatever other handlers queue
    while the call is pending. *)
Definition handleContextUpdate_queue (newContext : string) (during : list updater)
  : list updater :=
  [begin_context_update] ++ during ++ [finish_context_update newContext].

Definition handleContextUpdate (newContext : string) (s : AppState) : AppState :=
  apply_updates (handleContextUpdate_queue newContext []) s.

Section Handlers.
Context {Srv : Type}.
Variable http_get_agents : Srv -> Srv * Letta.http (list Letta.LettaAgent).
Variable http_delete_agent : string -> Srv -> Srv * Letta.http ().

Local Abbreviation world := (@Letta.world Srv).
Local Abbreviation getAgents := (Letta.getAgents http_get_agents).
Local Abbreviation deleteAllAgents := (Letta.deleteAllAgents http_get_agents http_delete_agent).

(** What a handler leaves behind: the world, the state updates it queued
    and the text of the [alert] it raised, if any. *)
Record handled : Type := mkHandled {
  world_after : world;
  updates : list updater;
  alert : option string
}.

(** The start-up effect. *)
Definition loadLettaAgents (w : world) : handled :=
  match getAgents w with
  | (w', Letta.Resolved lettaAgents) =>
      {| world_after := w';
         updates := [set_agents (formatAgents lettaAgents)];
         alert := None |}
  | (w', Letta.Rejected _) =>
      {| world_after := w'; updates := []; alert := None |}
  end.

(** [handleDeleteAllAgents]; [confirmDelete] is the answer to
    [window.confirm]. *)
Definition handleDeleteAllAgents (confirmDelete : bool) (w : world) : handled :=
  if negb confirmDelete then {| world_after := w; updates := []; alert := None |}
  else
    match deleteAllAgents w with
    | (w1, Letta.Rejected e) =>
        {| world_after := w1; updates := [];
           alert := Some ("❌ Failed to delete agents: " +:+ message_of e) |}
    | (w1, Letta.Resolved _) =>
        match getAgents w1 with
        | (w2, Letta.Rejected e) =>
            {| world_after := w2; updates := [];
               alert := Some ("❌ Failed to delete agents: " +:+ message_of e) |}
        | (w2, Letta.Resolved lettaAgents) =>
            let formattedAgents := formatAgents lettaAgents in
            {| world_after := w2;
               updates := [reset_agents formattedAgents];
               alert :=
                 Some (if (List.length formattedAgents =? 0)%nat
                       then "✅ All agents have been successfully deleted from the server."
                       else "⚠️ Deletion completed. " +:+ pretty (List.length formattedAgents)
                            +:+ " agents remain on the server.") |}
        end
    end.

End Handlers.
End App.

(* ===================================================================== *)
(** * The companion process (server/index.js, quoted in SIP_SETUP.md)     *)
(* ===================================================================== *)

Module Server.
Import Js.

(** ** Configuration read from [process.env] at start-up *)

(** [process.env.KEY]: a string, or [undefined] when the variable is unset. *)
Definition env_var (env : gmap string string) (key : string) : jsval :=
  match env !! key with
  | Some v => JStr v
  | None => JUndefined
  end.

Definition LIVEKIT_API_KEY (env : gmap string string) : jsval :=
  js_or (env_var env "LIVEKIT_API_KEY") (env_var env "REACT_APP_LIVEKIT_API_KEY").
Definition LIVEKIT_API_SECRET (env : gmap string string) : jsval :=
  js_or (env_var env "LIVEKIT_API_SECRET") (env_var env "REACT_APP_LIVEKIT_API_SECRET").
Definition LIVEKIT_WS_URL (env : gmap string string) : jsval :=
  js_or (env_var env "LIVEKIT_WS_URL") (env_var env "REACT_APP_LIVEKIT_URL").

(** [!LIVEKIT_API_KEY || !LIVEKIT_API_SECRET] is false. *)
Definition credentials_configured (env : gmap string string) : bool :=
  truthy (LIVEKIT_API_KEY env) && truthy (LIVEKIT_API_SECRET env).

(** ** What the process does to the outside *)

Inductive child : Type := agentProcess | dispatchProcess.

(** The argument of [roomService.createRoom].  [metadata] is the object
    handed to [JSON.stringify]. *)
Record CreateOptions : Type := mkCreateOptions {
  name : string;
  emptyTimeout : Z;
  maxParticipants : Z;
  metadata : jsval
}.

(** Calls that leave the process, in the vocabulary of the libraries the
    file requires: the room service client (which offers [deleteRoom]
    next to [createRoom]), [fs], [child_process], timers and the express
    response.  Console output and the lines written to the agent log
    stream are diagnostics and are not traced. *)
Inductive effect : Type :=
| createRoom (opts : CreateOptions)
| deleteRoom (room : string)
| mkdirSync (dir : string)
| createWriteStream (file : string)
| spawn (who : child) (command : string) (args : list string)
        (process_env : gmap string jsval)
| kill (who : child)
| setTimeout (delay : Z)
| respond (status : Z) (body : jsval).

(** How a block of statements ends: it falls through with a value, it
    executes [return], or it throws. *)
Inductive completion (A : Type) : Type :=
| Normal (a : A)
| Return
| Throw (e : exn).
Global Arguments Normal {A} a.
Global Arguments Return {A}.
Global Arguments Throw {A} e.

(** Handler code: the effects performed so far and the completion. *)
Definition H (A : Type) : Type := list effect * completion A.

Definition pure {A} (a : A) : H A := ([], Normal a).
Definition emit (e : effect) : H () := ([e], Normal ()).
Definition return_ {A} : H A := ([], Return).
Definition throw {A} (e : exn) : H A := ([], Throw e).
Definition bind {A B} (m : H A) (k : A -> H B) : H B :=
  match m with
  | (es, Normal a) => let '(es', c) := k a in ((es ++ es')%list, c)
  | (es, Return) => (es, Return)
  | (es, Throw e) => (es, Throw e)
  end.

Notation "'do' x '<~' m ';' k" := (bind m (fun x => k))
  (at level 10, x name, m at level 100, k at level 200).

(** A call into a library that may throw (or whose promise may reject):
    the call is made, and [failure] tells whether and how it fails. *)
Definition external (e : effect) (failure : option exn) : H () :=
  ([e], match failure with Some err => Throw err | None => Normal () end).

(** [res.status(code).json(body)] (plain [res.json] is status 200). *)
Definition json (status : Z) (fields : list (string * jsval)) : effect :=
  respond status (JObj fields).

(** ** POST /api/livekit-token *)

Record VideoGrant : Type := mkVideoGrant {
  roomJoin : bool;
  room : jsval;
  canPublish : bool;
  canSubscribe : bool;
  canPublishData : bool
}.

(** The [AccessToken] object just before [toJwt]. *)
Record AccessToken : Type := mkAccessToken {
  apiKey : jsval;
  apiSecret : jsval;
  identity : jsval;
  ttl : string;
  grants : list VideoGrant
}.

Record TokenBody : Type := mkTokenBody {
  tb_roomName : jsval;
  tb_participantName : jsval;
  tb_phoneNumber : jsval
}.

Section Token.

(** [at.toJwt()] of the LiveKit server SDK: the value the promise resolves
    to, or the error it rejects with.  Signing is not part of this code. *)
Variable toJwt : AccessToken -> exn + jsval.

Variable env : gmap string string.

Definition generateLiveKitToken (roomName participantName phoneNumber : jsval)
  : exn + string :=
  if negb (truthy (LIVEKIT_API_KEY env)) || negb (truthy (LIVEKIT_API_SECRET env))
  then inl (Error "LiveKit API credentials not configured")
  else
    let at_ :=
      {| apiKey := LIVEKIT_API_KEY env;
         apiSecret := LIVEKIT_API_SECRET env;
         identity := participantName;
         ttl := "10m";
         grants := [ {| roomJoin := true;
                        room := roomName;
                        canPublish := true;
                        canSubscribe := true;
                        canPublishData := true |} ] |} in
    match toJwt at_ with
    | inl err => inl err
    | inr (JStr jwt) =>
        if len jwt >? 0 then inr jwt
        else inl (Error "Failed to generate valid JWT token")
    | inr _ => inl (Error "Failed to generate valid JWT token")
    end.

Definition livekit_token (body : TokenBody) : effect :=
  let roomName := tb_roomName body in
  let participantName := tb_participantName body in
  let phoneNumber := tb_phoneNumber body in
  if negb (truthy roomName) || negb (truthy participantName) then
    json 400 [("error", JStr "roomName and participantName are required")]
  else
    match generateLiveKitToken roomName participantName phoneNumber with
    | inr token =>
        json 200 [("token", JStr token);
                  ("wsUrl", LIVEKIT_WS_URL env);
                  ("roomName", roomName);
                  ("participantName", participantName)]
    | inl error =>
        json 500 [("error", JStr "Failed to generate token");
                  ("details", JStr (message_of error))]
    end.

End Token.

(** ** POST /api/make-call *)

Record MakeCallBody : Type := mkMakeCallBody {
  to : jsval;
  agentId : jsval
}.

(** What the surroundings answer while the handler runs up to its
    [setTimeout]: the two readings of the clock ([Date.now()] for the room
    name, [new Date().toISOString()] for the log file name), whether the
    [createRoom] promise rejects, whether the logs directory exists and
    whether creating it throws, whether [fs.createWriteStream] throws
    (it does, in some versions of Node, on a path it finds invalid), and
    whether spawning the agent throws (or gives a child without output
    streams, so that attaching the first listener throws).  A reading of
    [Date.now()] is an integer of at most 8.64e15 in absolute value, which
    a template literal prints in plain decimal. *)
Record Ambient : Type := mkAmbient {
  clock_now : Z;
  clock_iso : string;
  createRoom_failure : option exn;
  logs_dir_exists : bool;
  mkdir_failure : option exn;
  createWriteStream_failure : option exn;
  spawn_failure : option exn
}.

(** Where one request stands: its timer is pending, its dial command
    runs, its dial command has closed, or the server process has ended on
    an ['error'] event that nothing listens to. *)
Inductive dispatch_state : Type :=
| TimerPending
| Dispatching (output error : string)
| DispatchClosed
| Crashed.

(** The variables the callbacks of one request close over. *)
Record call : Type := mkCall {
  roomName : string;
  phoneNumber : string;
  call_agentId : jsval;
  agentOutput : string;
  agentError : string;
  dispatch : dispatch_state
}.

(** What the event loop delivers for one request.  A reading of
    [Date.now()] comes with the timer; an exit code is [None] when the
    child was ended by a signal ([code] is [null]).  The handler attaches
    no ['error'] listener to the agent log stream nor to the dial command:
    [LogStreamError] (the log file cannot be opened or written) and
    [DispatchFailed] (the dial command cannot be started, whether [spawn]
    throws in the timer callback or the child emits ['error']) end the
    server process. *)
Inductive event : Type :=
| AgentStdout (data : string)
| AgentStderr (data : string)
| AgentFailed (message : string)
| AgentClose (code : option Z)
| TimerFired (now : Z)
| DispatchStdout (data : string)
| DispatchStderr (data : string)
| DispatchClose (code : option Z)
| LogStreamError (message : string)
| DispatchFailed (message : string).

Section MakeCall.

(** [path.join] of Node. *)
Variable path_join : string -> string -> string.
(** [__dirname] *)
Variable dirname : string.
Variable env : gmap string string.

(** [{ ...process.env, k1: v1, ... }] *)
Definition spread (base : gmap string string) (overrides : list (string * jsval))
  : gmap string jsval :=
  foldl (fun m kv => <[kv.1 := kv.2]> m) (JStr <$> base) overrides.

Definition SIP_TRUNK : string := "ST_LgQdMYv7NnfA".

Definition openaiApiKey : jsval :=
  js_or (js_or (env_var env "OPENAI_API_KEY") (env_var env "REACT_APP_OPENAI_API_KEY"))
        (JStr "").

Definition agent_env (agent : jsval) : gmap string jsval :=
  spread env
    [("LIVEKIT_URL", LIVEKIT_WS_URL env);
     ("LIVEKIT_API_KEY", LIVEKIT_API_KEY env);
     ("LIVEKIT_API_SECRET", LIVEKIT_API_SECRET env);
     ("LIVEKIT_SIP_TRUNK_ID", JStr SIP_TRUNK);
     ("LETTA_AGENT_ID", agent);
     ("LETTA_API_KEY", openaiApiKey);
     ("OPENAI_API_KEY", openaiApiKey);
     ("PYTHONUNBUFFERED", JStr "1");
     ("LIVEKIT_LOG_LEVEL", JStr "debug")].

Definition dispatch_env : gmap string jsval :=
  spread env
    [("LIVEKIT_URL", LIVEKIT_WS_URL env);
     ("LIVEKIT_API_KEY", LIVEKIT_API_KEY env);
     ("LIVEKIT_API_SECRET", LIVEKIT_API_SECRET env)].

Definition agentScript : string := path_join dirname "../livekit-agent.py".
Definition logsDir : string := path_join dirname "logs".

(** [`outbound-${agentId}-${Date.now()}`], [agentText] being the
    conversion of [agentId] when it has one. *)
Definition room_name (agentText : string) (now : Z) : string :=
  "outbound-" +:+ agentText +:+ "-" +:+ pretty now.

(** [to.startsWith('+') ? to : `+1${to}`] *)
Definition e164 (to_ : string) : string :=
  if startsWith to_ "+" then to_ else "+1" +:+ to_.

(** [new Date().toISOString().replace(/:/g, '-').slice(0, -5)] and the log
    file named after it. *)
Definition agentLogFile (room_ iso : string) : string :=
  let timestamp := slice (replace_char ":" "-" iso) 0 (-5) in
  path_join logsDir ("agent-" +:+ room_ +:+ "-" +:+ timestamp +:+ ".log").

Definition create_options (room_ phone : string) (agent : jsval) : CreateOptions :=
  {| name := room_;
     emptyTimeout := 300;
     maxParticipants := 2;
     metadata := JObj [("agent_id", agent); ("phone_number", JStr phone)] |}.

Definition spawn_agent (room_ : string) (agent : jsval) : effect :=
  spawn agentProcess "conda"
    ["run"; "-n"; "letta"; "python"; agentScript; "connect"; "--room"; room_]
    (agent_env agent).

Definition spawn_dispatch (room_ phone : string) (now : Z) : effect :=
  spawn dispatchProcess "lk"
    ["sip"; "participant"; "create";
     "--room"; room_;
     "--trunk"; SIP_TRUNK;
     "--call"; phone;
     "--identity"; "sip-" +:+ pretty now]
    dispatch_env.

(** The body of the [try] block, up to and including [setTimeout]. *)
Definition make_call_try (body : MakeCallBody) (amb : Ambient) : H call :=
  if negb (truthy (to body)) || negb (truthy (agentId body)) then
    do _ <~ emit (json 400 [("error", JStr "Phone number and agentId are required")]) ;
    return_
  else
    do phone <~ match to body with
                | JStr to_ => pure (e164 to_)
                | _ => throw (Error "to.startsWith is not a function")
                end ;
    do agentText <~ match toString (agentId body) with
                    | inr text => pure text
                    | inl error => throw error
                    end ;
    let room_ := room_name agentText (clock_now amb) in
    if negb (truthy (LIVEKIT_API_KEY env)) || negb (truthy (LIVEKIT_API_SECRET env)) then
      do _ <~ emit (json 503 [("error", JStr "LiveKit not configured - demo mode only")]) ;
      return_
    else
      do _ <~ external (createRoom (create_options room_ phone (agentId body)))
                       (createRoom_failure amb) ;
      do _ <~ (if logs_dir_exists amb then pure ()
               else external (mkdirSync logsDir) (mkdir_failure amb)) ;
      do _ <~ external (createWriteStream (agentLogFile room_ (clock_iso amb)))
                       (createWriteStream_failure amb) ;
      do _ <~ external (spawn_agent room_ (agentId body)) (spawn_failure amb) ;
      do _ <~ emit (setTimeout 2000) ;
      pure {| roomName := room_;
              phoneNumber := phone;
              call_agentId := agentId body;
              agentOutput := "";
              agentError := "";
              dispatch := TimerPending |}.

(** The handler up to the point where it yields to the event loop: the
    effects, and the pending call when there is one.  The [catch] clause
    answers 500 whatever was thrown. *)
Definition make_call_request (body : MakeCallBody) (amb : Ambient)
  : list effect * option call :=
  match make_call_try body amb with
  | (es, Normal c) => (es, Some c)
  | (es, Return) => (es, None)
  | (es, Throw _) => ((es ++ [json 500 [("error", JStr "Failed to make call")]])%list, None)
  end.

Definition with_agent_output (c : call) (out err : string) : call :=
  {| roomName := roomName c; phoneNumber := phoneNumber c;
     call_agentId := call_agentId c;
     agentOutput := out; agentError := err;
     dispatch := dispatch c |}.

Definition with_dispatch (c : call) (d : dispatch_state) : call :=
  {| roomName := roomName c; phoneNumber := phoneNumber c;
     call_agentId := call_agentId c;
     agentOutput := agentOutput c; agentError := agentError c;
     dispatch := d |}.

(** One callback.  The listeners of the dial command exist only between
    the timer and the command's ['close'], which Node emits once; the
    timer fires once; once the process has ended no callback runs. *)
Definition on_event (c : call) (ev : event) : call * list effect :=
  match dispatch c with
  | Crashed => (c, [])
  | state =>
      match ev with
      | AgentStdout data =>
          (with_agent_output c (agentOutput c +:+ data) (agentError c), [])
      | AgentStderr data =>
          (with_agent_output c (agentOutput c) (agentError c +:+ data), [])
      | AgentFailed _ => (c, [])
      | AgentClose _ => (c, [])
      | TimerFired now =>
          match state with
          | TimerPending =>
              (with_dispatch c (Dispatching "" ""),
               [spawn_dispatch (roomName c) (phoneNumber c) now])
          | _ => (c, [])
          end
      | DispatchStdout data =>
          match state with
          | Dispatching output error =>
              (with_dispatch c (Dispatching (output +:+ data) error), [])
          | _ => (c, [])
          end
      | DispatchStderr data =>
          match state with
          | Dispatching output error =>
              (with_dispatch c (Dispatching output (error +:+ data)), [])
          | _ => (c, [])
          end
      | DispatchClose code =>
          match state with
          | Dispatching output error =>
              if bool_decide (code = Some 0) then
                (with_dispatch c DispatchClosed,
                 [json 200 [("roomName", JStr (roomName c));
                            ("status", JStr "dispatched");
                            ("phoneNumber", JStr (phoneNumber c));
                            ("agentId", call_agentId c)]])
              else
                (with_dispatch c DispatchClosed,
                 [kill agentProcess;
                  json 500 [("error",
                             JStr ("SIP call failed: " +:+
                                   or_text error "Unknown error"))]])
          | _ => (c, [])
          end
      | LogStreamError _ => (with_dispatch c Crashed, [])
      | DispatchFailed _ =>
          match state with
          | Dispatching _ _ => (with_dispatch c Crashed, [])
          | _ => (c, [])
          end
      end
  end.

(** The callbacks run one at a time, in the order the events arrive. *)
Fixpoint run_events (c : call) (evs : list event) : call * list effect :=
  match evs with
  | [] => (c, [])
  | ev :: rest =>
      let '(c1, es1) := on_event c ev in
      let '(c2, es2) := run_events c1 rest in
      (c2, (es1 ++ es2)%list)
  end.

(** Everything one request makes the process do, given what the
    surroundings answer and the events that follow. *)
Definition make_call (body : MakeCallBody) (amb : Ambient) (evs : list event)
  : list effect :=
  match make_call_request body amb with
  | (es, Some c) => (es ++ (run_events c evs).2)%list
  | (es, None) => es
  end.

End MakeCall.
End Server.

(* ===================================================================== *)
(** * The call panel (components/ChatHistory.tsx, CallPanel)              *)
(* ===================================================================== *)

(** Further string primitives. *)
Module JsText.

(** [s.padStart(targetLength, padString)]: the pad is repeated, and cut,
    to fill what is missing in front of [s]; nothing is added when [s] is
    long enough or the pad is empty. *)
Definition padStart (s : string) (targetLength : nat) (padString : string) : string :=
  let missing := (targetLength - String.length s)%nat in
  if (targetLength <=? String.length s)%nat || String.eqb padString "" then s
  else substring 0 missing (String.concat "" (replicate missing padString)) +:+ s.

(** [Math.floor(n / d)] for a whole number [n] that is a double and a
    whole [d > 0]: the quotient is first rounded to the nearest double (53
    significant bits, ties to even), then rounded down. *)
Definition floor_quotient (n d : Z) : Z :=
  let a := Z.abs n in
  let q := a / d in
  if q =? 0 then (if n <? 0 then -1 else 0)
  else
    let e := Z.log2 q - 52 in
    let num := if 0 <=? e then a else a * 2 ^ (- e) in
    let den := if 0 <=? e then d * 2 ^ e else d in
    let m := num / den in
    let r := num mod den in
    let m' := if 2 * r <? den then m
              else if den <? 2 * r then m + 1
              else if Z.even m then m else m + 1 in
    if 0 <=? e then (if n <? 0 then - (m' * 2 ^ e) else m' * 2 ^ e)
    else if n <? 0 then - ((m' + 2 ^ (- e) - 1) / 2 ^ (- e))
    else m' / 2 ^ (- e).

End JsText.

Module CallPanel.

(** [formatDuration], on the whole number of seconds the panel keeps in
    [callDuration]; [seconds] stands for the double nearest to it.
    [Math.floor(seconds / 60)] rounds down, [%] takes the sign of
    [seconds].  Below 2^53 every whole number is a double, the rounded
    quotient rounds down to the whole quotient, and both numbers print
    with all their digits; from there on the arithmetic is that of
    doubles. *)
Definition formatDuration (seconds : Z) : string :=
  if Z.abs seconds <? 9007199254740992 then
    let mins := seconds / 60 in
    let secs := Z.rem seconds 60 in
    pretty mins +:+ ":" +:+ JsText.padStart (pretty secs) 2 "0"
  else
    match Js.nearest_double (Z.abs seconds) with
    | None => (if seconds <? 0 then "-Infinity" else "Infinity") +:+ ":NaN"
    | Some a =>
        let x := if seconds <? 0 then - a else a in
        let mins := JsText.floor_quotient x 60 in
        let secs := Z.rem x 60 in
        Js.number_text mins +:+ ":" +:+ JsText.padStart (pretty secs) 2 "0"
    end.

End CallPanel.


(* ===================================================================== *)
(** * The other handlers of the state container (App.tsx)                 *)
(* ===================================================================== *)

Module AppHandlers.
Import Js App.

(** [{ ...prev, files }] *)
Definition with_files (files' : list FileItem.t) (prev : AppState) : AppState :=
  {| agents := agents prev;
     selectedAgent := selectedAgent prev;
     currentSession := currentSession prev;
     currentCall := currentCall prev;
     context := context prev;
     files := files';
     isContextUpdating := isContextUpdating prev |}.

(** [{ ...prev, agents }] *)
Definition with_agents (agents' : list Agent.t) (prev : AppState) : AppState :=
  {| agents := agents';
     selectedAgent := selectedAgent prev;
     currentSession := currentSession prev;
     currentCall := currentCall prev;
     context := context prev;
     files := files prev;
     isContextUpdating := isContextUpdating prev |}.

(** [{ ...prev, currentCall, agents }] *)
Definition with_call (call : option VoiceCall.t) (agents' : list Agent.t)
  (prev : AppState) : AppState :=
  {| agents := agents';
     selectedAgent := selectedAgent prev;
     currentSession := currentSession prev;
     currentCall := call;
     context := context prev;
     files := files prev;
     isContextUpdating := isContextUpdating prev |}.

(** One entry of the browser's [FileList], with the two readings of the
    clock its callback takes: [Date.now()] for the id and [new Date()] for
    the upload date. *)
Record Upload : Type := mkUpload {
  file_name : string;
  file_size : Z;
  file_type : string;
  id_clock : Z;
  date_clock : Z
}.

(** [`new-${Date.now()}-${index}`] *)
Definition file_id (now : Z) (index : nat) : string :=
  "new-" +:+ pretty now +:+ "-" +:+ pretty index.

(** [Array.from(fileList).map((file, index) => ...)] *)
Definition newFiles (fileList : list Upload) : list FileItem.t :=
  imap (fun index file =>
          {| FileItem.id := file_id (id_clock file) index;
             FileItem.name := file_name file;
             FileItem.size := file_size file;
             FileItem.type := file_type file;
             FileItem.uploadDate := DateOfClock (date_clock file);
             FileItem.url := None |})
       fileList.

Definition handleFileUpload (fileList : list Upload) : updater :=
  fun prev => with_files (files prev ++ newFiles fileList) prev.

Definition handleFileDelete (fileId : string) : updater :=
  fun prev =>
    with_files (filter (fun file => FileItem.id file <> fileId) (files prev)) prev.

(** [{ ...agent, autoReceiveCalls: enabled }] *)
Definition with_autoReceiveCalls (enabled : bool) (agent : Agent.t) : Agent.t :=
  {| Agent.id := Agent.id agent;
     Agent.name := Agent.name agent;
     Agent.status := Agent.status agent;
     Agent.avatar := Agent.avatar agent;
     Agent.lastActive := Agent.lastActive agent;
     Agent.description := Agent.description agent;
     Agent.autoReceiveCalls := Some enabled;
     Agent.assignedPhoneNumber := Agent.assignedPhoneNumber agent;
     Agent.workerStatus := Agent.workerStatus agent |}.

(** [{ ...agent, status }] *)
Definition with_status (status : AgentStatus) (agent : Agent.t) : Agent.t :=
  {| Agent.id := Agent.id agent;
     Agent.name := Agent.name agent;
     Agent.status := status;
     Agent.avatar := Agent.avatar agent;
     Agent.lastActive := Agent.lastActive agent;
     Agent.description := Agent.description agent;
     Agent.autoReceiveCalls := Agent.autoReceiveCalls agent;
     Agent.assignedPhoneNumber := Agent.assignedPhoneNumber agent;
     Agent.workerStatus := Agent.workerStatus agent |}.

Definition handleToggleAutoReceive (agentId : string) (enabled : bool) : updater :=
  fun prev =>
    with_agents
      (map (fun agent =>
              if decide (Agent.id agent = agentId)
              then with_autoReceiveCalls enabled agent
              else agent)
           (agents prev))
      prev.

(** [prev.agents.map(a => a.id === agentId ? { ...a, status } : a)] *)
Definition set_status (agentId : string) (status : AgentStatus)
  (agents : list Agent.t) : list Agent.t :=
  map (fun a => if decide (Agent.id a = agentId) then with_status status a else a)
      agents.

Definition handleCallStatusUpdate (call : VoiceCall.t) : updater :=
  fun prev => with_call (Some call) (agents prev) prev.

End AppHandlers.


(* ===================================================================== *)
(** * Creating an agent (lettaApi.ts, App.tsx)                            *)
(* ===================================================================== *)

Module JsObject.
Import Js.

(** [obj.key] on a parsed JSON object: the value of the field, [undefined]
    when the object has none of that name. *)
Fixpoint get (fields : list (string * jsval)) (key : string) : jsval :=
  match fields with
  | [] => JUndefined
  | (k, v) :: rest => if String.eqb k key then v else get rest key
  end.

(** [v === 'text'] *)
Definition is_text (v : jsval) (text : string) : bool :=
  match v with
  | JStr s => String.eqb s text
  | _ => false
  end.

End JsObject.

Module LettaCreate.
Import Js.

Inductive AgentType : Type := basic | voice_convo_agent.

Record VoiceSettings : Type := mkVoiceSettings {
  enabled : bool;
  agentType : AgentType;
  enableSleeptime : bool;
  maxMessageBufferLength : Z;
  minMessageBufferLength : Z
}.

Record CreateAgentRequest : Type := mkCreateAgentRequest {
  name : string;
  persona : option string;
  human : option string;
  voiceSettings : option VoiceSettings
}.

Record CreateAgentResponse : Type := mkCreateAgentResponse {
  r_id : string;
  r_name : string;
  r_persona : string;
  r_human : string;
  r_created_at : string;
  r_updated_at : string
}.

(** [voiceSettings?.enabled && voiceSettings?.agentType === 'voice_convo_agent'] *)
Definition isVoiceAgent (agentData : CreateAgentRequest) : bool :=
  match voiceSettings agentData with
  | Some v => enabled v && match agentType v with
                           | voice_convo_agent => true
                           | basic => false
                           end
  | None => false
  end.

(** [text || fallback] for an optional string. *)
Definition or_default (text : option string) (fallback : string) : string :=
  match text with
  | Some s => if String.eqb s "" then fallback else s
  | None => fallback
  end.

(** The fields of [requestPayload], in the order they are set. *)
Definition requestPayload (agentData : CreateAgentRequest) : list (string * jsval) :=
  [("name", JStr (name agentData));
   ("memory_blocks",
    JArr [JObj [("label", JStr "persona");
                ("value",
                 JStr (or_default (persona agentData)
                         "You are a helpful AI assistant that can make and receive phone calls."))];
          JObj [("label", JStr "human");
                ("value",
                 JStr (or_default (human agentData)
                         "The user is a human who needs assistance with phone calls."))]]);
   ("llm_config",
    JObj [("model", JStr "gpt-4o-mini");
          ("model_endpoint_type", JStr "openai");
          ("model_endpoint", JStr "https://api.openai.com/v1");
          ("context_window", JNum 128000)]);
   ("embedding_config",
    JObj [("embedding_model", JStr "text-embedding-3-small");
          ("embedding_endpoint_type", JStr "openai");
          ("embedding_endpoint", JStr "https://api.openai.com/v1");
          ("embedding_dim", JNum 1536)])]
  ++ match voiceSettings agentData with
     | Some v =>
         if isVoiceAgent agentData then
           [("agent_type", JStr "voice_convo_agent");
            ("enable_sleeptime", JBool (enableSleeptime v));
            ("max_message_buffer_length", JNum (maxMessageBufferLength v));
            ("min_message_buffer_length", JNum (minMessageBufferLength v))]
         else []
     | None => []
     end.

(** [getHeaders()] *)
Definition getHeaders (apiKey : string) : list (string * string) :=
  [("Content-Type", "application/json")]
  ++ (if String.eqb apiKey "" then [] else [("Authorization", "Bearer " +:+ apiKey)]).

(** What [axios.post] is called with (the timeout and the redirect limit
    are left to the transport). *)
Record Request : Type := mkRequest {
  url : string;
  data : list (string * jsval);
  headers : list (string * string)
}.

(** What the [catch] clause reads from an axios error:
    [error.response?.status], [error.response?.data?.detail],
    [error.response?.data?.message], [error.message], [error.config?.url]. *)
Record AxiosFailure : Type := mkAxiosFailure {
  response_status : option Z;
  response_detail : jsval;
  response_message : jsval;
  error_message : string;
  config_url : option string
}.

(** How [axios.post] ends: with the response data, with an axios error, by
    throwing some other [Error], or by throwing something else. *)
Inductive posted : Type :=
| PostOk (response : CreateAgentResponse)
| PostAxiosError (failure : AxiosFailure)
| PostError (message : string)
| PostThrown.

(** [error.response?.data?.detail || error.response?.data?.message ||
    error.message] *)
Definition errorMsg (f : AxiosFailure) : jsval :=
  js_or (js_or (response_detail f) (response_message f)) (JStr (error_message f)).

(** [`Status: ${statusCode}, Error: ${errorMsg}, URL: ${error.config?.url}`]:
    the text, or the [TypeError] of converting [errorMsg]. *)
Definition fullError (f : AxiosFailure) : exn + string :=
  match toString (errorMsg f) with
  | inl error => inl error
  | inr text =>
      inr ("Status: " +:+ from_option number_text "undefined" (response_status f)
           +:+ ", Error: " +:+ text
           +:+ ", URL: " +:+ default "undefined" (config_url f))
  end.

Section Client.
(** The server behind [axios.post], and the client's settings. *)
Variable post : Request -> posted.
Variable baseUrl apiKey : string.

Definition createAgent (agentData : CreateAgentRequest) : exn + CreateAgentResponse :=
  match post {| url := baseUrl +:+ "/v1/agents/";
                data := requestPayload agentData;
                headers := getHeaders apiKey |} with
  | PostOk response => inr response
  | PostAxiosError failure =>
      match fullError failure with
      | inr text => inl (Error ("Failed to create agent: " +:+ text))
      | inl error => inl error
      end
  | PostError message => inl (Error ("Failed to create agent: " +:+ message))
  | PostThrown => inl (Error "Failed to create agent: Unknown error")
  end.

End Client.
End LettaCreate.


(* ===================================================================== *)
(** * The handlers of App.tsx that talk to a server                       *)
(* ===================================================================== *)

Module AppCalls.
Import Js App AppHandlers.

(** What a handler does to its surroundings, in order: the React setters
    it calls, the dialogs it opens and the requests it sends (console
    output is not traced). *)
Inductive ui : Type :=
| setIsCreatingAgent (value : bool)
| setIsCreateModalOpen (value : bool)
| setAppState (update : updater)
| alert (text : string)
| fetch (url : string) (body : list (string * jsval)).

(** ** handleCreateAgent *)

(** The argument of [handleCreateAgent], as the modal hands it over. *)
Record AgentForm : Type := mkAgentForm {
  form_name : string;
  form_persona : string;
  form_human : string;
  form_voiceSettings : LettaCreate.VoiceSettings
}.

Definition newAgent (lettaAgent : LettaCreate.CreateAgentResponse)
  (agentData : AgentForm) (now : Z) : Agent.t :=
  {| Agent.id := LettaCreate.r_id lettaAgent;
     Agent.name := LettaCreate.r_name lettaAgent;
     Agent.status := online;
     Agent.avatar := None;
     Agent.lastActive := DateOfClock now;
     Agent.description := Some (before_first "." (form_persona agentData));
     Agent.autoReceiveCalls := None;
     Agent.assignedPhoneNumber := None;
     Agent.workerStatus := None |}.

(** [{ ...prev, agents: [...prev.agents, newAgent], selectedAgent: newAgent,
       currentSession: null }] *)
Definition add_agent (agent : Agent.t) : updater :=
  fun prev =>
    {| agents := agents prev ++ [agent];
       selectedAgent := Some agent;
       currentSession := None;
       currentCall := currentCall prev;
       context := context prev;
       files := files prev;
       isContextUpdating := isContextUpdating prev |}.

Section CreateAgent.
Variable post : LettaCreate.Request -> LettaCreate.posted.
Variable baseUrl apiKey : string.

(** [now] is the reading of the clock [new Date()] takes. *)
Definition handleCreateAgent (agentData : AgentForm) (now : Z) : list ui :=
  [setIsCreatingAgent true]
  ++ match LettaCreate.createAgent post baseUrl apiKey
             {| LettaCreate.name := form_name agentData;
                LettaCreate.persona := Some (form_persona agentData);
                LettaCreate.human := Some (form_human agentData);
                LettaCreate.voiceSettings := Some (form_voiceSettings agentData) |} with
     | inr lettaAgent =>
         [setAppState (add_agent (newAgent lettaAgent agentData now));
          setIsCreateModalOpen false]
     | inl error =>
         [alert ("Failed to create agent: " +:+ message_of error)]
     end
  ++ [setIsCreatingAgent false].

End CreateAgent.

(** ** handleStartCall *)

(** How [fetch] followed by [response.json()] ends: [fetch] rejects, or
    it resolves to a response whose body either fails to parse or is a
    JSON object.  (Every answer of the companion server is an object; a
    number, string or array reads like the object without fields, and a
    body that is [null] is left out.) *)
Inductive fetched : Type :=
| FetchRejected (message : string)
| Fetched (status : Z) (statusText : string) (body : exn + list (string * jsval)).

(** [response.ok] *)
Definition ok (status : Z) : bool := (200 <=? status) && (status <=? 299).

Definition nl : string := String "010"%char "".

(** The text of the number-busy dialog, or the [TypeError] of a field
    that cannot be converted. *)
Definition number_busy_alert (responseData : list (string * jsval)) : exn + string :=
  match toString (JsObject.get responseData "message") with
  | inl error => inl error
  | inr message =>
      match toString (JsObject.get responseData "details") with
      | inl error => inl error
      | inr details =>
          inr (message +:+ nl +:+ nl +:+ details +:+ nl +:+ nl
               +:+ "Please try a different number or wait for the current call to end.")
      end
  end.

Definition demo_mode_alert : string :=
  "⚠️ LiveKit SIP not configured." +:+ nl +:+ nl
  +:+ "To enable real calls:" +:+ nl
  +:+ "1. Set LIVEKIT_API_KEY and LIVEKIT_API_SECRET in .env" +:+ nl
  +:+ "2. Configure SIP trunk ID in .env.agent" +:+ nl
  +:+ "3. Restart the server".

Definition newCall (agentId phone : string) (id_now start_now : Z) : VoiceCall.t :=
  {| VoiceCall.id := JStr ("call-" +:+ pretty id_now);
     VoiceCall.agentId := agentId;
     VoiceCall.status := call_connecting;
     VoiceCall.startTime := DateOfClock start_now;
     VoiceCall.endTime := None;
     VoiceCall.duration := None;
     VoiceCall.callerInfo := Some {| caller_name := None; caller_phone := Some phone |} |}.

(** [{ ...prev, currentCall: newCall, agents: (agentId set busy) }] *)
Definition begin_call (call : VoiceCall.t) (agentId : string) : updater :=
  fun prev => with_call (Some call) (set_status agentId busy (agents prev)) prev.

(** [{ ...prev, currentCall: null, agents: (agentId set online) }] *)
Definition reset_call (agentId : string) : updater :=
  fun prev => with_call None (set_status agentId online (agents prev)) prev.

(** The update after a successful answer.  [later] is the reading
    [Date.now()] gives when the update runs. *)
Definition connect_call (roomName : jsval) (later : Z) : updater :=
  fun prev =>
    with_call
      match currentCall prev with
      | Some call =>
          Some {| VoiceCall.id := js_or roomName (JStr ("call-" +:+ pretty later));
                  VoiceCall.agentId := VoiceCall.agentId call;
                  VoiceCall.status := call_connected;
                  VoiceCall.startTime := VoiceCall.startTime call;
                  VoiceCall.endTime := VoiceCall.endTime call;
                  VoiceCall.duration := VoiceCall.duration call;
                  VoiceCall.callerInfo := VoiceCall.callerInfo call |}
      | None => None
      end
      (agents prev) prev.

Definition make_call_url : string := "http://localhost:3002/api/make-call".
Definition end_call_url : string := "http://localhost:3002/api/end-call".

Section StartCall.
(** The message of the [TypeError] the engine throws when [includes] is
    called on a value that has no such method. *)
Variable not_a_function : string.

(** [responseData.error?.includes('demo mode')] *)
Definition includes_demo_mode (error : jsval) : exn + bool :=
  match error with
  | JUndefined | JNull => inr false
  | JStr s => inr (includes s "demo mode")
  | JArr items => inr (existsb (fun item => JsObject.is_text item "demo mode") items)
  | JBool _ | JNum _ | JObj _ => inl (Error not_a_function)
  end.

(** The [try] block after the request was sent: what it does when it
    completes, or what it throws (it has done nothing then). *)
Definition start_call_try (agentId : string) (later : Z) (answer : fetched)
  : exn + list ui :=
  match answer with
  | FetchRejected message => inl (Error message)
  | Fetched _ _ (inl error) => inl error
  | Fetched status statusText (inr responseData) =>
      if negb (ok status) then
        if (status =? 409) && JsObject.is_text (JsObject.get responseData "error") "number_busy"
        then
          match number_busy_alert responseData with
          | inl error => inl error
          | inr text => inr [alert text; setAppState (reset_call agentId)]
          end
        else
          match (if status =? 503
                 then includes_demo_mode (JsObject.get responseData "error")
                 else inr false) with
          | inl error => inl error
          | inr true => inr [alert demo_mode_alert; setAppState (reset_call agentId)]
          | inr false =>
              match toString (js_or (JsObject.get responseData "error")
                                    (JStr statusText)) with
              | inl error => inl error
              | inr text => inl (Error ("Failed to make call: " +:+ text))
              end
          end
      else inr [setAppState (connect_call (JsObject.get responseData "roomName") later)]
  end.

(** [rendered] is the state the callback was created for; [id_now] and
    [start_now] are the readings of [Date.now()] and [new Date()]. *)
Definition handleStartCall (rendered : AppState) (agentId : string)
  (phoneNumber : option string) (id_now start_now later : Z) (answer : fetched)
  : list ui :=
  match find (fun a => bool_decide (Agent.id a = agentId)) (agents rendered) with
  | None => [alert "Agent not found"]
  | Some _ =>
      match phoneNumber with
      | None => [alert "Please enter a phone number to call"]
      | Some phone =>
          if String.eqb phone "" then [alert "Please enter a phone number to call"]
          else
            [setAppState (begin_call (newCall agentId phone id_now start_now) agentId);
             fetch make_call_url [("to", JStr phone); ("agentId", JStr agentId)]]
            ++ match start_call_try agentId later answer with
               | inr effects => effects
               | inl error =>
                   [setAppState (reset_call agentId);
                    alert ("Failed to start call: " +:+ message_of error)]
               end
      end
  end.

End StartCall.

(** ** handleEndCall *)

(** The request is sent and its outcome ignored: a failure is caught and
    only logged.  A field that is [undefined] is left out by
    [JSON.stringify]. *)
Definition handleEndCall (rendered : AppState) : list ui :=
  match currentCall rendered with
  | None => []
  | Some call =>
      [fetch end_call_url
         (match VoiceCall.callerInfo call with
          | Some {| caller_phone := Some phone |} => [("phoneNumber", JStr phone)]
          | _ => []
          end ++ [("agentId", JStr (VoiceCall.agentId call))]);
       setAppState (reset_call (VoiceCall.agentId call))]
  end.

End AppCalls.


(* ===================================================================== *)
(** * The rest of the telephony service (telephonyService.ts)             *)
(* ===================================================================== *)

Module TelephonyEvents.

Inductive CallEventType : Type :=
| participant_connected | participant_disconnected | call_started | call_ended | error.

Section Emit.
Context {Handler : Type} `{EqDecision Handler}.
(** The [data] of an event, and everything outside the service a handler
    can change. *)
Context {Data World : Type}.

Record CallEvent : Type := mkCallEvent {
  type : CallEventType;
  data : option Data
}.

(** Calling a handler: what it does to the service (a handler may add or
    remove handlers) and to the rest, and whether it throws. *)
Variable invoke :
  Handler -> CallEvent -> TelephonyService.t Handler * World ->
  TelephonyService.t Handler * World * bool.

(** [this.eventHandlers.forEach(handler => { try { handler(event) } catch
    ... })]: the positions [k], [k+1], ... of the array as it is when each
    is reached, [count] of them, the length having been read before the
    first call; a position the array no longer has is skipped, and a
    handler that throws is only logged.  [called] collects the handlers
    that were called. *)
Fixpoint forEach (count k : nat) (event : CallEvent)
  (st : TelephonyService.t Handler * World) (called : list Handler)
  : TelephonyService.t Handler * World * list Handler :=
  match count with
  | O => (st, called)
  | S count' =>
      match TelephonyService.eventHandlers st.1 !! k with
      | Some handler =>
          let '(st', _) := invoke handler event st in
          forEach count' (S k) event st' (called ++ [handler])
      | None => forEach count' (S k) event st called
      end
  end.

Definition emit (event : CallEvent) (st : TelephonyService.t Handler * World)
  : TelephonyService.t Handler * World * list Handler :=
  forEach (List.length (TelephonyService.eventHandlers st.1)) 0 event st [].

(** [this.room?.state || ConnectionState.Disconnected] (every state of
    the library is a non-empty string). *)
Definition getConnectionState (this : TelephonyService.t Handler) : ConnectionState :=
  match TelephonyService.room this with
  | Some state => state
  | None => Disconnected
  end.

(** [this.room?.state === ConnectionState.Connected] *)
Definition isInCall (this : TelephonyService.t Handler) : bool :=
  match TelephonyService.room this with
  | Some Connected => true
  | _ => false
  end.

End Emit.
Global Arguments CallEvent : clear implicits.
End TelephonyEvents.

Module TelephonyToken.
Import Js.

Section Client.
(** [fetch(url, { method: 'POST', body })] followed, when the code gets
    there, by [response.json()]. *)
Variable send : string -> list (string * jsval) -> AppCalls.fetched.
(** [process.env.REACT_APP_BACKEND_URL] *)
Variable REACT_APP_BACKEND_URL : option string.

Definition backendUrl : string :=
  match REACT_APP_BACKEND_URL with
  | Some url => if String.eqb url "" then "http://localhost:3002" else url
  | None => "http://localhost:3002"
  end.

(** The status is tested before the body is read; the [catch] clause
    rethrows what it caught. *)
Definition generateTelephonyToken (roomName participantName : string)
  (phoneNumber : option string) : exn + jsval :=
  match send (backendUrl +:+ "/api/livekit-token")
             ([("roomName", JStr roomName); ("participantName", JStr participantName)]
              ++ match phoneNumber with
                 | Some phone => [("phoneNumber", JStr phone)]
                 | None => []
                 end) with
  | AppCalls.FetchRejected message => inl (Error message)
  | AppCalls.Fetched status statusText body =>
      if negb (AppCalls.ok status)
      then inl (Error ("Token generation failed: " +:+ statusText))
      else match body with
           | inl error => inl error
           | inr data => inr (JsObject.get data "token")
           end
  end.

End Client.
End TelephonyToken.


(* ===================================================================== *)
(** * Telephony events in the call panel (ChatHistory.tsx, CallPanel)     *)
(* ===================================================================== *)

Module PanelEvents.
Import App AppHandlers.

(** [{ ...currentCall, status, endTime }] *)
Definition with_call_status (status : CallStatus) (endTime : option Date)
  (call : VoiceCall.t) : VoiceCall.t :=
  {| VoiceCall.id := VoiceCall.id call;
     VoiceCall.agentId := VoiceCall.agentId call;
     VoiceCall.status := status;
     VoiceCall.startTime := VoiceCall.startTime call;
     VoiceCall.endTime := endTime;
     VoiceCall.duration := VoiceCall.duration call;
     VoiceCall.callerInfo := VoiceCall.callerInfo call |}.

(** [handleTelephonyEvent]: the call it hands to [onCallStatusUpdate], if
    any.  [currentCall] is the prop of the render the handler was made
    for; [now] is the reading [new Date()] takes. *)
Definition handleTelephonyEvent (currentCall : option VoiceCall.t)
  (type : TelephonyEvents.CallEventType) (now : Z) : option VoiceCall.t :=
  match currentCall with
  | None => None
  | Some call =>
      match type with
      | TelephonyEvents.call_started =>
          Some (with_call_status call_connected (VoiceCall.endTime call) call)
      | TelephonyEvents.call_ended =>
          Some (with_call_status call_ended (Some (DateOfClock now)) call)
      | TelephonyEvents.error =>
          Some (with_call_status call_failed (Some (DateOfClock now)) call)
      | TelephonyEvents.participant_connected
      | TelephonyEvents.participant_disconnected => None
      end
  end.

(** The handler with [onCallStatusUpdate] bound to the page's
    [handleCallStatusUpdate], as App.tsx passes it. *)
Definition on_telephony_event (currentCall : option VoiceCall.t)
  (type : TelephonyEvents.CallEventType) (now : Z) : list updater :=
  match handleTelephonyEvent currentCall type now with
  | Some call => [handleCallStatusUpdate call]
  | None => []
  end.

End PanelEvents.


(* ===================================================================== *)
(** * Vocabulary of the statements                                        *)
(* ===================================================================== *)

(** Notions the properties below are phrased in.  None of them is part of
    the program; each is defined from the observable inputs and outputs of
    the model above. *)
Module Observe.
Import Js.

(** Did the server answer the request with a success? *)
Definition answered_ok {A : Type} (r : Letta.http A) : bool :=
  match r with Letta.HttpOk _ => true | _ => false end.

(** The answers a server gives when the given agents are deleted one
    after the other, and the server left behind. *)
Fixpoint delete_in_turn {Srv : Type}
  (http_delete_agent : string -> Srv -> Srv * Letta.http ())
  (ids : list string) (s : Srv) : list (Letta.http ()) * Srv :=
  match ids with
  | [] => ([], s)
  | i :: rest =>
      let '(s1, r) := http_delete_agent i s in
      let '(rs, s2) := delete_in_turn http_delete_agent rest s1 in
      (r :: rs, s2)
  end.

(** The message of the error [getAgents] throws for a failed listing. *)
Definition listing_error {A : Type} (r : Letta.http A) : string :=
  match r with
  | Letta.AxiosError rm m => "Failed to fetch agents: " +:+ Letta.axios_message rm m
  | _ => "Failed to fetch agents: Unknown error"
  end.

(** The entry of [results] a deletion answered by [r] leaves. *)
Definition deletion_of (agentId : string) (r : Letta.http ()) : Letta.deletion :=
  {| Letta.del_id := agentId;
     Letta.success := answered_ok r;
     Letta.error :=
       match r with
       | Letta.HttpOk _ => None
       | Letta.AxiosError rm m =>
           Some (Error ("Failed to delete agent: " +:+ Letta.axios_message rm m))
       | Letta.OtherFailure => Some (Error "Failed to delete agent: Unknown error")
       end |}.

(** The values [!v] holds of: an absent field, [null], [false], [0] and
    the empty string. *)
Definition falsy (v : jsval) : Prop :=
  v = JUndefined \/ v = JNull \/ v = JBool false \/ v = JNum 0 \/ v = JStr "".

(** The status of an HTTP response. *)
Definition status_of (e : Server.effect) : option Z :=
  match e with
  | Server.respond status _ => Some status
  | _ => None
  end.

Definition is_createRoom (e : Server.effect) : bool :=
  match e with Server.createRoom _ => true | _ => false end.

Definition is_deleteRoom (e : Server.effect) : bool :=
  match e with Server.deleteRoom _ => true | _ => false end.

Definition is_setTimeout (e : Server.effect) : bool :=
  match e with Server.setTimeout _ => true | _ => false end.

Definition is_spawn (who : Server.child) (e : Server.effect) : bool :=
  match e, who with
  | Server.spawn Server.agentProcess _ _ _, Server.agentProcess => true
  | Server.spawn Server.dispatchProcess _ _ _, Server.dispatchProcess => true
  | _, _ => false
  end.

(** How often an effect of the given kind occurs in a trace. *)
Definition occurrences (kind : Server.effect -> bool) (trace : list Server.effect) : nat :=
  List.length (List.filter kind trace).

Definition is_TimerFired (ev : Server.event) : bool :=
  match ev with Server.TimerFired _ => true | _ => false end.

Definition is_DispatchClose (ev : Server.event) : bool :=
  match ev with Server.DispatchClose _ => true | _ => false end.

(** The events that end the server process: an ['error'] of the agent log
    stream or of the dial command. *)
Definition is_crash (ev : Server.event) : bool :=
  match ev with
  | Server.LogStreamError _ | Server.DispatchFailed _ => true
  | _ => false
  end.

(** Everything the dial command wrote to its standard error (resp.
    standard output) in the given events, in order. *)
Fixpoint dispatch_stderr (evs : list Server.event) : string :=
  match evs with
  | [] => ""
  | Server.DispatchStderr data :: rest => data +:+ dispatch_stderr rest
  | _ :: rest => dispatch_stderr rest
  end.

Fixpoint dispatch_stdout (evs : list Server.event) : string :=
  match evs with
  | [] => ""
  | Server.DispatchStdout data :: rest => data +:+ dispatch_stdout rest
  | _ :: rest => dispatch_stdout rest
  end.

(** The answer the handler relays once the dial command has closed with
    exit code [code], having written [error] to its standard error. *)
Definition relayed (room_ phone : string) (agent : jsval) (error : string)
  (code : option Z) : list Server.effect :=
  if bool_decide (code = Some 0) then
    [Server.json 200 [("roomName", JStr room_);
                      ("status", JStr "dispatched");
                      ("phoneNumber", JStr phone);
                      ("agentId", agent)]]
  else
    [Server.kill Server.agentProcess;
     Server.json 500
       [("error",
         JStr ("SIP call failed: " +:+
               (if String.eqb error "" then "Unknown error" else error)))]].

(** The effects of the make-call handler proper, up to its [setTimeout],
    when everything it relies on goes well. *)
Definition started (path_join : string -> string -> string) (dirname : string)
  (env : gmap string string) (body : Server.MakeCallBody) (amb : Server.Ambient)
  (agentText phone : string) : list Server.effect :=
  let room_ := Server.room_name agentText (Server.clock_now amb) in
  [Server.createRoom (Server.create_options room_ phone (Server.agentId body))]
  ++ (if Server.logs_dir_exists amb then []
      else [Server.mkdirSync (Server.logsDir path_join dirname)])
  ++ [Server.createWriteStream
        (Server.agentLogFile path_join dirname room_ (Server.clock_iso amb));
      Server.spawn_agent path_join dirname env room_ (Server.agentId body);
      Server.setTimeout 2000].

(** Two calls that differ at most in what the callbacks collected. *)
Definition same_call (c c' : Server.call) : Prop :=
  Server.roomName c' = Server.roomName c /\
  Server.phoneNumber c' = Server.phoneNumber c /\
  Server.call_agentId c' = Server.call_agentId c.

End Observe.

(** Further notions about traces, used by the properties of the second
    part. *)
Module Trace.
Import Js.

Definition is_kill (e : Server.effect) : bool :=
  match e with Server.kill _ => true | _ => false end.

(** The statuses of the HTTP responses of a trace, in order. *)
Definition statuses (trace : list Server.effect) : list Z :=
  omap Observe.status_of trace.

End Trace.


(** Strings made of decimal digits only. *)
Module Text.

Fixpoint all_digits (s : string) : bool :=
  match s with
  | "" => true
  | String c rest => Phone.is_digit c && all_digits rest
  end.

End Text.



(** What a handler of the page did, read off its trace. *)
Module Ui.

Definition update_of (e : AppCalls.ui) : option App.updater :=
  match e with AppCalls.setAppState u => Some u | _ => None end.

Definition alert_of (e : AppCalls.ui) : option string :=
  match e with AppCalls.alert text => Some text | _ => None end.

Definition request_of (e : AppCalls.ui) : option (string * list (string * Js.jsval)) :=
  match e with AppCalls.fetch url body => Some (url, body) | _ => None end.

Definition updates (trace : list AppCalls.ui) : list App.updater := omap update_of trace.
Definition alerts (trace : list AppCalls.ui) : list string := omap alert_of trace.
Definition requests (trace : list AppCalls.ui) : list (string * list (string * Js.jsval)) :=
  omap request_of trace.

(** The state once React has applied the updates of the trace to [s]. *)
Definition after (trace : list AppCalls.ui) (s : App.AppState) : App.AppState :=
  App.apply_updates (updates trace) s.

(** [after] is [before] with the status of every agent of that id set to
    [status], and nothing else changed. *)
Definition marked (agentId : string) (status : AgentStatus)
  (before after : list Agent.t) : Prop :=
  Forall2
    (fun a a' =>
       a' = Agent.mk (Agent.id a) (Agent.name a)
              (if decide (Agent.id a = agentId) then status else Agent.status a)
              (Agent.avatar a) (Agent.lastActive a) (Agent.description a)
              (Agent.autoReceiveCalls a) (Agent.assignedPhoneNumber a)
              (Agent.workerStatus a))
    before after.

(** The state fields no call handler touches. *)
Definition same_page (s s' : App.AppState) : Prop :=
  App.selectedAgent s' = App.selectedAgent s /\
  App.currentSession s' = App.currentSession s /\
  App.context s' = App.context s /\
  App.files s' = App.files s /\
  App.isContextUpdating s' = App.isContextUpdating s.

End Ui.



(** The page and the companion server, joined by HTTP. *)
Module Http.
Import Js.

(** The body [express.json()] hands to the make-call handler when the
    JSON text of these fields was posted. *)
Definition make_call_body (fields : list (string * jsval)) : Server.MakeCallBody :=
  {| Server.to := JsObject.get fields "to";
     Server.agentId := JsObject.get fields "agentId" |}.

Definition response_of (e : Server.effect) : option (Z * jsval) :=
  match e with Server.respond status body => Some (status, body) | _ => None end.

(** The responses of a trace, in order. *)
Definition responses (trace : list Server.effect) : list (Z * jsval) :=
  omap response_of trace.

(** What [fetch] and [response.json()] give the page for the answer of
    the server, [statusText] being the reason phrase of each status. *)
Definition answer (statusText : Z -> string) (trace : list Server.effect)
  : option AppCalls.fetched :=
  match responses trace with
  | (status, JObj fields) :: _ =>
      Some (AppCalls.Fetched status (statusText status) (inr fields))
  | _ => None
  end.

End Http.



Module HttpToken.
Import Js.

(** The body [express.json()] hands to the token handler. *)
Definition token_body (fields : list (string * jsval)) : Server.TokenBody :=
  {| Server.tb_roomName := JsObject.get fields "roomName";
     Server.tb_participantName := JsObject.get fields "participantName";
     Server.tb_phoneNumber := JsObject.get fields "phoneNumber" |}.

(** The token endpoint of the companion server as [fetch] sees it,
    whatever the address it is reached under. *)
Definition backend (toJwt : Server.AccessToken -> exn + jsval)
  (env : gmap string string) (statusText : Z -> string)
  (url : string) (fields : list (string * jsval)) : AppCalls.fetched :=
  match Server.livekit_token toJwt env (token_body fields) with
  | Server.respond status (JObj answer) =>
      AppCalls.Fetched status (statusText status) (inr answer)
  | _ => AppCalls.FetchRejected "no response"
  end.

End HttpToken.


(* ===================================================================== *)
(** * Properties                                                          *)
(* ===================================================================== *)

(** ** String primitives *)

Lemma prefix_refl (q : string) : String.prefix q q = true.
Proof.
  induction q as [|x q IH]; simpl; [reflexivity|].
  destruct (ascii_dec x x); [exact IH|congruence].
Qed.

Lemma includes_self (p : string) : Js.includes p p = true.
Proof.
  destruct p as [|c p]; [reflexivity|].
  cbn [Js.includes]. now rewrite prefix_refl.
Qed.

Lemma includes_append_l (s1 s2 p : string) :
  Js.includes s2 p = true -> Js.includes (s1 +:+ s2) p = true.
Proof.
  intros Hs. induction s1 as [|c s1 IH]; [exact Hs|].
  change (String c s1 +:+ s2) with (String c (s1 +:+ s2)).
  cbn [Js.includes]. rewrite IH. apply orb_true_r.
Qed.

(** ** Phone numbers *)

Example formatPhoneNumber_ten_digits :
  Phone.formatPhoneNumber "555-123-4567" = "(555) 123-4567".
Proof. reflexivity. Qed.

Example formatPhoneNumber_eleven_digits :
  Phone.formatPhoneNumber "1 555 123 4567" = "+1 (555) 123-4567".
Proof. reflexivity. Qed.

Example formatPhoneNumber_other_country :
  Phone.formatPhoneNumber "+44 20 7946 0958" = "+44 20 7946 0958" /\
  Phone.isValidPhoneNumber "+44 20 7946 0958" = false.
Proof. split; reflexivity. Qed.

Lemma digits_of_filter (s : string) :
  list_ascii_of_string (Phone.digits_of s)
  = List.filter Phone.is_digit (list_ascii_of_string s).
Proof.
  induction s as [|c s IH]; [reflexivity|].
  simpl. destruct (Phone.is_digit c); simpl; now rewrite IH.
Qed.

Lemma length_10_inv (d : string) :
  String.length d = 10%nat ->
  exists a b c e f g h i j k, d = string_of_list_ascii [a; b; c; e; f; g; h; i; j; k].
Proof.
  intros Hd.
  do 10 (destruct d as [|? d]; [discriminate Hd|]).
  destruct d; [|discriminate Hd].
  do 10 eexists. reflexivity.
Qed.

Lemma length_11_inv (d : string) :
  String.length d = 11%nat ->
  exists x a b c e f g h i j k,
    d = string_of_list_ascii [x; a; b; c; e; f; g; h; i; j; k].
Proof.
  intros Hd.
  do 11 (destruct d as [|? d]; [discriminate Hd|]).
  destruct d; [|discriminate Hd].
  do 11 eexists. reflexivity.
Qed.

Lemma len_eqb_length (d : string) (n : nat) :
  (Js.len d =? Z.of_nat n) = true <-> String.length d = n.
Proof. unfold Js.len. rewrite Z.eqb_eq. lia. Qed.

(** C9: [formatPhoneNumber] returns its argument unchanged exactly on the
    strings [isValidPhoneNumber] rejects, which are those whose digits are
    neither ten nor eleven with a leading '1'; on the others it lays the
    ten subscriber digits out as (XXX) XXX-XXXX, with +1 in front when the
    leading '1' was there.  The digits are the decimal digits of the
    argument, in order. *)
Theorem formatPhoneNumber_isValidPhoneNumber (phoneNumber : string) :
  let digits := Phone.digits_of phoneNumber in
  list_ascii_of_string digits
    = List.filter Phone.is_digit (list_ascii_of_string phoneNumber) /\
  (Phone.isValidPhoneNumber phoneNumber = false <->
     ~ (String.length digits = 10%nat \/
        (String.length digits = 11%nat /\ String.get 0 digits = Some "1"%char))) /\
  (Phone.isValidPhoneNumber phoneNumber = false ->
     Phone.formatPhoneNumber phoneNumber = phoneNumber) /\
  (Phone.isValidPhoneNumber phoneNumber = true ->
     exists a b c e f g h i j k,
       (digits = string_of_list_ascii [a; b; c; e; f; g; h; i; j; k] /\
        Phone.formatPhoneNumber phoneNumber
        = string_of_list_ascii
            ["("; a; b; c; ")"; " "; e; f; g; "-"; h; i; j; k]%char) \/
       (digits = string_of_list_ascii ["1"%char; a; b; c; e; f; g; h; i; j; k] /\
        Phone.formatPhoneNumber phoneNumber
        = string_of_list_ascii
            ["+"; "1"; " "; "("; a; b; c; ")"; " "; e; f; g; "-"; h; i; j; k]%char)).
Proof.
  intros digits. split; [apply digits_of_filter|].
  unfold Phone.isValidPhoneNumber, Phone.formatPhoneNumber. fold digits.
  generalize digits as d. clear digits. intros d.
  destruct (Js.len d =? 10) eqn:H10.
  - (* ten digits *)
    apply (proj1 (len_eqb_length d 10)) in H10.
    split; [|split].
    + split; [discriminate|]. intros Hn. exfalso. apply Hn. now left.
    + discriminate.
    + intros _. destruct (length_10_inv d H10) as (a&b&c&e&f&g&h&i&j&k&->).
      exists a, b, c, e, f, g, h, i, j, k. left. split; reflexivity.
  - assert (N10 : String.length d <> 10%nat).
    { intros E. apply (proj2 (len_eqb_length d 10)) in E.
      change (Z.of_nat 10) with 10 in E. congruence. }
    destruct (Js.len d =? 11) eqn:H11.
    + apply (proj1 (len_eqb_length d 11)) in H11.
      case_bool_decide as H1; simpl.
      * (* eleven digits, the first one '1' *)
        split; [|split].
        -- split; [discriminate|]. intros Hn. exfalso. apply Hn. right. now split.
        -- discriminate.
        -- intros _.
           destruct (length_11_inv d H11) as (x&a&b&c&e&f&g&h&i&j&k&->).
           simpl in H1. injection H1 as ->.
           exists a, b, c, e, f, g, h, i, j, k. right. split; reflexivity.
      * split; [|split].
        -- split; [|reflexivity]. intros _ [E|[_ E]]; [now apply N10|now apply H1].
        -- reflexivity.
        -- discriminate.
    + assert (N11 : String.length d <> 11%nat).
      { intros E. apply (proj2 (len_eqb_length d 11)) in E.
        change (Z.of_nat 11) with 11 in E. congruence. }
      simpl. split; [|split].
      * split; [|reflexivity]. intros _ [E|[E _]]; [now apply N10|now apply N11].
      * reflexivity.
      * discriminate.
Qed.

(** ** Event-callback registration *)

Section HandlerLists.
Context {A : Type} `{EqDecision A}.

Lemma indexOf_absent (arr : list A) (x : A) :
  x ∉ arr -> JsArray.indexOf arr x = -1.
Proof.
  induction arr as [|y arr IH]; intros Hx; simpl; [reflexivity|].
  apply not_elem_of_cons in Hx as [Hne Hx].
  destruct (decide (y = x)); [congruence|].
  rewrite (IH Hx). reflexivity.
Qed.

Lemma indexOf_first (before after : list A) (x : A) :
  x ∉ before ->
  JsArray.indexOf (before ++ x :: after) x = Z.of_nat (List.length before).
Proof.
  induction before as [|y before IH]; intros Hx; simpl.
  - destruct (decide (x = x)); [reflexivity|congruence].
  - apply not_elem_of_cons in Hx as [Hne Hx].
    destruct (decide (y = x)); [congruence|].
    rewrite (IH Hx).
    destruct (Z.of_nat (List.length before) <? 0) eqn:E.
    + apply Z.ltb_lt in E. lia.
    + lia.
Qed.

(** Removing [x] from an array drops its first occurrence and nothing
    else; an array without [x] is left alone. *)
Lemma remove_first_occurrence (before after : list A) (x : A) :
  x ∉ before ->
  (JsArray.indexOf (before ++ x :: after) x >? -1) = true /\
  JsArray.splice1 (before ++ x :: after) (JsArray.indexOf (before ++ x :: after) x)
  = before ++ after.
Proof.
  intros Hx. rewrite (indexOf_first before after x Hx). split.
  - apply Z.gtb_lt. lia.
  - unfold JsArray.splice1. rewrite Nat2Z.id. apply delete_middle.
Qed.

End HandlerLists.

(** C7: on a [TelephonyService] and on a [SipService] alike, registering
    a handler that is not yet in the list and removing it again gives the
    service back as it was; removing a handler that is not in the list
    changes nothing; and [removeEvent] takes out the first occurrence of
    the handler, leaving every other entry (later occurrences of the same
    handler included) in place. *)
Theorem onEvent_removeEvent_roundtrip {Handler : Type} `{EqDecision Handler}
  (h : Handler) :
  (forall svc : TelephonyService.t Handler,
     (h ∉ TelephonyService.eventHandlers svc ->
        TelephonyService.removeEvent (TelephonyService.onEvent svc h) h = svc /\
        TelephonyService.removeEvent svc h = svc) /\
     (forall before after,
        TelephonyService.eventHandlers svc = before ++ h :: after ->
        h ∉ before ->
        TelephonyService.removeEvent svc h
        = TelephonyService.mk (TelephonyService.room svc) (before ++ after))) /\
  (forall svc : SipService.t Handler,
     (h ∉ SipService.eventHandlers svc ->
        SipService.removeEvent (SipService.onEvent svc h) h = svc /\
        SipService.removeEvent svc h = svc) /\
     (forall before after,
        SipService.eventHandlers svc = before ++ h :: after ->
        h ∉ before ->
        SipService.removeEvent svc h
        = SipService.mk (SipService.room svc) (before ++ after))).
Proof.
  split; intros [rm hs]; (split; [intros Hh; split|intros before after Hhs Hb]).
  - unfold TelephonyService.removeEvent, TelephonyService.onEvent, JsArray.push.
    cbn [TelephonyService.eventHandlers TelephonyService.room] in *.
    destruct (remove_first_occurrence hs [] h Hh) as [-> ->].
    now rewrite app_nil_r.
  - unfold TelephonyService.removeEvent.
    cbn [TelephonyService.eventHandlers] in *.
    now rewrite (indexOf_absent hs h Hh).
  - unfold TelephonyService.removeEvent.
    cbn [TelephonyService.eventHandlers TelephonyService.room] in *. subst hs.
    now destruct (remove_first_occurrence before after h Hb) as [-> ->].
  - unfold SipService.removeEvent, SipService.onEvent, JsArray.push.
    cbn [SipService.eventHandlers SipService.room] in *.
    destruct (remove_first_occurrence hs [] h Hh) as [-> ->].
    now rewrite app_nil_r.
  - unfold SipService.removeEvent.
    cbn [SipService.eventHandlers] in *.
    now rewrite (indexOf_absent hs h Hh).
  - unfold SipService.removeEvent.
    cbn [SipService.eventHandlers SipService.room] in *. subst hs.
    now destruct (remove_first_occurrence before after h Hb) as [-> ->].
Qed.

(** The round trip on a service with two handlers registered, and the
    removal of a handler registered twice. *)
Lemma onEvent_removeEvent_roundtrip_witness :
  let svc := TelephonyService.mk (Some Connected) [1%nat; 2%nat] in
  let sip := SipService.mk None [7%nat; 3%nat; 7%nat] in
  TelephonyService.removeEvent (TelephonyService.onEvent svc 3%nat) 3%nat = svc /\
  SipService.removeEvent sip 3%nat = SipService.mk None [7%nat; 7%nat].
Proof.
  intros svc sip. split.
  - eapply proj1. apply (proj1 (proj1 (onEvent_removeEvent_roundtrip 3%nat) svc)).
    simpl. rewrite !not_elem_of_cons. repeat split; try lia. apply not_elem_of_nil.
  - apply (proj2 (proj2 (onEvent_removeEvent_roundtrip 3%nat) sip) [7%nat] [7%nat]).
    + reflexivity.
    + rewrite !not_elem_of_cons. split; [lia|apply not_elem_of_nil].
Defined.

(** ** The application state container *)

Lemma finish_context_update_frame (newContext : string) (prev : App.AppState) :
  let s := App.finish_context_update newContext prev in
  App.context s = newContext /\
  App.isContextUpdating s = false /\
  App.agents s = App.agents prev /\
  App.selectedAgent s = App.selectedAgent prev /\
  App.currentSession s = App.currentSession prev /\
  App.currentCall s = App.currentCall prev /\
  App.files s = App.files prev.
Proof. cbv zeta. unfold App.finish_context_update. simpl. tauto. Qed.

Lemma apply_updates_app (q1 q2 : list App.updater) (s : App.AppState) :
  App.apply_updates (q1 ++ q2) s = App.apply_updates q2 (App.apply_updates q1 s).
Proof. unfold App.apply_updates. apply foldl_app. Qed.

(** C6: [handleContextUpdate] ends in a state whose [context] is the new
    string and whose [isContextUpdating] is false, with [agents],
    [selectedAgent], [currentSession], [currentCall] and [files] as they
    were.  When other handlers update the state during the simulated API
    call, the same holds with respect to the state those updates left. *)
Theorem handleContextUpdate_frame (s : App.AppState) (newContext : string) :
  (let s' := App.handleContextUpdate newContext s in
   App.context s' = newContext /\
   App.isContextUpdating s' = false /\
   App.agents s' = App.agents s /\
   App.selectedAgent s' = App.selectedAgent s /\
   App.currentSession s' = App.currentSession s /\
   App.currentCall s' = App.currentCall s /\
   App.files s' = App.files s) /\
  (forall during : list App.updater,
   let before := App.apply_updates (App.begin_context_update :: during) s in
   let s' := App.apply_updates (App.handleContextUpdate_queue newContext during) s in
   App.context s' = newContext /\
   App.isContextUpdating s' = false /\
   App.agents s' = App.agents before /\
   App.selectedAgent s' = App.selectedAgent before /\
   App.currentSession s' = App.currentSession before /\
   App.currentCall s' = App.currentCall before /\
   App.files s' = App.files before).
Proof.
  assert (General : forall during : list App.updater,
    App.apply_updates (App.handleContextUpdate_queue newContext during) s
    = App.finish_context_update newContext
        (App.apply_updates (App.begin_context_update :: during) s)).
  { intros during. unfold App.handleContextUpdate_queue.
    rewrite app_assoc, apply_updates_app. reflexivity. }
  split.
  - cbv zeta. unfold App.handleContextUpdate. rewrite General.
    destruct (finish_context_update_frame newContext
                (App.apply_updates [App.begin_context_update] s))
      as (Hc & Hu & Ha & Hs & Hse & Hca & Hf).
    rewrite Hc, Hu, Ha, Hs, Hse, Hca, Hf. simpl. tauto.
  - intros during. cbv zeta. rewrite General.
    apply finish_context_update_frame.
Qed.

Lemma formatAgents_names (returned : list Letta.LettaAgent) :
  map (fun a => (Agent.id a, Agent.name a)) (App.formatAgents returned)
  = filter (fun p => Js.endsWith p.2 "sleeptime" = false)
           (map (fun la => (Letta.id la, Letta.name la)) returned).
Proof.
  unfold App.formatAgents.
  induction returned as [|la l IH]; [reflexivity|].
  rewrite filter_cons. cbn [map]. rewrite filter_cons. cbn [snd].
  destruct (Js.endsWith (Letta.name la) "sleeptime") eqn:E; simpl.
  - exact IH.
  - f_equal. exact IH.
Qed.

Lemma formatAgents_online (returned : list Letta.LettaAgent) :
  Forall (fun a => Agent.status a = online /\ Agent.autoReceiveCalls a = Some true)
         (App.formatAgents returned).
Proof.
  unfold App.formatAgents. apply Forall_forall. intros a Ha.
  apply list_elem_of_In, in_map_iff in Ha as (la & <- & _). now split.
Qed.

Section AgentList.
Context {Srv : Type}.
Variable http_get_agents : Srv -> Srv * Letta.http (list Letta.LettaAgent).
Variable http_delete_agent : string -> Srv -> Srv * Letta.http ().

(** C10: after the start-up load, and after the refresh that follows
    delete-all, the agent list holds exactly the agents the server
    returned whose name does not end in 'sleeptime', in the server's
    order and under their own id and name, each with status 'online' and
    [autoReceiveCalls] true.  An agent whose name ends in 'sleeptime' is
    therefore not in the list although the server returned it. *)
Theorem sleeptime_agents_hidden (w : Letta.world) (s : App.AppState) :
  let shows (returned : list Letta.LettaAgent) (shown : list Agent.t) :=
    map (fun a => (Agent.id a, Agent.name a)) shown
    = filter (fun p => Js.endsWith p.2 "sleeptime" = false)
             (map (fun la => (Letta.id la, Letta.name la)) returned) /\
    Forall (fun a => Agent.status a = online /\ Agent.autoReceiveCalls a = Some true)
           shown /\
    Forall (fun a => Js.endsWith (Agent.name a) "sleeptime" = false) shown in
  (forall w' returned,
     Letta.getAgents http_get_agents w = (w', Letta.Resolved returned) ->
     shows returned
       (App.agents
          (App.apply_updates
             (App.updates (App.loadLettaAgents http_get_agents w)) s))) /\
  (forall w1 w2 returned,
     Letta.deleteAllAgents http_get_agents http_delete_agent w
       = (w1, Letta.Resolved ()) ->
     Letta.getAgents http_get_agents w1 = (w2, Letta.Resolved returned) ->
     shows returned
       (App.agents
          (App.apply_updates
             (App.updates
                (App.handleDeleteAllAgents http_get_agents http_delete_agent true w))
             s))).
Proof.
  assert (Shown : forall returned,
    map (fun a => (Agent.id a, Agent.name a)) (App.formatAgents returned)
    = filter (fun p => Js.endsWith p.2 "sleeptime" = false)
             (map (fun la => (Letta.id la, Letta.name la)) returned) /\
    Forall (fun a => Agent.status a = online /\ Agent.autoReceiveCalls a = Some true)
           (App.formatAgents returned) /\
    Forall (fun a => Js.endsWith (Agent.name a) "sleeptime" = false)
           (App.formatAgents returned)).
  { intros returned. split; [apply formatAgents_names|].
    split; [apply formatAgents_online|].
    apply Forall_forall. intros a Ha.
    assert (Hp : (Agent.id a, Agent.name a)
                 ∈ map (fun a => (Agent.id a, Agent.name a)) (App.formatAgents returned)).
    { apply list_elem_of_In.
      apply (in_map (fun a => (Agent.id a, Agent.name a)) _ a).
      now apply list_elem_of_In. }
    rewrite formatAgents_names in Hp.
    apply list_elem_of_filter in Hp as [Hp _]. exact Hp. }
  cbv zeta. split.
  - intros w' returned Hget. unfold App.loadLettaAgents. rewrite Hget.
    apply Shown.
  - intros w1 w2 returned Hdel Hget. unfold App.handleDeleteAllAgents.
    cbn [negb]. rewrite Hdel, Hget. apply Shown.
Qed.

End AgentList.

(** A server that lists a plain agent between two sleep-time companions. *)
Lemma sleeptime_agents_hidden_witness :
  let listed := [ Letta.mkLettaAgent "a1" "memo-sleeptime" "" "" "t0" "t1";
                  Letta.mkLettaAgent "a2" "front-desk" "Polite. Brief." "" "t0" "t2";
                  Letta.mkLettaAgent "a3" "sleeptime" "" "" "t0" "t3" ] in
  let get := fun _ : () => ((), Letta.HttpOk listed) in
  let del := fun (_ : string) (_ : ()) => ((), @Letta.HttpOk () ()) in
  let s := App.mkAppState [] None None None "ctx" [] false in
  map (fun a => (Agent.id a, Agent.name a))
      (App.agents
         (App.apply_updates
            (App.updates (App.loadLettaAgents get (Letta.mkWorld () []))) s))
  = [("a2", "front-desk")].
Proof.
  intros listed get del s.
  exact (proj1 (proj1 (sleeptime_agents_hidden get del (Letta.mkWorld () []) s)
                  (Letta.mkWorld () [Letta.GetAgents]) listed eq_refl)).
Defined.

(** ** The stateful-agent client *)

Section DeleteAll.
Context {Srv : Type}.
Variable http_get_agents : Srv -> Srv * Letta.http (list Letta.LettaAgent).
Variable http_delete_agent : string -> Srv -> Srv * Letta.http ().

Local Abbreviation delete_each := (Letta.delete_each http_delete_agent).
Local Abbreviation deleteAllAgents :=
  (Letta.deleteAllAgents http_get_agents http_delete_agent).

Lemma delete_in_turn_length (ids : list string) (s : Srv) :
  List.length (Observe.delete_in_turn http_delete_agent ids s).1 = List.length ids.
Proof.
  revert s. induction ids as [|i ids IH]; intros s; simpl; [reflexivity|].
  destruct (http_delete_agent i s) as [s1 r].
  specialize (IH s1).
  destruct (Observe.delete_in_turn http_delete_agent ids s1) as [rs s2].
  simpl in *. now rewrite IH.
Qed.

(** The loop asks for the deletions in list order, never stops early and
    records every answer. *)
Lemma delete_each_run (agents : list Letta.LettaAgent)
  (results : list Letta.deletion) (w : Letta.world) :
  let ids := map Letta.id agents in
  let run := Observe.delete_in_turn http_delete_agent ids (Letta.server w) in
  delete_each agents results w
  = (Letta.mkWorld run.2 (Letta.sent w ++ map Letta.DeleteAgent ids),
     Letta.Resolved (results ++ zip_with Observe.deletion_of ids run.1)).
Proof.
  cbv zeta. revert results w.
  induction agents as [|a agents IH]; intros results [s log].
  - simpl. unfold Letta.ret. now rewrite !app_nil_r.
  - cbn [Letta.delete_each map Observe.delete_in_turn Letta.server Letta.sent].
    unfold Letta.bind at 1. unfold Letta.try_catch, Letta.bind, Letta.deleteAgent,
      Letta.axios_delete_agent, Letta.ret, JsArray.push.
    cbn [Letta.server Letta.sent].
    destruct (http_delete_agent (Letta.id a) s) as [s1 r].
    rewrite (surjective_pairing (Observe.delete_in_turn _ _ s1)).
    destruct r as [[]|rm m|]; rewrite IH; cbn [Letta.server Letta.sent fst snd zip_with];
      rewrite <- !app_assoc; reflexivity.
Qed.

Lemma deletion_counts (ids : list string) (answers : list (Letta.http ())) :
  List.length answers = List.length ids ->
  let results := zip_with Observe.deletion_of ids answers in
  let successCount := List.length (filter (fun r => Letta.success r = true) results) in
  let failCount := List.length (filter (fun r => Letta.success r = false) results) in
  (successCount + failCount = List.length ids)%nat /\
  ((successCount =? 0)%nat = forallb (fun r => negb (Observe.answered_ok r)) answers).
Proof.
  cbv zeta. revert answers.
  induction ids as [|i ids IH]; intros [|r answers] Hlen; try discriminate Hlen.
  - split; reflexivity.
  - injection Hlen as Hlen. destruct (IH answers Hlen) as [Hsum Hall].
    cbn [zip_with forallb]. rewrite !filter_cons.
    destruct r as [[]|rm m|]; simpl; (split; [lia|]); auto.
Qed.

Lemma all_failed_message_kept (n : nat) :
  Js.includes ("All " +:+ pretty n +:+ " agent deletions failed")
              "agent deletions failed" = true.
Proof. apply includes_append_l, includes_append_l. reflexivity. Qed.

(** C8, as the code has it: [deleteAllAgents] asks for the list, then
    asks for the deletion of every listed agent, one after the other in
    list order, whatever the earlier answers were.  It throws in two
    cases: when the listing itself fails (with the listing error, prefixed
    'Failed to delete all agents: ' unless it already mentions 'agent
    deletions failed'), and when there is at least one agent and every
    deletion fails (with 'All n agent deletions failed', n the number of
    agents).  With no agent, or with at least one successful deletion, it
    returns normally. *)
Theorem deleteAllAgents_outcome (w : Letta.world) :
  let listing := http_get_agents (Letta.server w) in
  match listing.2 with
  | Letta.HttpOk agents =>
      let ids := map Letta.id agents in
      let run := Observe.delete_in_turn http_delete_agent ids listing.1 in
      deleteAllAgents w
      = (Letta.mkWorld run.2
           (Letta.sent w ++ Letta.GetAgents :: map Letta.DeleteAgent ids),
         if (0 <? List.length agents)%nat
            && forallb (fun r => negb (Observe.answered_ok r)) run.1
         then Letta.Rejected
                (Js.Error ("All " +:+ pretty (List.length agents)
                           +:+ " agent deletions failed"))
         else Letta.Resolved ())
  | failure =>
      let m := Observe.listing_error failure in
      deleteAllAgents w
      = (Letta.mkWorld listing.1 (Letta.sent w ++ [Letta.GetAgents]),
         Letta.Rejected
           (Js.Error (if Js.includes m "agent deletions failed" then m
                      else "Failed to delete all agents: " +:+ m)))
  end.
Proof.
  cbv zeta. destruct w as [s log].
  unfold Letta.deleteAllAgents, Letta.try_catch, Letta.bind, Letta.getAgents,
    Letta.axios_get_agents.
  cbn [Letta.server Letta.sent].
  destruct (http_get_agents s) as [s1 [agents|rm m|]]; cbn [fst snd].
  - destruct agents as [|a agents].
    + simpl. unfold Letta.ret. reflexivity.
    + change ((List.length (a :: agents) =? 0)%nat) with false. cbv iota.
      cbv beta. rewrite delete_each_run.
      cbn [Letta.server Letta.sent app].
      set (ids := map Letta.id (a :: agents)).
      set (run := Observe.delete_in_turn http_delete_agent ids s1).
      destruct (deletion_counts ids run.1 (delete_in_turn_length ids s1))
        as [Hsum Hall].
      fold run in Hsum, Hall. rewrite Hall.
      change (0 <? List.length (a :: agents))%nat with true.
      rewrite <- app_assoc. cbn [app andb].
      destruct (forallb (fun r => negb (Observe.answered_ok r)) run.1) eqn:Hf.
      * apply Nat.eqb_eq in Hall.
        rewrite Hall in Hsum. cbn [Nat.add] in Hsum. rewrite Hsum.
        replace (List.length ids) with (List.length (a :: agents))
          by (unfold ids; now rewrite length_map).
        change (0 <? List.length (a :: agents))%nat with true. cbn [andb].
        unfold Letta.throw. cbn [Js.message_of].
        now rewrite all_failed_message_kept.
      * rewrite andb_false_r. unfold Letta.ret. reflexivity.
  - unfold Letta.throw. cbn [Js.message_of Observe.listing_error].
    destruct (Js.includes _ _); reflexivity.
  - unfold Letta.throw. cbn [Js.message_of Observe.listing_error].
    destruct (Js.includes _ _); reflexivity.
Qed.

End DeleteAll.

(** A server on which the agents named in its state cannot be deleted. *)
Example deleteAllAgents_partial_failure :
  let listed := [ Letta.mkLettaAgent "a1" "front-desk" "" "" "t0" "t1";
                  Letta.mkLettaAgent "a2" "billing" "" "" "t0" "t2" ] in
  let get := fun locked : list string => (locked, Letta.HttpOk listed) in
  let del := fun (agentId : string) (locked : list string) =>
    (locked,
     if bool_decide (agentId ∈ locked)
     then Letta.AxiosError (Some "agent is busy") "Request failed with status code 409"
     else Letta.HttpOk ()) in
  Letta.deleteAllAgents get del (Letta.mkWorld ["a2"] [])
  = (Letta.mkWorld ["a2"]
       [Letta.GetAgents; Letta.DeleteAgent "a1"; Letta.DeleteAgent "a2"],
     Letta.Resolved ()) /\
  Letta.deleteAllAgents get del (Letta.mkWorld ["a1"; "a2"] [])
  = (Letta.mkWorld ["a1"; "a2"]
       [Letta.GetAgents; Letta.DeleteAgent "a1"; Letta.DeleteAgent "a2"],
     Letta.Rejected (Js.Error "All 2 agent deletions failed")).
Proof. split; reflexivity. Qed.

(** A listing refused with a message that mentions 'agent deletions
    failed': the [catch] clause takes the error of [getAgents] for its own
    and throws it again as it is, without the prefix. *)
Example deleteAllAgents_rethrows_listing_error_unprefixed :
  let get := fun _ : () =>
    ((), @Letta.AxiosError (list Letta.LettaAgent)
           (Some "earlier agent deletions failed") "Request failed with status code 500") in
  let del := fun (_ : string) (_ : ()) => ((), @Letta.HttpOk () ()) in
  Letta.deleteAllAgents get del (Letta.mkWorld () [])
  = (Letta.mkWorld () [Letta.GetAgents],
     Letta.Rejected (Js.Error "Failed to fetch agents: earlier agent deletions failed")).
Proof. reflexivity. Qed.

(** What C8 says in so many words, that an error from [deleteAllAgents]
    means deletions were attempted and all failed, does not hold: when the
    server refuses the listing, [deleteAllAgents] throws after a single
    request, the listing, without having asked for any deletion. *)
Lemma deleteAllAgents_throws_on_failed_listing :
  let get := fun _ : () =>
    ((), @Letta.AxiosError (list Letta.LettaAgent) None "Network Error") in
  let del := fun (_ : string) (_ : ()) => ((), @Letta.HttpOk () ()) in
  Letta.deleteAllAgents get del (Letta.mkWorld () [])
  = (Letta.mkWorld () [Letta.GetAgents],
     Letta.Rejected
       (Js.Error "Failed to delete all agents: Failed to fetch agents: Network Error"))
  /\ ~ (exists agentId,
          Letta.DeleteAgent agentId
          ∈ Letta.sent (Letta.deleteAllAgents get del (Letta.mkWorld () [])).1).
Proof.
  split; [reflexivity|].
  intros [agentId Hin]. vm_compute in Hin.
  apply elem_of_cons in Hin as [Hin|Hin]; [discriminate Hin|].
  now apply elem_of_nil in Hin.
Qed.

(** ** The companion process: the token endpoint *)

Lemma falsy_cases (v : Js.jsval) : Js.truthy v = false <-> Observe.falsy v.
Proof.
  unfold Observe.falsy. split.
  - destruct v as [| |b|n|s| |]; simpl; intros Hv; try discriminate; auto.
    + destruct b; [discriminate|auto].
    + apply negb_false_iff, Z.eqb_eq in Hv. subst. auto 6.
    + apply negb_false_iff, String.eqb_eq in Hv. subst. auto 6.
  - intros [->|[->|[->|[->| ->]]]]; reflexivity.
Qed.

Section TokenEndpoint.
Variable toJwt : Server.AccessToken -> Js.exn + Js.jsval.
Variable env : gmap string string.

(** C4, as the code has it: POST /api/livekit-token answers 400 exactly
    when [roomName] or [participantName] is falsy, which covers a missing
    field and also [null], [false], [0] and the empty string.  Otherwise,
    without credentials it answers 500; with credentials it hands the SDK
    an access token whose identity is [participantName] and whose single
    grant names [roomName], and when the SDK signs it to a non-empty
    string it answers 200 with that string as [token], together with the
    websocket URL, the room name and the participant name.  When the SDK
    yields no such string it answers 500. *)
Theorem livekit_token_responses (body : Server.TokenBody) :
  let roomName := Server.tb_roomName body in
  let participantName := Server.tb_participantName body in
  let response := Server.livekit_token toJwt env body in
  let at_ :=
    Server.mkAccessToken (Server.LIVEKIT_API_KEY env) (Server.LIVEKIT_API_SECRET env)
      participantName "10m" [Server.mkVideoGrant true roomName true true true] in
  (Observe.status_of response = Some 400 <->
     Observe.falsy roomName \/ Observe.falsy participantName) /\
  (~ Observe.falsy roomName -> ~ Observe.falsy participantName ->
     (Server.credentials_configured env = false ->
        response
        = Server.json 500 [("error", Js.JStr "Failed to generate token");
                           ("details", Js.JStr "LiveKit API credentials not configured")]) /\
     (Server.credentials_configured env = true ->
        forall jwt, toJwt at_ = inr (Js.JStr jwt) -> jwt <> "" ->
        response
        = Server.json 200 [("token", Js.JStr jwt);
                           ("wsUrl", Server.LIVEKIT_WS_URL env);
                           ("roomName", roomName);
                           ("participantName", participantName)]) /\
     (Server.credentials_configured env = true ->
        (forall jwt, toJwt at_ = inr (Js.JStr jwt) -> jwt = "") ->
        Observe.status_of response = Some 500)).
Proof.
  cbv zeta. rewrite <- !falsy_cases.
  unfold Server.livekit_token, Server.generateLiveKitToken,
    Server.credentials_configured.
  destruct body as [roomName participantName phoneNumber].
  cbn [Server.tb_roomName Server.tb_participantName Server.tb_phoneNumber].
  destruct (Js.truthy roomName) eqn:Hr, (Js.truthy participantName) eqn:Hp;
    cbn [negb orb andb].
  2-4: (split; [split; [auto|reflexivity]|intros; congruence]).
  split.
  { split; [|intros [?|?]; discriminate].
    destruct (Js.truthy (Server.LIVEKIT_API_KEY env)),
             (Js.truthy (Server.LIVEKIT_API_SECRET env)); cbn [negb orb];
      try discriminate.
    destruct (toJwt _) as [err|[| | | |jwt| |]]; try discriminate.
    destruct (Js.len jwt >? 0); discriminate. }
  intros _ _.
  destruct (Js.truthy (Server.LIVEKIT_API_KEY env)),
           (Js.truthy (Server.LIVEKIT_API_SECRET env)); cbn [negb orb andb].
  2-4: (split; [reflexivity|split; discriminate]).
  split; [discriminate|]. split.
  - intros _ jwt -> Hne.
    assert (Hlen : (Js.len jwt >? 0) = true).
    { destruct jwt; [congruence|]. unfold Js.len. simpl String.length.
      apply Z.gtb_lt. lia. }
    now rewrite Hlen.
  - intros _ Hempty.
    destruct (toJwt _) as [err|[| | | |jwt| |]]; try reflexivity.
    rewrite (Hempty jwt eq_refl). reflexivity.
Qed.

End TokenEndpoint.

(** What C4 says in so many words, 400 only when a field is missing, does
    not hold: a body that carries both fields, [roomName] being the empty
    string, is answered 400. *)
Lemma livekit_token_400_with_both_fields_present :
  let toJwt := fun _ : Server.AccessToken => inr (Js.JStr "header.payload.signature") in
  let env : gmap string string :=
    {[ "LIVEKIT_API_KEY" := "APIkey"; "LIVEKIT_API_SECRET" := "secret" ]} in
  let body := Server.mkTokenBody (Js.JStr "") (Js.JStr "alice") Js.JUndefined in
  Server.tb_roomName body <> Js.JUndefined /\
  Server.tb_participantName body <> Js.JUndefined /\
  Server.livekit_token toJwt env body
  = Server.json 400 [("error", Js.JStr "roomName and participantName are required")].
Proof. repeat split; discriminate. Qed.

(** A well-formed request with credentials in place. *)
Lemma livekit_token_responses_witness :
  let toJwt := fun t : Server.AccessToken =>
    inr (Js.JStr ("jwt-for-" +:+ match Server.identity t with
                                 | Js.JStr name => name
                                 | _ => "anyone"
                                 end)) :> Js.exn + Js.jsval in
  let env : gmap string string :=
    {[ "LIVEKIT_API_KEY" := "APIkey"; "LIVEKIT_API_SECRET" := "secret";
       "LIVEKIT_WS_URL" := "wss://rtc.example" ]} in
  let body := Server.mkTokenBody (Js.JStr "room-1") (Js.JStr "alice") Js.JUndefined in
  Server.livekit_token toJwt env body
  = Server.json 200 [("token", Js.JStr "jwt-for-alice");
                     ("wsUrl", Js.JStr "wss://rtc.example");
                     ("roomName", Js.JStr "room-1");
                     ("participantName", Js.JStr "alice")].
Proof.
  intros toJwt env body.
  assert (Hroom : ~ Observe.falsy (Js.JStr "room-1"))
    by (intros [H|[H|[H|[H|H]]]]; discriminate H).
  assert (Hname : ~ Observe.falsy (Js.JStr "alice"))
    by (intros [H|[H|[H|[H|H]]]]; discriminate H).
  apply (proj1 (proj2 (proj2 (livekit_token_responses toJwt env body) Hroom Hname))
           eq_refl "jwt-for-alice" eq_refl).
  discriminate.
Defined.

(** ** Conversions to a string *)

(** An object that carries a [toString] key of its own has no conversion
    to a string. *)
Lemma toString_own_key (fields : list (string * Js.jsval)) (value : Js.jsval) :
  ("toString", value) ∈ fields ->
  Js.toString (Js.JObj fields)
  = inl (Js.Error "Cannot convert object to primitive value").
Proof.
  intros Hin. cbn [Js.toString].
  replace (Js.has_key fields "toString") with true; [reflexivity|].
  symmetry. unfold Js.has_key. apply existsb_exists.
  exists ("toString", value). split; [|reflexivity].
  now apply list_elem_of_In.
Qed.

(** ** The companion process: the make-call endpoint *)

Section MakeCallFacts.
Variable path_join : string -> string -> string.
Variable dirname : string.
Variable env : gmap string string.

Local Abbreviation make_call_try := (Server.make_call_try path_join dirname env).
Local Abbreviation make_call_request := (Server.make_call_request path_join dirname env).
Local Abbreviation make_call := (Server.make_call path_join dirname env).
Local Abbreviation on_event := (Server.on_event env).
Local Abbreviation run_events := (Server.run_events env).
Local Abbreviation spawn_agent := (Server.spawn_agent path_join dirname env).
Local Abbreviation spawn_dispatch := (Server.spawn_dispatch env).
Local Abbreviation agentLogFile := (Server.agentLogFile path_join dirname).
Local Abbreviation logsDir := (Server.logsDir path_join dirname).

Local Abbreviation started := (Observe.started path_join dirname env).
Local Abbreviation same_call := Observe.same_call.

Lemma truthy_nonempty (s : string) : Js.truthy (Js.JStr s) = true <-> s <> "".
Proof.
  cbn [Js.truthy].
  destruct (String.eqb_spec s "") as [->|Hne]; cbn [negb]; split;
    [discriminate|congruence|auto|auto].
Qed.

(** The handler reaches its [setTimeout] exactly when [to] is a non-empty
    string, [agentId] is truthy and can be converted to a string, the
    credentials are configured and none of [createRoom], the creation of
    the logs directory, [createWriteStream] and the spawning of the agent
    fails. *)
Lemma make_call_request_pending (body : Server.MakeCallBody) (amb : Server.Ambient)
  (es : list Server.effect) (c : Server.call) :
  make_call_request body amb = (es, Some c) <->
  exists to_ agentText,
    Server.to body = Js.JStr to_ /\ to_ <> "" /\
    Js.truthy (Server.agentId body) = true /\
    Js.toString (Server.agentId body) = inr agentText /\
    Server.credentials_configured env = true /\
    Server.createRoom_failure amb = None /\
    (Server.logs_dir_exists amb = true \/ Server.mkdir_failure amb = None) /\
    Server.createWriteStream_failure amb = None /\
    Server.spawn_failure amb = None /\
    es = started body amb agentText (Server.e164 to_) /\
    c = Server.mkCall
          (Server.room_name agentText (Server.clock_now amb))
          (Server.e164 to_) (Server.agentId body) "" "" Server.TimerPending.
Proof.
  unfold Server.make_call_request, Server.make_call_try, Server.credentials_configured,
    Observe.started.
  destruct body as [to_v agent], amb as [now iso crf lde mkf cwf spf].
  cbn [Server.to Server.agentId Server.clock_now Server.clock_iso
       Server.createRoom_failure Server.logs_dir_exists Server.mkdir_failure
       Server.createWriteStream_failure Server.spawn_failure].
  split.
  - destruct (Js.truthy to_v) eqn:Hto; cbn [negb orb]; [|discriminate].
    destruct (Js.truthy agent) eqn:Hag; cbn [negb orb]; [|discriminate].
    destruct to_v as [| | | |to_| |]; try discriminate.
    destruct (Js.toString agent) as [err|agentText] eqn:Htext; [discriminate|].
    cbn [Server.bind Server.pure app].
    destruct (Js.truthy (Server.LIVEKIT_API_KEY env)); cbn [negb orb]; [|discriminate].
    destruct (Js.truthy (Server.LIVEKIT_API_SECRET env)); cbn [negb orb]; [|discriminate].
    destruct crf as [e|]; cbn; [discriminate|].
    assert (Hne : to_ <> "") by (now apply truthy_nonempty).
    destruct lde; cbn.
    + destruct cwf as [e|]; cbn; [discriminate|].
      destruct spf as [e|]; cbn; [discriminate|].
      intros [= <- <-]. exists to_, agentText. repeat split; auto.
    + destruct mkf as [e|]; cbn; [discriminate|].
      destruct cwf as [e|]; cbn; [discriminate|].
      destruct spf as [e|]; cbn; [discriminate|].
      intros [= <- <-]. exists to_, agentText. repeat split; auto.
  - intros (to_ & agentText & -> & Hne & Hag & -> & Hcred & -> & Hlogs & -> & -> & -> & ->).
    apply truthy_nonempty in Hne. rewrite Hne, Hag.
    cbn [negb orb Server.bind Server.pure app].
    apply andb_true_iff in Hcred as [-> ->]. cbn [negb orb].
    cbn. destruct lde; cbn; [reflexivity|].
    destruct Hlogs as [?| ->]; [discriminate|reflexivity].
Qed.

Lemma string_app_assoc (a b c : string) : (a +:+ b) +:+ c = a +:+ (b +:+ c).
Proof.
  induction a as [|x a IH]; [reflexivity|].
  change (String x a +:+ b) with (String x (a +:+ b)).
  change (String x (a +:+ b) +:+ c) with (String x ((a +:+ b) +:+ c)).
  now rewrite IH.
Qed.

Lemma string_app_nil_r (a : string) : a +:+ "" = a.
Proof.
  induction a as [|x a IH]; [reflexivity|].
  change (String x a +:+ "") with (String x (a +:+ "")). now rewrite IH.
Qed.

(** The callbacks never touch the room name, the number or the agent id. *)
Lemma same_call_refl (c : Server.call) : same_call c c.
Proof. repeat split. Qed.

Lemma same_call_trans (c1 c2 c3 : Server.call) :
  same_call c1 c2 -> same_call c2 c3 -> same_call c1 c3.
Proof. unfold Observe.same_call. intros (?&?&?) (?&?&?). repeat split; congruence. Qed.

Lemma run_events_app (c : Server.call) (evs1 evs2 : list Server.event) :
  run_events c (evs1 ++ evs2)
  = ((run_events (run_events c evs1).1 evs2).1,
     (run_events c evs1).2 ++ (run_events (run_events c evs1).1 evs2).2).
Proof.
  revert c. induction evs1 as [|ev evs1 IH]; intros c.
  - simpl. now destruct (run_events c evs2).
  - cbn [app Server.run_events].
    destruct (on_event c ev) as [c1 es1]. rewrite IH.
    destruct (run_events c1 evs1) as [c2 es2]. cbn [fst snd].
    destruct (run_events c2 evs2) as [c3 es3]. cbn [fst snd].
    now rewrite app_assoc.
Qed.

(** Once the server process has ended, nothing happens any more. *)
Lemma on_event_crashed (c : Server.call) (ev : Server.event) :
  Server.dispatch c = Server.Crashed -> on_event c ev = (c, []).
Proof. intros Hd. unfold Server.on_event. now rewrite Hd. Qed.

Lemma run_crashed (c : Server.call) (evs : list Server.event) :
  Server.dispatch c = Server.Crashed -> run_events c evs = (c, []).
Proof.
  intros Hd. induction evs as [|ev evs IH]; [reflexivity|].
  cbn [Server.run_events]. rewrite (on_event_crashed c ev Hd), IH. reflexivity.
Qed.

(** Until the timer fires the callbacks do nothing to the outside: the
    request stays as it is, unless the process ends. *)
Lemma run_before_timer (c : Server.call) (evs : list Server.event) :
  Server.dispatch c = Server.TimerPending ->
  Forall (fun ev => Observe.is_TimerFired ev = false) evs ->
  (run_events c evs).2 = [] /\
  (Server.dispatch (run_events c evs).1 = Server.TimerPending \/
   Server.dispatch (run_events c evs).1 = Server.Crashed) /\
  same_call c (run_events c evs).1.
Proof.
  intros Hd Hevs. revert c Hd.
  induction Hevs as [|ev evs Hev _ IH]; intros c Hd.
  - simpl. auto using same_call_refl.
  - cbn [Server.run_events].
    assert (Hstep : (on_event c ev).2 = [] /\
                    (Server.dispatch (on_event c ev).1 = Server.TimerPending \/
                     Server.dispatch (on_event c ev).1 = Server.Crashed) /\
                    same_call c (on_event c ev).1).
    { unfold Server.on_event. rewrite Hd.
      destruct ev; try discriminate Hev; cbn; rewrite ?Hd;
        repeat split; auto. }
    destruct (on_event c ev) as [c1 es1]. cbn [fst snd] in Hstep.
    destruct Hstep as (-> & [Hd1|Hd1] & Hsame).
    + destruct (IH c1 Hd1) as (Hes & Hd2 & Hsame2).
      destruct (run_events c1 evs) as [c2 es2]. cbn [fst snd] in *.
      subst es2. eauto using same_call_trans.
    + rewrite (run_crashed c1 evs Hd1). cbn [fst snd app]. auto.
Qed.

(** The same when, in addition, nothing ends the process. *)
Lemma run_before_timer_alive (c : Server.call) (evs : list Server.event) :
  Server.dispatch c = Server.TimerPending ->
  Forall (fun ev => Observe.is_TimerFired ev = false /\
                    Observe.is_crash ev = false) evs ->
  (run_events c evs).2 = [] /\
  Server.dispatch (run_events c evs).1 = Server.TimerPending /\
  same_call c (run_events c evs).1.
Proof.
  intros Hd Hevs. revert c Hd.
  induction Hevs as [|ev evs [Hev Hcrash] _ IH]; intros c Hd.
  - simpl. auto using same_call_refl.
  - cbn [Server.run_events].
    assert (Hstep : (on_event c ev).2 = [] /\
                    Server.dispatch (on_event c ev).1 = Server.TimerPending /\
                    same_call c (on_event c ev).1).
    { unfold Server.on_event. rewrite Hd.
      destruct ev; try discriminate Hev; try discriminate Hcrash; cbn; rewrite ?Hd;
        repeat split; auto. }
    destruct (on_event c ev) as [c1 es1]. cbn [fst snd] in Hstep.
    destruct Hstep as (-> & Hd1 & Hsame).
    destruct (IH c1 Hd1) as (Hes & Hd2 & Hsame2).
    destruct (run_events c1 evs) as [c2 es2]. cbn [fst snd] in *.
    subst es2. eauto using same_call_trans.
Qed.

(** While the dial command runs, the callbacks only collect its output. *)
Lemma run_while_dispatching (c : Server.call) (output error : string)
  (evs : list Server.event) :
  Server.dispatch c = Server.Dispatching output error ->
  Forall (fun ev => Observe.is_DispatchClose ev = false /\
                    Observe.is_crash ev = false) evs ->
  (run_events c evs).2 = [] /\
  Server.dispatch (run_events c evs).1
  = Server.Dispatching (output +:+ Observe.dispatch_stdout evs)
                       (error +:+ Observe.dispatch_stderr evs) /\
  same_call c (run_events c evs).1.
Proof.
  intros Hd Hevs. revert c output error Hd.
  induction Hevs as [|ev evs [Hev Hcrash] _ IH]; intros c output error Hd.
  - simpl. rewrite !string_app_nil_r. auto using same_call_refl.
  - cbn [Server.run_events].
    assert (Hstep : exists o e,
              (on_event c ev).2 = [] /\
              Server.dispatch (on_event c ev).1 = Server.Dispatching o e /\
              same_call c (on_event c ev).1 /\
              o +:+ Observe.dispatch_stdout evs
                = output +:+ Observe.dispatch_stdout (ev :: evs) /\
              e +:+ Observe.dispatch_stderr evs
                = error +:+ Observe.dispatch_stderr (ev :: evs)).
    { unfold Server.on_event. rewrite Hd.
      destruct ev; try discriminate Hev; try discriminate Hcrash; cbn; rewrite ?Hd;
        eexists _, _; repeat split; eauto using string_app_assoc. }
    destruct Hstep as (o & e & Hes & Hd1 & Hsame & Ho & He).
    destruct (on_event c ev) as [c1 es1]. cbn [fst snd] in *. subst es1.
    destruct (IH c1 o e Hd1) as (Hes & Hd2 & Hsame2).
    destruct (run_events c1 evs) as [c2 es2]. cbn [fst snd] in *.
    subst es2. rewrite Hd2, Ho, He. eauto using same_call_trans.
Qed.

(** After the dial command has closed nothing happens any more. *)
Lemma run_after_close (c : Server.call) (evs : list Server.event) :
  Server.dispatch c = Server.DispatchClosed \/ Server.dispatch c = Server.Crashed ->
  (run_events c evs).2 = [] /\
  (Server.dispatch (run_events c evs).1 = Server.DispatchClosed \/
   Server.dispatch (run_events c evs).1 = Server.Crashed).
Proof.
  revert c. induction evs as [|ev evs IH]; intros c Hd; [auto|].
  cbn [Server.run_events].
  assert (Hstep : (on_event c ev).2 = [] /\
                  (Server.dispatch (on_event c ev).1 = Server.DispatchClosed \/
                   Server.dispatch (on_event c ev).1 = Server.Crashed)).
  { unfold Server.on_event. destruct Hd as [Hd|Hd]; rewrite Hd; [|auto].
    destruct ev; cbn; rewrite ?Hd; auto. }
  destruct (on_event c ev) as [c1 es1]. cbn [fst snd] in Hstep.
  destruct Hstep as (-> & Hd1).
  destruct (IH c1 Hd1) as (Hes & Hd2).
  destruct (run_events c1 evs) as [c2 es2]. cbn [fst snd] in *.
  subst es2. auto.
Qed.

(** The closing of the dial command is answered at once. *)
Lemma on_event_close (c : Server.call) (output error : string) (code : option Z) :
  Server.dispatch c = Server.Dispatching output error ->
  on_event c (Server.DispatchClose code)
  = (Server.with_dispatch c Server.DispatchClosed,
     Observe.relayed (Server.roomName c) (Server.phoneNumber c)
       (Server.call_agentId c) error code).
Proof.
  intros Hd. unfold Server.on_event. rewrite Hd. unfold Observe.relayed, Js.or_text.
  case_bool_decide; reflexivity.
Qed.

(** The handler's callbacks, from the pending timer to the closing of the
    dial command and beyond. *)
Lemma run_call_flow (c : Server.call) (evsA evsB evsC : list Server.event)
  (now : Z) (code : option Z) :
  Server.dispatch c = Server.TimerPending ->
  Forall (fun ev => Observe.is_TimerFired ev = false /\
                    Observe.is_crash ev = false) evsA ->
  Forall (fun ev => Observe.is_DispatchClose ev = false /\
                    Observe.is_crash ev = false) evsB ->
  (run_events c (evsA ++ Server.TimerFired now :: evsB
                       ++ Server.DispatchClose code :: evsC)).2
  = spawn_dispatch (Server.roomName c) (Server.phoneNumber c) now
    :: Observe.relayed (Server.roomName c) (Server.phoneNumber c)
         (Server.call_agentId c) (Observe.dispatch_stderr evsB) code.
Proof.
  intros Hd HA HB.
  rewrite run_events_app.
  destruct (run_before_timer_alive c evsA Hd HA) as (-> & Hd1 & Hr1 & Hp1 & Ha1).
  set (c1 := (run_events c evsA).1) in *. cbn [snd app].
  cbn [Server.run_events]. unfold Server.on_event at 1. rewrite Hd1.
  set (c2 := Server.with_dispatch c1 (Server.Dispatching "" "")).
  rewrite run_events_app.
  assert (Hd2 : Server.dispatch c2 = Server.Dispatching "" "") by reflexivity.
  destruct (run_while_dispatching c2 "" "" evsB Hd2 HB)
    as (-> & Hd3 & Hr3 & Hp3 & Ha3).
  set (c3 := (run_events c2 evsB).1) in *. cbn [fst snd app].
  cbn [Server.run_events].
  rewrite (on_event_close c3 _ _ code Hd3).
  change ("" +:+ Observe.dispatch_stderr evsB) with (Observe.dispatch_stderr evsB).
  destruct (run_after_close (Server.with_dispatch c3 Server.DispatchClosed) evsC
              (or_introl eq_refl)) as [Hes _].
  destruct (run_events (Server.with_dispatch c3 Server.DispatchClosed) evsC)
    as [c4 es4]. cbn [fst snd] in *. subst es4. rewrite app_nil_r.
  cbn [Server.roomName Server.phoneNumber Server.call_agentId Server.with_dispatch] in *.
  rewrite Hr3, Hp3, Ha3.
  change (Server.roomName c2) with (Server.roomName c1).
  change (Server.phoneNumber c2) with (Server.phoneNumber c1).
  change (Server.call_agentId c2) with (Server.call_agentId c1).
  now rewrite Hr1, Hp1, Ha1.
Qed.

(** C1, as the code has it.  Take a request whose [to] is a non-empty
    string and whose [agentId] is truthy, with the credentials configured.
    When [agentId] has no conversion to a string (as an object carrying a
    [toString] key of its own) the handler answers 500 and does nothing
    else.  Otherwise, when the room service, the logs
    directory, the log file and the spawning of the agent all work and no
    ['error'] event ends the process, the handler does this, in this
    order, for every interleaving of the other events: it creates the room
    named outbound-<agentId>-<clock>, creates the logs directory if there
    is none, opens the agent log file, spawns the agent (conda run -n
    letta python <script> connect --room <room>), arms a timer of 2000
    ms, spawns the dial command (lk sip participant create ...) when the
    timer fires, and when that command closes answers 200 with the room
    name, the number and the agent id if its exit code is 0, and otherwise
    kills the agent and answers 500.  When creating the room, creating the
    logs directory, opening the log file or spawning the agent fails, the
    handler answers 500 'Failed to make call' right after the failed step
    and does nothing further, whatever events follow. *)
Theorem make_call_sequence (body : Server.MakeCallBody) (amb : Server.Ambient)
  (to_ : string) :
  Server.to body = Js.JStr to_ -> to_ <> "" ->
  Js.truthy (Server.agentId body) = true ->
  Server.credentials_configured env = true ->
  let agentId := Server.agentId body in
  let phone := if Js.startsWith to_ "+" then to_ else "+1" +:+ to_ in
  let failed := Server.respond 500 (Js.JObj [("error", Js.JStr "Failed to make call")]) in
  (forall error evs,
     Js.toString agentId = inl error -> make_call body amb evs = [failed]) /\
  (forall agentText,
     Js.toString agentId = inr agentText ->
     let room_ := "outbound-" +:+ agentText +:+ "-" +:+ pretty (Server.clock_now amb) in
     let create :=
       Server.createRoom
         (Server.mkCreateOptions room_ 300 2
            (Js.JObj [("agent_id", agentId); ("phone_number", Js.JStr phone)])) in
     let logs := path_join dirname "logs" in
     let mkdir := if Server.logs_dir_exists amb then [] else [Server.mkdirSync logs] in
     let open_log :=
       Server.createWriteStream
         (path_join logs
            ("agent-" +:+ room_ +:+ "-"
             +:+ Js.slice (Js.replace_char ":" "-" (Server.clock_iso amb)) 0 (-5)
             +:+ ".log")) in
     let agent :=
       Server.spawn Server.agentProcess "conda"
         ["run"; "-n"; "letta"; "python"; path_join dirname "../livekit-agent.py";
          "connect"; "--room"; room_]
         (Server.agent_env env agentId) in
     let dial := fun now : Z =>
       Server.spawn Server.dispatchProcess "lk"
         ["sip"; "participant"; "create"; "--room"; room_;
          "--trunk"; "ST_LgQdMYv7NnfA"; "--call"; phone;
          "--identity"; "sip-" +:+ pretty now]
         (Server.dispatch_env env) in
     (Server.createRoom_failure amb = None ->
      Server.logs_dir_exists amb = true \/ Server.mkdir_failure amb = None ->
      Server.createWriteStream_failure amb = None ->
      Server.spawn_failure amb = None ->
      forall evsA evsB evsC now code,
        Forall (fun ev => Observe.is_TimerFired ev = false /\
                          Observe.is_crash ev = false) evsA ->
        Forall (fun ev => Observe.is_DispatchClose ev = false /\
                          Observe.is_crash ev = false) evsB ->
        make_call body amb
          (evsA ++ Server.TimerFired now :: evsB ++ Server.DispatchClose code :: evsC)
        = [create] ++ mkdir
          ++ [open_log; agent; Server.setTimeout 2000; dial now]
          ++ (if bool_decide (code = Some 0) then
                [Server.respond 200
                   (Js.JObj [("roomName", Js.JStr room_);
                             ("status", Js.JStr "dispatched");
                             ("phoneNumber", Js.JStr phone);
                             ("agentId", agentId)])]
              else
                [Server.kill Server.agentProcess;
                 Server.respond 500
                   (Js.JObj
                      [("error",
                        Js.JStr ("SIP call failed: " +:+
                                 (if String.eqb (Observe.dispatch_stderr evsB) ""
                                  then "Unknown error"
                                  else Observe.dispatch_stderr evsB)))])])) /\
     (forall evs,
        Server.createRoom_failure amb <> None ->
        make_call body amb evs = [create; failed]) /\
     (forall evs,
        Server.createRoom_failure amb = None ->
        Server.logs_dir_exists amb = false -> Server.mkdir_failure amb <> None ->
        make_call body amb evs = [create; Server.mkdirSync logs; failed]) /\
     (forall evs,
        Server.createRoom_failure amb = None ->
        Server.logs_dir_exists amb = true \/ Server.mkdir_failure amb = None ->
        Server.createWriteStream_failure amb <> None ->
        make_call body amb evs = [create] ++ mkdir ++ [open_log; failed]) /\
     (forall evs,
        Server.createRoom_failure amb = None ->
        Server.logs_dir_exists amb = true \/ Server.mkdir_failure amb = None ->
        Server.createWriteStream_failure amb = None ->
        Server.spawn_failure amb <> None ->
        make_call body amb evs = [create] ++ mkdir ++ [open_log; agent; failed])) /\
  (forall fields value evs,
     agentId = Js.JObj fields -> ("toString", value) ∈ fields ->
     make_call body amb evs = [failed]) /\
  (forall text, agentId = Js.JStr text -> Js.toString agentId = inr text).
Proof.
  intros Hto Hne Hag Hcred agentId phone failed. subst agentId.
  assert (Htruthy : Js.truthy (Js.JStr to_) = true) by now apply truthy_nonempty.
  pose proof Hcred as Hcred'. unfold Server.credentials_configured in Hcred'.
  apply andb_true_iff in Hcred' as [Hk Hs].
  assert (Hfail : forall error evs,
            Js.toString (Server.agentId body) = inl error ->
            make_call body amb evs = [failed]).
  { intros error evs Herr. unfold Server.make_call, Server.make_call_request,
      Server.make_call_try.
    rewrite Hto, Htruthy, Hag, Herr. reflexivity. }
  split; [exact Hfail|]. split.
  2:{ split.
      - intros fields value evs Hobj Hin.
        apply (Hfail (Js.Error "Cannot convert object to primitive value")).
        rewrite Hobj. exact (toString_own_key fields value Hin).
      - intros text ->. reflexivity. }
  - intros agentText Htext room_ create logs mkdir open_log agent dial.
    assert (Hrun : forall evs,
      make_call body amb evs
      = match Server.createRoom_failure amb with
        | Some _ => [create; failed]
        | None =>
            match Server.logs_dir_exists amb, Server.mkdir_failure amb with
            | false, Some _ => [create; Server.mkdirSync logs; failed]
            | _, _ =>
                match Server.createWriteStream_failure amb with
                | Some _ => [create] ++ mkdir ++ [open_log; failed]
                | None =>
                    match Server.spawn_failure amb with
                    | Some _ => [create] ++ mkdir ++ [open_log; agent; failed]
                    | None =>
                        [create] ++ mkdir ++ [open_log; agent; Server.setTimeout 2000]
                        ++ (run_events
                              (Server.mkCall room_ phone (Server.agentId body) "" ""
                                 Server.TimerPending) evs).2
                    end
                end
            end
        end).
    { intros evs. unfold Server.make_call, Server.make_call_request,
        Server.make_call_try.
      rewrite Hto, Htruthy, Hag, Htext, Hk, Hs. subst mkdir.
      cbn [negb orb Server.bind Server.pure app].
      destruct (Server.createRoom_failure amb); [reflexivity|].
      destruct (Server.logs_dir_exists amb), (Server.mkdir_failure amb),
        (Server.createWriteStream_failure amb), (Server.spawn_failure amb);
        reflexivity. }
    split; [|split; [|split; [|split]]].
    + intros Hcr Hlogs Hcw Hsp evsA evsB evsC now code HA HB.
      rewrite Hrun, Hcr, Hcw, Hsp.
      rewrite (run_call_flow
                 (Server.mkCall room_ phone (Server.agentId body) "" ""
                    Server.TimerPending)
                 evsA evsB evsC now code eq_refl HA HB).
      cbn [Server.roomName Server.phoneNumber Server.call_agentId].
      unfold Observe.relayed.
      destruct Hlogs as [->| ->]; destruct (Server.logs_dir_exists amb);
        case_bool_decide; reflexivity.
    + intros evs Hcr. rewrite Hrun.
      destruct (Server.createRoom_failure amb); [reflexivity|contradiction].
    + intros evs Hcr Hlde Hmk. rewrite Hrun, Hcr, Hlde.
      destruct (Server.mkdir_failure amb); [reflexivity|contradiction].
    + intros evs Hcr Hlogs Hcw. rewrite Hrun, Hcr.
      destruct (Server.createWriteStream_failure amb); [|contradiction].
      destruct Hlogs as [->| ->]; [reflexivity|].
      destruct (Server.logs_dir_exists amb); reflexivity.
    + intros evs Hcr Hlogs Hcw Hsp. rewrite Hrun, Hcr, Hcw.
      destruct (Server.spawn_failure amb); [|contradiction].
      destruct Hlogs as [->| ->]; [reflexivity|].
      destruct (Server.logs_dir_exists amb); reflexivity.
Qed.


(** The timer's callback. *)
Lemma on_event_timer (c : Server.call) (now : Z) :
  Server.dispatch c = Server.TimerPending ->
  on_event c (Server.TimerFired now)
  = (Server.with_dispatch c (Server.Dispatching "" ""),
     [spawn_dispatch (Server.roomName c) (Server.phoneNumber c) now]).
Proof. intros Hd. unfold Server.on_event. now rewrite Hd. Qed.

(** Every other callback, while the dial command runs. *)
Lemma on_event_dispatching (c : Server.call) (output error : string)
  (ev : Server.event) :
  Server.dispatch c = Server.Dispatching output error ->
  Observe.is_DispatchClose ev = false ->
  (on_event c ev).2 = [] /\
  ((exists o e, Server.dispatch (on_event c ev).1 = Server.Dispatching o e) \/
   Server.dispatch (on_event c ev).1 = Server.Crashed) /\
  same_call c (on_event c ev).1.
Proof.
  intros Hd Hev. unfold Server.on_event. rewrite Hd.
  destruct ev; try discriminate Hev; cbn; rewrite ?Hd;
    (split; [reflexivity|]); (split; [|repeat split]); eauto.
Qed.

(** What a run of callbacks can have done, from a running dial command on. *)
Lemma run_shape_dispatching (c : Server.call) (output error : string)
  (evs : list Server.event) :
  Server.dispatch c = Server.Dispatching output error ->
  match Server.dispatch (run_events c evs).1 with
  | Server.TimerPending => False
  | Server.Dispatching _ _ => (run_events c evs).2 = []
  | Server.DispatchClosed =>
      exists err code,
        (run_events c evs).2
        = Observe.relayed (Server.roomName c) (Server.phoneNumber c)
            (Server.call_agentId c) err code
  | Server.Crashed =>
      (run_events c evs).2 = [] \/
      exists err code,
        (run_events c evs).2
        = Observe.relayed (Server.roomName c) (Server.phoneNumber c)
            (Server.call_agentId c) err code
  end.
Proof.
  revert c output error.
  induction evs as [|ev evs IH]; intros c output error Hd.
  - simpl. now rewrite Hd.
  - cbn [Server.run_events].
    destruct (Observe.is_DispatchClose ev) eqn:Hev.
    + destruct ev; try discriminate Hev.
      rewrite (on_event_close c output error code Hd).
      destruct (run_after_close (Server.with_dispatch c Server.DispatchClosed) evs
                  (or_introl eq_refl)) as [Hes Hd'].
      destruct (run_events (Server.with_dispatch c Server.DispatchClosed) evs)
        as [c2 es2]. cbn [fst snd] in *. subst es2.
      rewrite app_nil_r. destruct Hd' as [-> | ->]; eauto.
    + destruct (on_event_dispatching c output error ev Hd Hev)
        as (Hes & Hd1 & Hr & Hp & Ha).
      destruct (on_event c ev) as [c1 es1]. cbn [fst snd] in *. subst es1.
      destruct Hd1 as [(o & e & Hd1)|Hd1].
      * specialize (IH c1 o e Hd1).
        destruct (run_events c1 evs) as [c2 es2]. cbn [fst snd app] in *.
        rewrite <- Hr, <- Hp, <- Ha. exact IH.
      * rewrite (run_crashed c1 evs Hd1). cbn [fst snd app]. rewrite Hd1. now left.
Qed.

(** The same, from the pending timer on. *)
Lemma run_shape_pending (c : Server.call) (evs : list Server.event) :
  Server.dispatch c = Server.TimerPending ->
  match Server.dispatch (run_events c evs).1 with
  | Server.TimerPending => (run_events c evs).2 = []
  | Server.Dispatching _ _ =>
      exists now,
        (run_events c evs).2
        = [spawn_dispatch (Server.roomName c) (Server.phoneNumber c) now]
  | Server.DispatchClosed =>
      exists now err code,
        (run_events c evs).2
        = spawn_dispatch (Server.roomName c) (Server.phoneNumber c) now
          :: Observe.relayed (Server.roomName c) (Server.phoneNumber c)
               (Server.call_agentId c) err code
  | Server.Crashed =>
      (run_events c evs).2 = [] \/
      exists now,
        (run_events c evs).2
        = [spawn_dispatch (Server.roomName c) (Server.phoneNumber c) now] \/
        exists err code,
          (run_events c evs).2
          = spawn_dispatch (Server.roomName c) (Server.phoneNumber c) now
            :: Observe.relayed (Server.roomName c) (Server.phoneNumber c)
                 (Server.call_agentId c) err code
  end.
Proof.
  revert c. induction evs as [|ev evs IH]; intros c Hd.
  - simpl. now rewrite Hd.
  - cbn [Server.run_events].
    destruct (Observe.is_TimerFired ev) eqn:Hev.
    + destruct ev; try discriminate Hev.
      rewrite (on_event_timer c now Hd).
      pose proof (run_shape_dispatching
                    (Server.with_dispatch c (Server.Dispatching "" "")) "" "" evs eq_refl)
        as Hrest.
      destruct (run_events (Server.with_dispatch c (Server.Dispatching "" "")) evs)
        as [c2 es2]. cbn [fst snd app] in *.
      cbn [Server.with_dispatch Server.roomName Server.phoneNumber
           Server.call_agentId] in Hrest.
      destruct (Server.dispatch c2); [contradiction| | |].
      * subst es2. eauto.
      * destruct Hrest as (err & code & ->). eauto.
      * right. exists now. destruct Hrest as [->|(err & code & ->)]; eauto.
    + assert (Hstep : (on_event c ev).2 = [] /\
                      (Server.dispatch (on_event c ev).1 = Server.TimerPending \/
                       Server.dispatch (on_event c ev).1 = Server.Crashed) /\
                      same_call c (on_event c ev).1).
      { unfold Server.on_event. rewrite Hd.
        destruct ev; try discriminate Hev; cbn; rewrite ?Hd;
          repeat split; auto. }
      destruct (on_event c ev) as [c1 es1]. cbn [fst snd] in Hstep.
      destruct Hstep as (-> & [Hd1|Hd1] & Hr & Hp & Ha).
      * specialize (IH c1 Hd1).
        destruct (run_events c1 evs) as [c2 es2]. cbn [fst snd app] in *.
        rewrite <- Hr, <- Hp, <- Ha. exact IH.
      * rewrite (run_crashed c1 evs Hd1). cbn [fst snd app]. rewrite Hd1. now left.
Qed.

(** C2: when the dial command closes with a code other than 0 (or is
    ended by a signal), all the handler does is kill the agent process
    and answer 500, the error text being what the command wrote to its
    standard error ('Unknown error' when it wrote nothing); later events
    cause nothing further.  Over the whole request the room was created
    once and never deleted, the agent and the dial command were each
    spawned once, and the timer was armed once. *)
Theorem dispatch_failure_recovery (body : Server.MakeCallBody) (amb : Server.Ambient)
  (es0 : list Server.effect) (c0 : Server.call)
  (evs1 evs2 : list Server.event) (output error : string) (code : option Z) :
  make_call_request body amb = (es0, Some c0) ->
  Server.dispatch (run_events c0 evs1).1 = Server.Dispatching output error ->
  code <> Some 0 ->
  let trace := make_call body amb (evs1 ++ Server.DispatchClose code :: evs2) in
  trace
  = es0 ++ (run_events c0 evs1).2
    ++ [Server.kill Server.agentProcess;
        Server.json 500
          [("error",
            Js.JStr ("SIP call failed: " +:+
                     (if String.eqb error "" then "Unknown error" else error)))]] /\
  Observe.occurrences Observe.is_createRoom trace = 1%nat /\
  Observe.occurrences Observe.is_deleteRoom trace = 0%nat /\
  Observe.occurrences (Observe.is_spawn Server.agentProcess) trace = 1%nat /\
  Observe.occurrences Observe.is_setTimeout trace = 1%nat /\
  Observe.occurrences (Observe.is_spawn Server.dispatchProcess) trace = 1%nat.
Proof.
  intros Hreq Hd Hcode trace.
  assert (Htrace : trace
    = es0 ++ (run_events c0 evs1).2
      ++ Observe.relayed (Server.roomName (run_events c0 evs1).1)
           (Server.phoneNumber (run_events c0 evs1).1)
           (Server.call_agentId (run_events c0 evs1).1) error code).
  { unfold trace, Server.make_call. rewrite Hreq, run_events_app.
    cbn [snd Server.run_events].
    rewrite (on_event_close _ output error code Hd).
    destruct (run_after_close
                (Server.with_dispatch (run_events c0 evs1).1 Server.DispatchClosed)
                evs2 (or_introl eq_refl)) as [Hes _].
    destruct (run_events
                (Server.with_dispatch (run_events c0 evs1).1 Server.DispatchClosed) evs2)
      as [c2 es2]. cbn [fst snd] in *. subst es2. now rewrite app_nil_r. }
  assert (Hrelayed : forall r p a,
    Observe.relayed r p a error code
    = [Server.kill Server.agentProcess;
       Server.json 500
         [("error",
           Js.JStr ("SIP call failed: " +:+
                    (if String.eqb error "" then "Unknown error" else error)))]]).
  { intros r p a. unfold Observe.relayed. now rewrite bool_decide_eq_false_2. }
  rewrite Hrelayed in Htrace. split; [exact Htrace|].
  apply make_call_request_pending in Hreq
    as (to_ & agentText & _ & _ & _ & _ & _ & _ & _ & _ & _ & -> & ->).
  pose proof (run_shape_pending
                (Server.mkCall
                   (Server.room_name agentText (Server.clock_now amb))
                   (Server.e164 to_) (Server.agentId body) "" "" Server.TimerPending)
                evs1 eq_refl) as Hshape.
  rewrite Hd in Hshape. destruct Hshape as [now Hes1].
  rewrite Htrace, Hes1. unfold Observe.started, Observe.occurrences.
  destruct (Server.logs_dir_exists amb); repeat split; reflexivity.
Qed.

Lemma occurrences_none (kind : Server.effect -> bool) (trace : list Server.effect) :
  Forall (fun e => kind e = false) trace -> Observe.occurrences kind trace = 0%nat.
Proof.
  unfold Observe.occurrences.
  induction 1 as [|e trace He _ IH]; [reflexivity|]. simpl. now rewrite He.
Qed.

(** The callbacks create no room, delete none, arm no timer and spawn no
    agent. *)
Lemma run_effects_kinds (c : Server.call) (evs : list Server.event) :
  Forall (fun e => Observe.is_createRoom e = false /\
                   Observe.is_deleteRoom e = false /\
                   Observe.is_setTimeout e = false /\
                   Observe.is_spawn Server.agentProcess e = false)
         (run_events c evs).2.
Proof.
  revert c. induction evs as [|ev evs IH]; intros c; [constructor|].
  cbn [Server.run_events].
  assert (Hstep : Forall (fun e => Observe.is_createRoom e = false /\
                                   Observe.is_deleteRoom e = false /\
                                   Observe.is_setTimeout e = false /\
                                   Observe.is_spawn Server.agentProcess e = false)
                         (on_event c ev).2).
  { unfold Server.on_event.
    destruct (Server.dispatch c), ev; cbn [snd]; try constructor;
      try case_bool_decide; cbn [snd]; repeat constructor. }
  destruct (on_event c ev) as [c1 es1]. specialize (IH c1).
  destruct (run_events c1 evs) as [c2 es2]. cbn [fst snd] in *.
  now apply Forall_app.
Qed.

(** The dial command is spawned by the timer's callback and by nothing
    else. *)
Lemma no_dial_without_timer (c : Server.call) (evs : list Server.event) :
  Forall (fun ev => Observe.is_TimerFired ev = false) evs ->
  Forall (fun e => Observe.is_spawn Server.dispatchProcess e = false)
         (run_events c evs).2.
Proof.
  intros Hevs. revert c.
  induction Hevs as [|ev evs Hev _ IH]; intros c; [constructor|].
  cbn [Server.run_events].
  assert (Hstep : Forall (fun e => Observe.is_spawn Server.dispatchProcess e = false)
                         (on_event c ev).2).
  { unfold Server.on_event.
    destruct (Server.dispatch c), ev; try discriminate Hev; cbn [snd];
      try constructor; try case_bool_decide; cbn [snd]; repeat constructor. }
  destruct (on_event c ev) as [c1 es1]. specialize (IH c1).
  destruct (run_events c1 evs) as [c2 es2]. cbn [fst snd] in *.
  now apply Forall_app.
Qed.

(** When the handler answers before reaching its [setTimeout], it has
    armed no timer and spawned no dial command, and the only room it can
    have asked for is the one named after the agent id and the clock. *)
Lemma make_call_request_early (body : Server.MakeCallBody) (amb : Server.Ambient)
  (es : list Server.effect) :
  make_call_request body amb = (es, None) ->
  Forall (fun e => Observe.is_setTimeout e = false /\
                   Observe.is_deleteRoom e = false /\
                   Observe.is_spawn Server.dispatchProcess e = false) es /\
  (forall opts, Server.createRoom opts ∈ es ->
     exists to_ agentText,
       Server.to body = Js.JStr to_ /\ to_ <> "" /\
       Js.truthy (Server.agentId body) = true /\
       Js.toString (Server.agentId body) = inr agentText /\
       Server.credentials_configured env = true /\
       opts = Server.create_options
                (Server.room_name agentText (Server.clock_now amb))
                (Server.e164 to_) (Server.agentId body)).
Proof.
  unfold Server.make_call_request, Server.make_call_try, Server.credentials_configured.
  destruct body as [to_v agent], amb as [now iso crf lde mkf cwf spf].
  cbn [Server.to Server.agentId Server.clock_now Server.clock_iso
       Server.createRoom_failure Server.logs_dir_exists Server.mkdir_failure
       Server.createWriteStream_failure Server.spawn_failure].
  assert (Hnil : forall P : Server.CreateOptions -> Prop,
            forall st b opts, Server.createRoom opts ∈ [Server.json st b] -> P opts).
  { intros P st b opts Hin. apply list_elem_of_singleton in Hin. discriminate Hin. }
  destruct (Js.truthy to_v) eqn:Hto; cbn [negb orb];
    [|intros [= <-]; split; [repeat constructor|apply Hnil]].
  destruct (Js.truthy agent) eqn:Hag; cbn [negb orb];
    [|intros [= <-]; split; [repeat constructor|apply Hnil]].
  destruct to_v as [| | | |to_| |];
    try (intros [= <-]; split; [repeat constructor|apply Hnil]).
  destruct (Js.toString agent) as [err|agentText] eqn:Htext;
    [intros [= <-]; split; [repeat constructor|apply Hnil]|].
  cbn [Server.bind Server.pure app].
  assert (Hne : to_ <> "") by now apply truthy_nonempty.
  destruct (Js.truthy (Server.LIVEKIT_API_KEY env)); cbn [negb orb];
    [|intros [= <-]; split; [repeat constructor|apply Hnil]].
  destruct (Js.truthy (Server.LIVEKIT_API_SECRET env)); cbn [negb orb];
    [|intros [= <-]; split; [repeat constructor|apply Hnil]].
  assert (Hopts : forall opts rest,
    Server.createRoom opts
      ∈ Server.createRoom
          (Server.create_options (Server.room_name agentText now) (Server.e164 to_) agent)
        :: rest ->
    Forall (fun e => Observe.is_createRoom e = false) rest ->
    exists to_0 agentText0,
      Js.JStr to_ = Js.JStr to_0 /\ to_0 <> "" /\ true = true /\
      @inr Js.exn string agentText = inr agentText0 /\ true && true = true /\
      opts = Server.create_options (Server.room_name agentText0 now)
               (Server.e164 to_0) agent).
  { intros opts rest Hin Hrest. apply elem_of_cons in Hin as [[= ->]|Hin].
    - exists to_, agentText. repeat split; auto.
    - rewrite Forall_forall in Hrest. apply Hrest in Hin. discriminate Hin. }
  destruct crf as [e|]; cbn.
  { intros [= <-]. split; [repeat constructor|].
    intros opts Hin. apply (Hopts opts _ Hin). repeat constructor. }
  destruct lde, mkf as [e|], cwf as [e'|], spf as [e''|]; cbn; try discriminate;
    intros [= <-]; (split; [repeat constructor|]);
    intros opts Hin; apply (Hopts opts _ Hin); repeat constructor.
Qed.

Lemma started_members (body : Server.MakeCallBody) (amb : Server.Ambient)
  (agentText phone : string) (e : Server.effect) :
  e ∈ started body amb agentText phone ->
  let room_ := Server.room_name agentText (Server.clock_now amb) in
  e = Server.createRoom (Server.create_options room_ phone (Server.agentId body)) \/
  e = Server.mkdirSync logsDir \/
  e = Server.createWriteStream (agentLogFile room_ (Server.clock_iso amb)) \/
  e = spawn_agent room_ (Server.agentId body) \/
  e = Server.setTimeout 2000.
Proof.
  unfold Observe.started.
  destruct (Server.logs_dir_exists amb); cbn [app];
    rewrite !elem_of_cons, elem_of_nil; tauto.
Qed.

(** Once the timer has fired, no further dial command is spawned. *)
Lemma no_dial_after_timer (c : Server.call) (evs : list Server.event) :
  Server.dispatch c <> Server.TimerPending ->
  Forall (fun e => Observe.is_spawn Server.dispatchProcess e = false)
         (run_events c evs).2.
Proof.
  revert c. induction evs as [|ev evs IH]; intros c Hd; [constructor|].
  cbn [Server.run_events].
  assert (Hstep : Forall (fun e => Observe.is_spawn Server.dispatchProcess e = false)
                         (on_event c ev).2 /\
                  Server.dispatch (on_event c ev).1 <> Server.TimerPending).
  { unfold Server.on_event.
    destruct (Server.dispatch c) eqn:Hc; [contradiction|..];
      destruct ev; try case_bool_decide; simpl; rewrite ?Hc;
      (split; [repeat constructor|discriminate]). }
  destruct (on_event c ev) as [c1 es1]. cbn [fst snd] in Hstep.
  destruct Hstep as [Hes Hd1]. specialize (IH c1 Hd1).
  destruct (run_events c1 evs) as [c2 es2]. cbn [fst snd] in *.
  now apply Forall_app.
Qed.

(** C3: the wait between the agent and the dial command is a timer of
    2000 ms, whatever the request and whatever the agent does.  Every
    timer the handler arms has delay 2000.  When the request gets as far
    as spawning the agent, the handler arms that timer right after the
    spawn, in the same turn of the event loop: the effects up to and
    including it are the same for every sequence of later events, with no
    timer and no dial command before.  The dial command waits for that
    timer: as long as the timer has not fired nothing is added, whatever
    the agent prints and whether it starts, fails to start or exits; and
    when the timer fires the dial command is spawned at once, and no
    other timer or dial command follows.  For no request at all is a dial
    command spawned without the timer having fired. *)
Theorem agent_wait_is_two_seconds (body : Server.MakeCallBody) (amb : Server.Ambient) :
  (forall evs delay,
     Server.setTimeout delay ∈ make_call body amb evs -> delay = 2000) /\
  (forall to_ agentText,
     Server.to body = Js.JStr to_ -> to_ <> "" ->
     Js.truthy (Server.agentId body) = true ->
     Js.toString (Server.agentId body) = inr agentText ->
     Server.credentials_configured env = true ->
     Server.createRoom_failure amb = None ->
     Server.logs_dir_exists amb = true \/ Server.mkdir_failure amb = None ->
     Server.createWriteStream_failure amb = None ->
     Server.spawn_failure amb = None ->
     let room_ := "outbound-" +:+ agentText +:+ "-" +:+ pretty (Server.clock_now amb) in
     let phone := if Js.startsWith to_ "+" then to_ else "+1" +:+ to_ in
     let agent :=
       Server.spawn Server.agentProcess "conda"
         ["run"; "-n"; "letta"; "python"; path_join dirname "../livekit-agent.py";
          "connect"; "--room"; room_]
         (Server.agent_env env (Server.agentId body)) in
     let dial := fun now : Z =>
       Server.spawn Server.dispatchProcess "lk"
         ["sip"; "participant"; "create"; "--room"; room_;
          "--trunk"; "ST_LgQdMYv7NnfA"; "--call"; phone;
          "--identity"; "sip-" +:+ pretty now]
         (Server.dispatch_env env) in
     exists before,
       Observe.occurrences Observe.is_setTimeout before = 0%nat /\
       Observe.occurrences (Observe.is_spawn Server.dispatchProcess) before = 0%nat /\
       (forall evs, exists after,
          make_call body amb evs = before ++ agent :: Server.setTimeout 2000 :: after /\
          Observe.occurrences Observe.is_setTimeout after = 0%nat) /\
       (forall evs,
          Forall (fun ev => Observe.is_TimerFired ev = false) evs ->
          make_call body amb evs = before ++ [agent; Server.setTimeout 2000]) /\
       (forall evsA now rest,
          Forall (fun ev => Observe.is_TimerFired ev = false /\
                            Observe.is_crash ev = false) evsA ->
          exists after,
            make_call body amb (evsA ++ Server.TimerFired now :: rest)
            = before ++ [agent; Server.setTimeout 2000; dial now] ++ after /\
            Observe.occurrences Observe.is_setTimeout after = 0%nat /\
            Observe.occurrences (Observe.is_spawn Server.dispatchProcess) after
            = 0%nat)) /\
  (forall evs,
     Forall (fun ev => Observe.is_TimerFired ev = false) evs ->
     Observe.occurrences (Observe.is_spawn Server.dispatchProcess)
       (make_call body amb evs) = 0%nat).
Proof.
  assert (Hcb : forall c evs e, e ∈ (run_events c evs).2 ->
            Observe.is_setTimeout e = false /\
            Observe.is_spawn Server.agentProcess e = false).
  { intros c evs e Hin.
    pose proof (run_effects_kinds c evs) as Hk.
    rewrite Forall_forall in Hk. apply Hk in Hin. tauto. }
  split; [|split].
  - intros evs delay. unfold Server.make_call.
    destruct (make_call_request body amb) as [es [c|]] eqn:Hreq.
    + apply make_call_request_pending in Hreq
        as (to_ & agentText & _ & _ & _ & _ & _ & _ & _ & _ & _ & -> & ->).
      intros Hin. apply elem_of_app in Hin as [Hin|Hin].
      * apply started_members in Hin as [Hin|[Hin|[Hin|[Hin|Hin]]]];
          try discriminate Hin. now injection Hin.
      * apply Hcb in Hin as [Hin _]. discriminate Hin.
    + apply make_call_request_early in Hreq as [Hkinds _].
      rewrite Forall_forall in Hkinds.
      intros Hin. apply Hkinds in Hin as (Hin & _). discriminate Hin.
  - intros to_ agentText Hto Hne Hag Htext Hcred Hcr Hlogs Hcw Hsp room_ phone agent dial.
    set (c := Server.mkCall (Server.room_name agentText (Server.clock_now amb))
                (Server.e164 to_) (Server.agentId body) "" "" Server.TimerPending).
    assert (Hreq : make_call_request body amb
                   = (started body amb agentText (Server.e164 to_), Some c)).
    { apply make_call_request_pending. exists to_, agentText. repeat split; auto. }
    exists (firstn (if Server.logs_dir_exists amb then 2 else 3)
                   (started body amb agentText (Server.e164 to_))).
    assert (Hstarted : started body amb agentText (Server.e164 to_)
              = firstn (if Server.logs_dir_exists amb then 2 else 3)
                       (started body amb agentText (Server.e164 to_))
                ++ [agent; Server.setTimeout 2000]).
    { unfold Observe.started. destruct (Server.logs_dir_exists amb); reflexivity. }
    assert (Hrun : forall evs,
              make_call body amb evs
              = firstn (if Server.logs_dir_exists amb then 2 else 3)
                       (started body amb agentText (Server.e164 to_))
                ++ [agent; Server.setTimeout 2000] ++ (run_events c evs).2).
    { intros evs. unfold Server.make_call. rewrite Hreq.
      rewrite Hstarted at 1. now rewrite <- app_assoc. }
    split; [|split; [|split; [|split]]].
    + unfold Observe.started. now destruct (Server.logs_dir_exists amb).
    + unfold Observe.started. now destruct (Server.logs_dir_exists amb).
    + intros evs. exists (run_events c evs).2. split; [apply Hrun|].
      apply occurrences_none, Forall_forall. intros e He. now apply Hcb in He.
    + intros evs Hevs. rewrite Hrun.
      destruct (run_before_timer c evs eq_refl Hevs) as (-> & _). reflexivity.
    + intros evsA now rest HA. rewrite Hrun, run_events_app.
      destruct (run_before_timer_alive c evsA eq_refl HA) as (-> & Hd1 & Hr & Hp & _).
      set (c1 := (run_events c evsA).1) in *.
      cbn [snd app Server.run_events]. rewrite (on_event_timer c1 now Hd1).
      exists (run_events (Server.with_dispatch c1 (Server.Dispatching "" "")) rest).2.
      destruct (run_events (Server.with_dispatch c1 (Server.Dispatching "" "")) rest)
        as [c3 es3] eqn:Hrest.
      cbn [fst snd app]. rewrite Hr, Hp. split; [reflexivity|].
      split; apply occurrences_none.
      * apply Forall_forall. intros e He.
        apply (Hcb (Server.with_dispatch c1 (Server.Dispatching "" "")) rest).
        now rewrite Hrest.
      * pose proof (no_dial_after_timer
                      (Server.with_dispatch c1 (Server.Dispatching "" "")) rest
                      ltac:(discriminate)) as Hno.
        now rewrite Hrest in Hno.
  - intros evs Hevs. apply occurrences_none. unfold Server.make_call.
    destruct (make_call_request body amb) as [es [c|]] eqn:Hreq.
    + apply make_call_request_pending in Hreq
        as (to_ & agentText & _ & _ & _ & _ & _ & _ & _ & _ & _ & -> & ->).
      apply Forall_app. split; [|now apply no_dial_without_timer].
      unfold Observe.started.
      destruct (Server.logs_dir_exists amb); repeat constructor.
    + apply make_call_request_early in Hreq as [Hkinds _].
      eapply Forall_impl; [exact Hkinds|]. intros e He. apply He.
Qed.

(** Where a room creation in a trace comes from. *)
Lemma createRoom_in_trace (body : Server.MakeCallBody) (amb : Server.Ambient)
  (evs : list Server.event) (opts : Server.CreateOptions) :
  Server.createRoom opts ∈ make_call body amb evs ->
  exists to_ agentText,
    Server.to body = Js.JStr to_ /\ to_ <> "" /\
    Js.truthy (Server.agentId body) = true /\
    Js.toString (Server.agentId body) = inr agentText /\
    Server.credentials_configured env = true /\
    opts = Server.create_options
             (Server.room_name agentText (Server.clock_now amb))
             (Server.e164 to_) (Server.agentId body).
Proof.
  unfold Server.make_call.
  destruct (make_call_request body amb) as [es [c|]] eqn:Hreq.
  - apply make_call_request_pending in Hreq
      as (to_ & agentText & Hto & Hne & Hag & Htext & Hcred & _ & _ & _ & _ & -> & ->).
    intros Hin. exists to_, agentText.
    apply elem_of_app in Hin as [Hin|Hin].
    + apply started_members in Hin as [Hin|[Hin|[Hin|[Hin|Hin]]]];
        try discriminate Hin.
      injection Hin as ->. repeat split; auto.
    + match type of Hin with
      | _ ∈ (Server.run_events _ ?c _).2 =>
          pose proof (run_effects_kinds c evs) as Hk
      end.
      rewrite Forall_forall in Hk. apply Hk in Hin as (Hin & _). discriminate Hin.
  - apply make_call_request_early in Hreq as [_ Hopts]. apply Hopts.
Qed.

Lemma createRoom_attempted (body : Server.MakeCallBody) (amb : Server.Ambient)
  (evs : list Server.event) (to_ agentText : string) :
  Server.to body = Js.JStr to_ -> to_ <> "" ->
  Js.truthy (Server.agentId body) = true ->
  Js.toString (Server.agentId body) = inr agentText ->
  Server.credentials_configured env = true ->
  Server.createRoom
    (Server.create_options
       (Server.room_name agentText (Server.clock_now amb))
       (Server.e164 to_) (Server.agentId body))
  ∈ make_call body amb evs.
Proof.
  intros Hto Hne Hag Htext Hcred.
  assert (Htruthy : Js.truthy (Js.JStr to_) = true) by now apply truthy_nonempty.
  unfold Server.make_call, Server.make_call_request, Server.make_call_try.
  unfold Server.credentials_configured in Hcred.
  apply andb_true_iff in Hcred as [Hk Hs].
  rewrite Hto, Htruthy, Hag, Htext, Hk, Hs. cbn [negb orb Server.bind Server.pure app].
  destruct (Server.createRoom_failure amb); cbn; [apply elem_of_cons; now left|].
  destruct (Server.logs_dir_exists amb), (Server.mkdir_failure amb),
    (Server.createWriteStream_failure amb), (Server.spawn_failure amb); cbn;
    apply elem_of_cons; now left.
Qed.

(** C5: two executions of the handler on the same body whose readings of
    the clock differ never create rooms of the same name, and the second
    execution does not depend on the first: if the first one asked for a
    room, so does the second, for a room named outbound-<agentId>-<its own
    reading of the clock>, and, when nothing fails on the way to its
    timer and nothing ends the process before the timer fires, it spawns
    its own dial command (lk sip participant create) for that room and
    the same number when its timer fires.  Whenever the request passes
    the handler's checks (a non-empty [to], a truthy [agentId] that has a
    conversion to a string, configured credentials), each execution asks
    for its own room, and the two requests to the room service differ. *)
Theorem make_call_not_idempotent (body : Server.MakeCallBody)
  (amb1 amb2 : Server.Ambient) (evs1 evs2 : list Server.event) :
  Server.clock_now amb1 <> Server.clock_now amb2 ->
  let first := make_call body amb1 evs1 in
  let second := make_call body amb2 evs2 in
  (forall opts1 opts2,
     Server.createRoom opts1 ∈ first -> Server.createRoom opts2 ∈ second ->
     Server.name opts1 <> Server.name opts2) /\
  (forall opts1, Server.createRoom opts1 ∈ first ->
     exists to_ agentText,
       Server.to body = Js.JStr to_ /\
       Js.toString (Server.agentId body) = inr agentText /\
       let room2 := "outbound-" +:+ agentText +:+ "-"
                    +:+ pretty (Server.clock_now amb2) in
       let phone := if Js.startsWith to_ "+" then to_ else "+1" +:+ to_ in
       Server.createRoom
         (Server.mkCreateOptions room2 300 2
            (Js.JObj [("agent_id", Server.agentId body);
                      ("phone_number", Js.JStr phone)]))
       ∈ second /\
       (Server.createRoom_failure amb2 = None ->
        Server.logs_dir_exists amb2 = true \/ Server.mkdir_failure amb2 = None ->
        Server.createWriteStream_failure amb2 = None ->
        Server.spawn_failure amb2 = None ->
        forall evsA now rest,
          Forall (fun ev => Observe.is_TimerFired ev = false /\
                            Observe.is_crash ev = false) evsA ->
          evs2 = evsA ++ Server.TimerFired now :: rest ->
          Server.spawn Server.dispatchProcess "lk"
            ["sip"; "participant"; "create"; "--room"; room2;
             "--trunk"; "ST_LgQdMYv7NnfA"; "--call"; phone;
             "--identity"; "sip-" +:+ pretty now]
            (Server.dispatch_env env)
          ∈ second)) /\
  (forall to_ agentText,
     Server.to body = Js.JStr to_ -> to_ <> "" ->
     Js.truthy (Server.agentId body) = true ->
     Js.toString (Server.agentId body) = inr agentText ->
     Server.credentials_configured env = true ->
     let phone := if Js.startsWith to_ "+" then to_ else "+1" +:+ to_ in
     let room := fun now : Z =>
       Server.createRoom
         (Server.mkCreateOptions
            ("outbound-" +:+ agentText +:+ "-" +:+ pretty now) 300 2
            (Js.JObj [("agent_id", Server.agentId body);
                      ("phone_number", Js.JStr phone)])) in
     room (Server.clock_now amb1) ∈ first /\
     room (Server.clock_now amb2) ∈ second /\
     room (Server.clock_now amb1) <> room (Server.clock_now amb2)).
Proof.
  intros Hclock first second. split; [|split].
  3:{ intros to_ agentText Hto Hne Hag Htext Hcred phone room.
      split; [|split].
      - exact (createRoom_attempted body amb1 evs1 to_ agentText Hto Hne Hag Htext Hcred).
      - exact (createRoom_attempted body amb2 evs2 to_ agentText Hto Hne Hag Htext Hcred).
      - unfold room. intros [= Heq].
        do 3 apply (inj (String.app _)) in Heq.
        now apply (inj pretty) in Heq. }
  - intros opts1 opts2 H1 H2.
    apply createRoom_in_trace in H1 as (to1 & text1 & _ & _ & _ & Ht1 & _ & ->).
    apply createRoom_in_trace in H2 as (to2 & text2 & _ & _ & _ & Ht2 & _ & ->).
    rewrite Ht1 in Ht2. injection Ht2 as <-.
    cbn [Server.create_options Server.name]. unfold Server.room_name. intros Heq.
    do 3 apply (inj (String.app _)) in Heq.
    now apply (inj pretty) in Heq.
  - intros opts1 H1.
    apply createRoom_in_trace in H1 as (to_ & agentText & Hto & Hne & Hag & Htext & Hcred & _).
    exists to_, agentText. split; [exact Hto|]. split; [exact Htext|].
    cbv zeta. split.
    { exact (createRoom_attempted body amb2 evs2 to_ agentText Hto Hne Hag Htext Hcred). }
    intros Hcr Hlogs Hcw Hsp evsA now rest HA ->.
    set (c := Server.mkCall (Server.room_name agentText (Server.clock_now amb2))
                (Server.e164 to_) (Server.agentId body) "" "" Server.TimerPending).
    assert (Hreq : make_call_request body amb2
                   = (started body amb2 agentText (Server.e164 to_), Some c)).
    { apply make_call_request_pending. exists to_, agentText. repeat split; auto. }
    unfold second, Server.make_call. rewrite Hreq.
    apply elem_of_app. right. rewrite run_events_app.
    destruct (run_before_timer_alive c evsA eq_refl HA) as (-> & Hd1 & Hr & Hp & _).
    set (c1 := (run_events c evsA).1) in *.
    cbn [fst snd app Server.run_events]. rewrite (on_event_timer c1 now Hd1).
    destruct (run_events (Server.with_dispatch c1 (Server.Dispatching "" "")) rest)
      as [c3 es3]. cbn [snd app].
    apply elem_of_cons. left. rewrite Hr, Hp. reflexivity.
Qed.

End MakeCallFacts.

(** *** Concrete runs of the make-call endpoint *)

Example make_call_early_answers :
  let join := fun a b : string => a +:+ "/" +:+ b in
  let env : gmap string string :=
    {[ "LIVEKIT_API_KEY" := "APIkey"; "LIVEKIT_API_SECRET" := "secret" ]} in
  let amb := Server.mkAmbient 1700000000000 "2025-01-02T03:04:05.678Z" None true None None None in
  let run := fun e body => Server.make_call join "/srv/server" e body amb [] in
  run env (Server.mkMakeCallBody (Js.JStr "5551234567") Js.JUndefined)
  = [Server.json 400 [("error", Js.JStr "Phone number and agentId are required")]] /\
  run env (Server.mkMakeCallBody (Js.JStr "") (Js.JStr "agent-1"))
  = [Server.json 400 [("error", Js.JStr "Phone number and agentId are required")]] /\
  run env (Server.mkMakeCallBody (Js.JNum 5551234567) (Js.JStr "agent-1"))
  = [Server.json 500 [("error", Js.JStr "Failed to make call")]] /\
  run env (Server.mkMakeCallBody (Js.JStr "5551234567")
             (Js.JObj [("toString", Js.JNum 1)]))
  = [Server.json 500 [("error", Js.JStr "Failed to make call")]] /\
  run ∅ (Server.mkMakeCallBody (Js.JStr "5551234567")
           (Js.JArr [Js.JObj [("toString", Js.JNull)]]))
  = [Server.json 500 [("error", Js.JStr "Failed to make call")]] /\
  run ∅ (Server.mkMakeCallBody (Js.JStr "5551234567") (Js.JStr "agent-1"))
  = [Server.json 503 [("error", Js.JStr "LiveKit not configured - demo mode only")]].
Proof. repeat split; reflexivity. Qed.

(** Room names for agent ids that are not strings. *)
Example room_names_of_other_agent_ids :
  let name := fun agent =>
    match Js.toString agent with
    | inr text => Some (Server.room_name text 1700000000000)
    | inl _ => None
    end in
  name (Js.JNum 42) = Some "outbound-42-1700000000000" /\
  name (Js.JNum (10 ^ 21)) = Some "outbound-1e+21-1700000000000" /\
  name (Js.JNum 9007199254740993) = Some "outbound-9007199254740992-1700000000000" /\
  name (Js.JBool true) = Some "outbound-true-1700000000000" /\
  name (Js.JArr [Js.JNum 1; Js.JNull; Js.JStr "a"]) = Some "outbound-1,,a-1700000000000" /\
  name (Js.JObj [("id", Js.JNum 1)]) = Some "outbound-[object Object]-1700000000000" /\
  name (Js.JObj [("toString", Js.JNum 1)]) = None.
Proof. repeat split; vm_compute; reflexivity. Qed.

(** What C1 says in so many words, that every request with both fields
    and configured credentials runs through all the steps, does not hold:
    when the room service rejects [createRoom], the handler answers 500
    at once; no agent is spawned, no timer armed and no dial command run,
    whatever events follow. *)
Lemma make_call_stops_when_createRoom_fails :
  let join := fun a b : string => a +:+ "/" +:+ b in
  let env : gmap string string :=
    {[ "LIVEKIT_API_KEY" := "APIkey"; "LIVEKIT_API_SECRET" := "secret";
       "LIVEKIT_WS_URL" := "wss://rtc.example" ]} in
  let body := Server.mkMakeCallBody (Js.JStr "5551234567") (Js.JStr "agent-1") in
  let amb := Server.mkAmbient 1700000000000 "2025-01-02T03:04:05.678Z"
               (Some (Js.Error "room service unreachable")) true None None None in
  let trace := Server.make_call join "/srv/server" env body amb
                 [Server.TimerFired 1700000002000; Server.DispatchClose (Some 0)] in
  Server.credentials_configured env = true /\
  trace
  = [Server.createRoom
       (Server.mkCreateOptions "outbound-agent-1-1700000000000" 300 2
          (Js.JObj [("agent_id", Js.JStr "agent-1");
                    ("phone_number", Js.JStr "+15551234567")]));
     Server.respond 500 (Js.JObj [("error", Js.JStr "Failed to make call")])] /\
  Observe.occurrences (Observe.is_spawn Server.agentProcess) trace = 0%nat /\
  Observe.occurrences (Observe.is_spawn Server.dispatchProcess) trace = 0%nat.
Proof. repeat split; reflexivity. Qed.

(** A call that goes through: the agent prints a line, the timer fires,
    the dial command prints a line and exits with code 0. *)
Lemma make_call_sequence_witness :
  let join := fun a b : string => a +:+ "/" +:+ b in
  let env : gmap string string :=
    {[ "LIVEKIT_API_KEY" := "APIkey"; "LIVEKIT_API_SECRET" := "secret";
       "LIVEKIT_WS_URL" := "wss://rtc.example" ]} in
  let body := Server.mkMakeCallBody (Js.JStr "5551234567") (Js.JStr "agent-1") in
  let amb := Server.mkAmbient 1700000000000 "2025-01-02T03:04:05.678Z" None false None
               None None in
  let room_ := "outbound-agent-1-1700000000000" in
  Server.make_call join "/srv/server" env body amb
    ([Server.AgentStdout "registered worker"]
     ++ Server.TimerFired 1700000002000
     :: [Server.DispatchStdout "SIPCallID: SCL_1"]
     ++ Server.DispatchClose (Some 0) :: [Server.AgentClose None])
  = [Server.createRoom
       (Server.mkCreateOptions room_ 300 2
          (Js.JObj [("agent_id", Js.JStr "agent-1");
                    ("phone_number", Js.JStr "+15551234567")]));
     Server.mkdirSync "/srv/server/logs";
     Server.createWriteStream
       "/srv/server/logs/agent-outbound-agent-1-1700000000000-2025-01-02T03-04-05.log";
     Server.spawn Server.agentProcess "conda"
       ["run"; "-n"; "letta"; "python"; "/srv/server/../livekit-agent.py";
        "connect"; "--room"; room_]
       (Server.agent_env env (Js.JStr "agent-1"));
     Server.setTimeout 2000;
     Server.spawn Server.dispatchProcess "lk"
       ["sip"; "participant"; "create"; "--room"; room_;
        "--trunk"; "ST_LgQdMYv7NnfA"; "--call"; "+15551234567";
        "--identity"; "sip-1700000002000"]
       (Server.dispatch_env env);
     Server.respond 200
       (Js.JObj [("roomName", Js.JStr room_);
                 ("status", Js.JStr "dispatched");
                 ("phoneNumber", Js.JStr "+15551234567");
                 ("agentId", Js.JStr "agent-1")])].
Proof.
  intros join env body amb room_.
  refine (proj1 (proj1 (proj2 (make_call_sequence join "/srv/server" env body amb
                                 "5551234567" eq_refl _ eq_refl eq_refl))
                   "agent-1" eq_refl)
            eq_refl (or_intror eq_refl) eq_refl eq_refl
            [Server.AgentStdout "registered worker"]
            [Server.DispatchStdout "SIPCallID: SCL_1"]
            [Server.AgentClose None] 1700000002000 (Some 0) _ _).
  - discriminate.
  - repeat constructor.
  - repeat constructor.
Defined.

(** A call whose dial command fails with exit code 1 after complaining on
    its standard error. *)
Lemma dispatch_failure_recovery_witness :
  let join := fun a b : string => a +:+ "/" +:+ b in
  let env : gmap string string :=
    {[ "LIVEKIT_API_KEY" := "APIkey"; "LIVEKIT_API_SECRET" := "secret" ]} in
  let body := Server.mkMakeCallBody (Js.JStr "+15551234567") (Js.JStr "agent-1") in
  let amb := Server.mkAmbient 1700000000000 "2025-01-02T03:04:05.678Z" None true None None None in
  let trace := Server.make_call join "/srv/server" env body amb
                 ([Server.TimerFired 1700000002000; Server.DispatchStderr "trunk not found"]
                  ++ Server.DispatchClose (Some 1) :: [Server.AgentClose None]) in
  last trace
  = Some (Server.json 500 [("error", Js.JStr "SIP call failed: trunk not found")]) /\
  Observe.occurrences Observe.is_createRoom trace = 1%nat /\
  Observe.occurrences Observe.is_deleteRoom trace = 0%nat /\
  Observe.occurrences (Observe.is_spawn Server.agentProcess) trace = 1%nat /\
  Observe.occurrences Observe.is_setTimeout trace = 1%nat /\
  Observe.occurrences (Observe.is_spawn Server.dispatchProcess) trace = 1%nat.
Proof.
  intros join env body amb trace.
  destruct (dispatch_failure_recovery join "/srv/server" env body amb
              (Observe.started join "/srv/server" env body amb "agent-1" "+15551234567")
              (Server.mkCall "outbound-agent-1-1700000000000" "+15551234567"
                 (Js.JStr "agent-1") "" "" Server.TimerPending)
              [Server.TimerFired 1700000002000; Server.DispatchStderr "trunk not found"]
              [Server.AgentClose None] "" "trunk not found" (Some 1)
              eq_refl eq_refl ltac:(discriminate))
    as [Htrace Hcounts].
  split; [|exact Hcounts].
  fold trace in Htrace. rewrite Htrace. reflexivity.
Defined.

(** An agent that prints, complains and exits before the timer fires: no
    dial command is spawned. *)
Lemma agent_wait_is_two_seconds_witness :
  let join := fun a b : string => a +:+ "/" +:+ b in
  let env : gmap string string :=
    {[ "LIVEKIT_API_KEY" := "APIkey"; "LIVEKIT_API_SECRET" := "secret" ]} in
  let body := Server.mkMakeCallBody (Js.JStr "+15551234567") (Js.JStr "agent-1") in
  let amb := Server.mkAmbient 1700000000000 "2025-01-02T03:04:05.678Z" None true None None None in
  Observe.occurrences (Observe.is_spawn Server.dispatchProcess)
    (Server.make_call join "/srv/server" env body amb
       [Server.AgentStdout "registered worker"; Server.AgentStderr "no such agent";
        Server.AgentClose (Some 1)])
  = 0%nat.
Proof.
  intros join env body amb.
  refine (proj2 (proj2 (agent_wait_is_two_seconds join "/srv/server" env body amb)) _ _).
  repeat constructor.
Defined.

(** The same request at two different instants: two rooms, two names. *)
Lemma make_call_not_idempotent_witness :
  let join := fun a b : string => a +:+ "/" +:+ b in
  let env : gmap string string :=
    {[ "LIVEKIT_API_KEY" := "APIkey"; "LIVEKIT_API_SECRET" := "secret" ]} in
  let body := Server.mkMakeCallBody (Js.JStr "+15551234567") (Js.JStr "agent-1") in
  let amb1 := Server.mkAmbient 1700000000000 "2025-01-02T03:04:05.678Z" None true None None None in
  let amb2 := Server.mkAmbient 1700000000001 "2025-01-02T03:04:05.679Z" None true None None None in
  let opts1 := Server.create_options "outbound-agent-1-1700000000000" "+15551234567"
                 (Js.JStr "agent-1") in
  let opts2 := Server.create_options "outbound-agent-1-1700000000001" "+15551234567"
                 (Js.JStr "agent-1") in
  (Server.createRoom opts1 ∈ Server.make_call join "/srv/server" env body amb1 [] /\
   Server.createRoom opts2 ∈ Server.make_call join "/srv/server" env body amb2 []) /\
  bool_decide (Server.name opts1 = Server.name opts2) = false.
Proof.
  intros join env body amb1 amb2 opts1 opts2.
  assert (H1 : Server.createRoom opts1
               ∈ Server.make_call join "/srv/server" env body amb1 [])
    by apply list_elem_of_here.
  assert (H2 : Server.createRoom opts2
               ∈ Server.make_call join "/srv/server" env body amb2 [])
    by apply list_elem_of_here.
  split; [now split|].
  apply bool_decide_eq_false.
  apply (proj1 (make_call_not_idempotent join "/srv/server" env body amb1 amb2 [] []
                  ltac:(discriminate)) opts1 opts2 H1 H2).
Defined.

(* ===================================================================== *)
(** * Further properties                                                  *)
(* ===================================================================== *)

(** ** The make-call endpoint: responses and the agent process *)

Section MakeCallResponses.
Variable path_join : string -> string -> string.
Variable dirname : string.
Variable env : gmap string string.

Local Abbreviation make_call_request := (Server.make_call_request path_join dirname env).
Local Abbreviation make_call := (Server.make_call path_join dirname env).
Local Abbreviation run_events := (Server.run_events env).

(** The answers the handler can give before it reaches its [setTimeout]. *)
Lemma make_call_request_early_statuses (body : Server.MakeCallBody)
  (amb : Server.Ambient) (es : list Server.effect) :
  make_call_request body amb = (es, None) ->
  Forall (fun e => Trace.is_kill e = false) es /\
  exists status, Trace.statuses es = [status] /\
                 (status = 400 \/ status = 500 \/ status = 503).
Proof.
  unfold Server.make_call_request, Server.make_call_try.
  destruct body as [to_v agent], amb as [now iso crf lde mkf cwf spf].
  cbn [Server.to Server.agentId Server.clock_now Server.clock_iso
       Server.createRoom_failure Server.logs_dir_exists Server.mkdir_failure
       Server.createWriteStream_failure Server.spawn_failure].
  destruct (Js.truthy to_v) eqn:Hto; cbn [negb orb];
    [|intros [= <-]; split; [repeat constructor|exists 400; auto]].
  destruct (Js.truthy agent) eqn:Hag; cbn [negb orb];
    [|intros [= <-]; split; [repeat constructor|exists 400; auto]].
  destruct to_v as [| | | |to_| |];
    try (intros [= <-]; split; [repeat constructor|exists 500; auto]).
  destruct (Js.toString agent) as [err|agentText];
    [intros [= <-]; split; [repeat constructor|exists 500; auto]|].
  cbn [Server.bind Server.pure app].
  destruct (Js.truthy (Server.LIVEKIT_API_KEY env)); cbn [negb orb];
    [|intros [= <-]; split; [repeat constructor|exists 503; auto]].
  destruct (Js.truthy (Server.LIVEKIT_API_SECRET env)); cbn [negb orb];
    [|intros [= <-]; split; [repeat constructor|exists 503; auto]].
  destruct crf as [e|]; cbn.
  { intros [= <-]. split; [repeat constructor|exists 500; auto]. }
  destruct lde, mkf as [e|], cwf as [e'|], spf as [e''|]; cbn; try discriminate;
    intros [= <-]; (split; [repeat constructor|exists 500; auto]).
Qed.

Lemma started_quiet (body : Server.MakeCallBody) (amb : Server.Ambient)
  (agentText phone : string) :
  Trace.statuses (Observe.started path_join dirname env body amb agentText phone) = [] /\
  Forall (fun e => Trace.is_kill e = false)
         (Observe.started path_join dirname env body amb agentText phone).
Proof.
  unfold Observe.started.
  destruct (Server.logs_dir_exists amb); split; try reflexivity; repeat constructor.
Qed.

Lemma statuses_app (t1 t2 : list Server.effect) :
  Trace.statuses (t1 ++ t2) = Trace.statuses t1 ++ Trace.statuses t2.
Proof. unfold Trace.statuses. apply omap_app. Qed.

Lemma relayed_status (room_ phone : string) (agent : Js.jsval) (error : string)
  (code : option Z) :
  Trace.statuses (Observe.relayed room_ phone agent error code)
  = [if bool_decide (code = Some 0) then 200 else 500] /\
  List.filter Trace.is_kill (Observe.relayed room_ phone agent error code)
  = (if bool_decide (code = Some 0) then [] else [Server.kill Server.agentProcess]).
Proof. unfold Observe.relayed. case_bool_decide; split; reflexivity. Qed.

(** X1: whatever the request, the surroundings and the events, the
    make-call handler answers at most once, and the status of its answer
    is 200, 400, 500 or 503. *)
Theorem make_call_answers_at_most_once (body : Server.MakeCallBody)
  (amb : Server.Ambient) (evs : list Server.event) :
  Trace.statuses (make_call body amb evs) = [] \/
  exists status,
    Trace.statuses (make_call body amb evs) = [status] /\
    (status = 200 \/ status = 400 \/ status = 500 \/ status = 503).
Proof.
  unfold Server.make_call.
  destruct (make_call_request body amb) as [es [c|]] eqn:Hreq.
  - apply make_call_request_pending in Hreq
      as (to_ & agentText & _ & _ & _ & _ & _ & _ & _ & _ & _ & -> & ->).
    rewrite statuses_app, (proj1 (started_quiet body amb agentText (Server.e164 to_))).
    cbn [app].
    match goal with
    | |- context [Server.run_events env ?c evs] =>
        pose proof (run_shape_pending env c evs eq_refl) as Hshape;
        destruct (Server.dispatch (Server.run_events env c evs).1)
    end.
    + rewrite Hshape. now left.
    + destruct Hshape as [now ->]. now left.
    + destruct Hshape as (now & err & code & ->). right.
      change (Trace.statuses (?e :: ?rest)) with (Trace.statuses rest).
      rewrite (proj1 (relayed_status _ _ _ err code)).
      case_bool_decide; eauto 6.
    + destruct Hshape as [->|(now & [->|(err & code & ->)])]; [now left..|].
      right.
      change (Trace.statuses (?e :: ?rest)) with (Trace.statuses rest).
      rewrite (proj1 (relayed_status _ _ _ err code)).
      case_bool_decide; eauto 6.
  - apply make_call_request_early_statuses in Hreq as [_ (status & -> & Hst)].
    right. exists status. intuition.
Qed.

(** Without a ['close'] of the dial command, the callbacks answer nothing
    and kill nothing. *)
Lemma run_quiet_without_close (c : Server.call) (evs : list Server.event) :
  Forall (fun ev => Observe.is_DispatchClose ev = false) evs ->
  Trace.statuses (run_events c evs).2 = [] /\
  Forall (fun e => Trace.is_kill e = false) (run_events c evs).2.
Proof.
  intros Hevs. revert c.
  induction Hevs as [|ev evs Hev _ IH]; intros c; [split; constructor|].
  cbn [Server.run_events].
  assert (Hstep : Trace.statuses (Server.on_event env c ev).2 = [] /\
                  Forall (fun e => Trace.is_kill e = false) (Server.on_event env c ev).2).
  { unfold Server.on_event.
    destruct (Server.dispatch c), ev; try discriminate Hev; cbn [snd];
      split; repeat constructor. }
  destruct (Server.on_event env c ev) as [c1 es1]. specialize (IH c1).
  destruct (run_events c1 evs) as [c2 es2]. cbn [fst snd] in *.
  rewrite statuses_app. destruct Hstep as [-> Hk1], IH as [-> Hk2].
  split; [reflexivity|now apply Forall_app].
Qed.

(** X2: once the agent is spawned and the timer armed, the request is
    answered by the ['close'] of the dial command and by nothing else:
    as long as no such event arrives after the timer has fired, no
    response is sent and no process is killed, whatever the agent or the
    dial command print and however long that lasts. *)
Theorem make_call_pending_until_close (body : Server.MakeCallBody)
  (amb : Server.Ambient) (es : list Server.effect) (c : Server.call)
  (before after : list Server.event) :
  make_call_request body amb = (es, Some c) ->
  Forall (fun ev => Observe.is_TimerFired ev = false) before ->
  Forall (fun ev => Observe.is_DispatchClose ev = false) after ->
  Trace.statuses (make_call body amb (before ++ after)) = [] /\
  Forall (fun e => Trace.is_kill e = false) (make_call body amb (before ++ after)).
Proof.
  intros Hreq Hbefore Hafter. unfold Server.make_call. rewrite Hreq.
  apply make_call_request_pending in Hreq
    as (to_ & agentText & _ & _ & _ & _ & _ & _ & _ & _ & _ & -> & ->).
  destruct (started_quiet body amb agentText (Server.e164 to_)) as [Hst Hk].
  rewrite run_events_app. cbn [snd].
  match goal with
  | |- context [Server.run_events env ?c before] =>
      destruct (run_before_timer env c before eq_refl Hbefore) as (Hes & _ & _);
      set (c1 := (Server.run_events env c before).1) in *
  end.
  rewrite Hes. cbn [app].
  destruct (run_quiet_without_close c1 after Hafter) as [Hst2 Hk2].
  rewrite statuses_app, Hst, Hst2. split; [reflexivity|now apply Forall_app].
Qed.

(** X3: the handler kills a process at most once, and only the agent
    process after a failed dial: a trace with a kill has exactly one
    response, of status 500, one agent spawn and one dial spawn.  In
    particular a call answered 200 leaves its agent process running. *)
Theorem agent_killed_only_on_dial_failure (body : Server.MakeCallBody)
  (amb : Server.Ambient) (evs : list Server.event) :
  let trace := make_call body amb evs in
  (List.filter Trace.is_kill trace = [] \/
   (List.filter Trace.is_kill trace = [Server.kill Server.agentProcess] /\
    Trace.statuses trace = [500] /\
    Observe.occurrences (Observe.is_spawn Server.agentProcess) trace = 1%nat /\
    Observe.occurrences (Observe.is_spawn Server.dispatchProcess) trace = 1%nat)) /\
  (Trace.statuses trace = [200] -> List.filter Trace.is_kill trace = []).
Proof.
  cbv zeta.
  assert (Hnone : forall l, Forall (fun e => Trace.is_kill e = false) l ->
                            List.filter Trace.is_kill l = []).
  { induction 1 as [|e l He _ IH]; [reflexivity|]. simpl. now rewrite He. }
  unfold Server.make_call.
  destruct (make_call_request body amb) as [es [c|]] eqn:Hreq.
  - apply make_call_request_pending in Hreq
      as (to_ & agentText & _ & _ & _ & _ & _ & _ & _ & _ & _ & -> & ->).
    destruct (started_quiet body amb agentText (Server.e164 to_)) as [Hst Hk].
    rewrite List.filter_app, (Hnone _ Hk), statuses_app, Hst. cbn [app].
    cbn [Server.roomName Server.phoneNumber Server.call_agentId].
    set (started := Observe.started path_join dirname env body amb agentText
                      (Server.e164 to_)) in *.
    assert (Hclosed : forall now err code,
      let relayed := Observe.relayed
                       (Server.room_name agentText (Server.clock_now amb))
                       (Server.e164 to_) (Server.agentId body) err code in
      let rest := Server.spawn_dispatch env
                    (Server.room_name agentText (Server.clock_now amb))
                    (Server.e164 to_) now :: relayed in
      (List.filter Trace.is_kill rest = [] \/
       List.filter Trace.is_kill rest = [Server.kill Server.agentProcess] /\
       Trace.statuses rest = [500] /\
       Observe.occurrences (Observe.is_spawn Server.agentProcess) (started ++ rest)
       = 1%nat /\
       Observe.occurrences (Observe.is_spawn Server.dispatchProcess) (started ++ rest)
       = 1%nat) /\
      (Trace.statuses rest = [200] -> List.filter Trace.is_kill rest = [])).
    { intros now err code. cbv zeta.
      change (Trace.statuses (Server.spawn_dispatch ?e ?r ?p ?n :: ?rest))
        with (Trace.statuses rest).
      change (List.filter Trace.is_kill (Server.spawn_dispatch ?e ?r ?p ?n :: ?rest))
        with (List.filter Trace.is_kill rest).
      destruct (relayed_status
                  (Server.room_name agentText (Server.clock_now amb))
                  (Server.e164 to_) (Server.agentId body) err code) as [-> ->].
      case_bool_decide as Hcode.
      * split; [now left|reflexivity].
      * split; [|discriminate]. right. split; [reflexivity|]. split; [reflexivity|].
        subst started.
        unfold Observe.relayed, Observe.started, Observe.occurrences.
        rewrite bool_decide_eq_false_2 by exact Hcode.
        destruct (Server.logs_dir_exists amb); split; reflexivity. }
    match goal with
    | |- context [Server.run_events env ?c evs] =>
        pose proof (run_shape_pending env c evs eq_refl) as Hshape;
        destruct (Server.dispatch (Server.run_events env c evs).1)
    end.
    + rewrite Hshape. split; [now left|reflexivity].
    + destruct Hshape as [now ->]. split; [now left|reflexivity].
    + destruct Hshape as (now & err & code & ->). apply Hclosed.
    + destruct Hshape as [->|(now & [->|(err & code & ->)])];
        [split; [now left|reflexivity]..|]. apply Hclosed.
  - apply make_call_request_early_statuses in Hreq as [Hk _].
    rewrite (Hnone _ Hk). split; [now left|reflexivity].
Qed.

End MakeCallResponses.

(** A request whose dial command is still running: nothing is answered. *)
Lemma make_call_pending_until_close_witness :
  let join := fun a b : string => a +:+ "/" +:+ b in
  let env : gmap string string :=
    {[ "LIVEKIT_API_KEY" := "APIkey"; "LIVEKIT_API_SECRET" := "secret" ]} in
  let body := Server.mkMakeCallBody (Js.JStr "+15551234567") (Js.JStr "agent-1") in
  let amb := Server.mkAmbient 1700000000000 "2025-01-02T03:04:05.678Z" None true None None None in
  Trace.statuses
    (Server.make_call join "/srv/server" env body amb
       ([Server.AgentStdout "registered worker"]
        ++ [Server.TimerFired 1700000002000; Server.DispatchStdout "dialing";
            Server.AgentClose (Some 1)]))
  = [].
Proof.
  intros join env body amb.
  apply (make_call_pending_until_close join "/srv/server" env body amb
           (Observe.started join "/srv/server" env body amb "agent-1" "+15551234567")
           (Server.mkCall "outbound-agent-1-1700000000000" "+15551234567"
              (Js.JStr "agent-1") "" "" Server.TimerPending)
           [Server.AgentStdout "registered worker"]
           [Server.TimerFired 1700000002000; Server.DispatchStdout "dialing";
            Server.AgentClose (Some 1)]
           eq_refl).
  - repeat constructor.
  - repeat constructor.
Defined.

(** ** The make-call endpoint: the number that is dialled *)

(** X4: the number handed to the dial command always starts with '+', and
    normalising twice is normalising once; a number that already starts
    with '+' is passed on as it is, any other gets '+1' in front and is
    otherwise untouched, punctuation included.  So, for a number without
    '+', the digits dialled are a '1' followed by the digits typed: the
    result passes [isValidPhoneNumber] exactly when nine or ten digits
    were typed, and a number the panel accepted with eleven digits (a
    leading 1 already there) is dialled with twelve. *)
Theorem e164_digits (to_ : string) :
  Js.startsWith (Server.e164 to_) "+" = true /\
  Server.e164 (Server.e164 to_) = Server.e164 to_ /\
  (Js.startsWith to_ "+" = true -> Server.e164 to_ = to_) /\
  (Js.startsWith to_ "+" = false ->
     Phone.digits_of (Server.e164 to_) = String "1" (Phone.digits_of to_) /\
     (Phone.isValidPhoneNumber (Server.e164 to_) = true <->
        String.length (Phone.digits_of to_) = 9%nat \/
        String.length (Phone.digits_of to_) = 10%nat) /\
     (Phone.isValidPhoneNumber to_ = true ->
      String.length (Phone.digits_of to_) = 11%nat ->
      String.length (Phone.digits_of (Server.e164 to_)) = 12%nat /\
      Phone.isValidPhoneNumber (Server.e164 to_) = false)).
Proof.
  unfold Server.e164.
  destruct (Js.startsWith to_ "+") eqn:Hplus.
  - rewrite Hplus. repeat split; try reflexivity; try exact Hplus; discriminate.
  - assert (Hstart : Js.startsWith ("+1" +:+ to_) "+" = true) by reflexivity.
    rewrite Hstart. split; [reflexivity|]. split; [reflexivity|].
    split; [discriminate|]. intros _.
    assert (Hdigits : Phone.digits_of ("+1" +:+ to_) = String "1" (Phone.digits_of to_))
      by reflexivity.
    assert (Hvalid : Phone.isValidPhoneNumber ("+1" +:+ to_)
                     = ((String.length (Phone.digits_of to_) =? 9)%nat
                        || (String.length (Phone.digits_of to_) =? 10)%nat)).
    { unfold Phone.isValidPhoneNumber. rewrite Hdigits. unfold Js.len.
      cbn [String.length String.get].
      rewrite bool_decide_eq_true_2 by reflexivity. rewrite andb_true_r.
      destruct (Nat.eqb_spec (String.length (Phone.digits_of to_)) 9) as [E9|N9];
        destruct (Nat.eqb_spec (String.length (Phone.digits_of to_)) 10) as [E10|N10];
        cbn [orb];
        repeat match goal with
               | |- context [(?a =? ?b)] =>
                   let E := fresh "E" in
                   destruct (Z.eqb_spec a b) as [E|E]; try lia
               end; reflexivity. }
    split; [exact Hdigits|]. split.
    + rewrite Hvalid, orb_true_iff, !Nat.eqb_eq. reflexivity.
    + intros _ H11. rewrite Hdigits, Hvalid. cbn [String.length]. rewrite H11.
      split; reflexivity.
Qed.

(** ** The companion process: configuration *)

Lemma env_or_truthy (env : gmap string string) (first second : string) :
  Js.truthy (Js.js_or (Server.env_var env first) (Server.env_var env second)) = true <->
  exists v, v <> "" /\ (env !! first = Some v \/ env !! second = Some v).
Proof.
  unfold Js.js_or, Server.env_var.
  destruct (env !! first) as [a|] eqn:Ha; cbn [Js.truthy].
  - destruct (String.eqb_spec a "") as [->|Hne]; cbn [negb].
    + destruct (env !! second) as [b|] eqn:Hb; cbn [Js.truthy].
      * destruct (String.eqb_spec b "") as [->|Hnb]; cbn [negb].
        -- split; [discriminate|]. intros (v & Hv & [[= <-]|[= <-]]); congruence.
        -- split; [eauto|reflexivity].
      * split; [discriminate|]. intros (v & Hv & [[= <-]|[=]]); congruence.
    + cbn [Js.truthy]. destruct (String.eqb_spec a ""); [congruence|]. cbn [negb].
      split; [eauto|reflexivity].
  - destruct (env !! second) as [b|] eqn:Hb; cbn [Js.truthy].
    + destruct (String.eqb_spec b "") as [->|Hnb]; cbn [negb].
      * split; [discriminate|]. intros (v & Hv & [[=]|[= <-]]); congruence.
      * split; [eauto|reflexivity].
    + split; [discriminate|]. intros (v & Hv & [[=]|[=]]).
Qed.

Lemma env_or_value (env : gmap string string) (first second : string) :
  (forall v, env !! first = Some v -> v <> "" ->
     Js.js_or (Server.env_var env first) (Server.env_var env second) = Js.JStr v) /\
  (forall v, env !! first = None \/ env !! first = Some "" ->
     env !! second = Some v ->
     Js.js_or (Server.env_var env first) (Server.env_var env second) = Js.JStr v).
Proof.
  unfold Js.js_or, Server.env_var. split.
  - intros v -> Hne. cbn [Js.truthy].
    destruct (String.eqb_spec v ""); [congruence|reflexivity].
  - intros v [->| ->] ->; reflexivity.
Qed.

(** X5: the credentials count as configured exactly when some non-empty
    key and some non-empty secret are found, each under its own name or
    under its REACT_APP_ name; for the key and for the secret alike, a
    non-empty LIVEKIT_ variable is the one used, and an empty or unset
    one gives way to its REACT_APP_ counterpart instead of hiding it. *)
Theorem credentials_lookup (env : gmap string string) :
  (Server.credentials_configured env = true <->
     (exists key, key <> "" /\
        (env !! "LIVEKIT_API_KEY" = Some key \/
         env !! "REACT_APP_LIVEKIT_API_KEY" = Some key)) /\
     (exists secret, secret <> "" /\
        (env !! "LIVEKIT_API_SECRET" = Some secret \/
         env !! "REACT_APP_LIVEKIT_API_SECRET" = Some secret))) /\
  (forall key, env !! "LIVEKIT_API_KEY" = Some key -> key <> "" ->
     Server.LIVEKIT_API_KEY env = Js.JStr key) /\
  (forall key, (env !! "LIVEKIT_API_KEY" = None \/ env !! "LIVEKIT_API_KEY" = Some "") ->
     env !! "REACT_APP_LIVEKIT_API_KEY" = Some key ->
     Server.LIVEKIT_API_KEY env = Js.JStr key) /\
  (forall secret, env !! "LIVEKIT_API_SECRET" = Some secret -> secret <> "" ->
     Server.LIVEKIT_API_SECRET env = Js.JStr secret) /\
  (forall secret,
     (env !! "LIVEKIT_API_SECRET" = None \/ env !! "LIVEKIT_API_SECRET" = Some "") ->
     env !! "REACT_APP_LIVEKIT_API_SECRET" = Some secret ->
     Server.LIVEKIT_API_SECRET env = Js.JStr secret).
Proof.
  split; [|split; [|split; [|split]]].
  - unfold Server.credentials_configured, Server.LIVEKIT_API_KEY,
      Server.LIVEKIT_API_SECRET.
    rewrite andb_true_iff, !env_or_truthy. reflexivity.
  - apply (env_or_value env "LIVEKIT_API_KEY" "REACT_APP_LIVEKIT_API_KEY").
  - apply (env_or_value env "LIVEKIT_API_KEY" "REACT_APP_LIVEKIT_API_KEY").
  - apply (env_or_value env "LIVEKIT_API_SECRET" "REACT_APP_LIVEKIT_API_SECRET").
  - apply (env_or_value env "LIVEKIT_API_SECRET" "REACT_APP_LIVEKIT_API_SECRET").
Qed.

(** X6: the agent process inherits every variable of the server's own
    environment except the nine the handler sets, which take the
    handler's values whatever the environment said: the LiveKit URL, key
    and secret as configured, the trunk id, the agent id of the request,
    the OpenAI key under both of its names (a string in every case, empty
    when none is set) and the two Python settings.  The dial command
    inherits everything but the LiveKit URL, key and secret, which are
    set likewise; it is not told the agent id. *)
Theorem child_environment (env : gmap string string) (agent : Js.jsval) :
  let overridden :=
    ["LIVEKIT_URL"; "LIVEKIT_API_KEY"; "LIVEKIT_API_SECRET"; "LIVEKIT_SIP_TRUNK_ID";
     "LETTA_AGENT_ID"; "LETTA_API_KEY"; "OPENAI_API_KEY"; "PYTHONUNBUFFERED";
     "LIVEKIT_LOG_LEVEL"] in
  (forall key, key ∉ overridden ->
     Server.agent_env env agent !! key = Js.JStr <$> env !! key) /\
  Server.agent_env env agent !! "LIVEKIT_URL" = Some (Server.LIVEKIT_WS_URL env) /\
  Server.agent_env env agent !! "LIVEKIT_API_KEY" = Some (Server.LIVEKIT_API_KEY env) /\
  Server.agent_env env agent !! "LIVEKIT_API_SECRET"
    = Some (Server.LIVEKIT_API_SECRET env) /\
  Server.agent_env env agent !! "LIVEKIT_SIP_TRUNK_ID" = Some (Js.JStr "ST_LgQdMYv7NnfA") /\
  Server.agent_env env agent !! "LETTA_AGENT_ID" = Some agent /\
  Server.agent_env env agent !! "LETTA_API_KEY" = Some (Server.openaiApiKey env) /\
  Server.agent_env env agent !! "OPENAI_API_KEY" = Some (Server.openaiApiKey env) /\
  (exists key, Server.openaiApiKey env = Js.JStr key) /\
  Server.agent_env env agent !! "PYTHONUNBUFFERED" = Some (Js.JStr "1") /\
  Server.agent_env env agent !! "LIVEKIT_LOG_LEVEL" = Some (Js.JStr "debug") /\
  (forall key, key ∉ ["LIVEKIT_URL"; "LIVEKIT_API_KEY"; "LIVEKIT_API_SECRET"] ->
     Server.dispatch_env env !! key = Js.JStr <$> env !! key) /\
  Server.dispatch_env env !! "LIVEKIT_URL" = Some (Server.LIVEKIT_WS_URL env) /\
  Server.dispatch_env env !! "LIVEKIT_API_KEY" = Some (Server.LIVEKIT_API_KEY env) /\
  Server.dispatch_env env !! "LIVEKIT_API_SECRET" = Some (Server.LIVEKIT_API_SECRET env).
Proof.
  cbv zeta. unfold Server.agent_env, Server.dispatch_env, Server.spread.
  cbn [foldl fst snd].
  assert (Hinherit : forall (key : string) (keys : list string),
            key ∉ keys -> Forall (fun k => k <> key) keys).
  { intros key keys Hkey. apply Forall_forall. intros k Hk ->. now apply Hkey. }
  repeat match goal with |- _ /\ _ => split end;
    try (repeat (rewrite lookup_insert_ne by discriminate);
         now rewrite lookup_insert_eq).
  - intros key Hkey. apply Hinherit in Hkey.
    repeat match goal with
           | H : Forall _ (_ :: _) |- _ => apply Forall_cons in H as [? H]
           end.
    rewrite !lookup_insert_ne by assumption. apply lookup_fmap.
  - unfold Server.openaiApiKey, Js.js_or, Server.env_var.
    repeat case_match; eauto; discriminate.
  - intros key Hkey. apply Hinherit in Hkey.
    repeat match goal with
           | H : Forall _ (_ :: _) |- _ => apply Forall_cons in H as [? H]
           end.
    rewrite !lookup_insert_ne by assumption. apply lookup_fmap.
Qed.

(** ** The token endpoint, read backwards *)

Section TokenSoundness.
Variable toJwt : Server.AccessToken -> Js.exn + Js.jsval.
Variable env : gmap string string.

(** X7: the token endpoint answers 200, 400 or 500 and nothing else.  A
    200 is given only with credentials configured and both names truthy,
    and the token it carries is the non-empty string the SDK signed for
    identity [participantName] with a single grant naming [roomName],
    valid for ten minutes and allowing to join, publish, subscribe and
    publish data.  The [phoneNumber] of the request has no influence on
    the answer. *)
Theorem livekit_token_sound (body : Server.TokenBody) :
  let response := Server.livekit_token toJwt env body in
  (Observe.status_of response = Some 200 \/
   Observe.status_of response = Some 400 \/
   Observe.status_of response = Some 500) /\
  (Observe.status_of response = Some 200 ->
   Server.credentials_configured env = true /\
   Js.truthy (Server.tb_roomName body) = true /\
   Js.truthy (Server.tb_participantName body) = true /\
   exists jwt,
     jwt <> "" /\
     toJwt (Server.mkAccessToken (Server.LIVEKIT_API_KEY env)
              (Server.LIVEKIT_API_SECRET env) (Server.tb_participantName body) "10m"
              [Server.mkVideoGrant true (Server.tb_roomName body) true true true])
     = inr (Js.JStr jwt) /\
     response
     = Server.json 200 [("token", Js.JStr jwt);
                        ("wsUrl", Server.LIVEKIT_WS_URL env);
                        ("roomName", Server.tb_roomName body);
                        ("participantName", Server.tb_participantName body)]) /\
  (forall phoneNumber,
     Server.livekit_token toJwt env
       (Server.mkTokenBody (Server.tb_roomName body) (Server.tb_participantName body)
          phoneNumber)
     = response).
Proof.
  cbv zeta. unfold Server.livekit_token, Server.generateLiveKitToken,
    Server.credentials_configured.
  destruct body as [roomName participantName phone].
  cbn [Server.tb_roomName Server.tb_participantName Server.tb_phoneNumber].
  split; [|split; [|reflexivity]].
  - destruct (Js.truthy roomName), (Js.truthy participantName); cbn [negb orb]; auto.
    destruct (Js.truthy (Server.LIVEKIT_API_KEY env)),
             (Js.truthy (Server.LIVEKIT_API_SECRET env)); cbn [negb orb]; auto.
    destruct (toJwt _) as [err|[| | | |jwt| |]]; auto.
    destruct (Js.len jwt >? 0); auto.
  - destruct (Js.truthy roomName), (Js.truthy participantName); cbn [negb orb];
      try discriminate.
    destruct (Js.truthy (Server.LIVEKIT_API_KEY env)),
             (Js.truthy (Server.LIVEKIT_API_SECRET env)); cbn [negb orb andb];
      try discriminate.
    destruct (toJwt _) as [err|[| | | |jwt| |]] eqn:Hjwt; try discriminate.
    destruct (Js.len jwt >? 0) eqn:Hlen; [|discriminate].
    intros _. repeat split. exists jwt. repeat split.
    intros ->. discriminate Hlen.
Qed.

End TokenSoundness.

(** A signed token is handed out. *)
Lemma livekit_token_sound_witness :
  let toJwt := fun t : Server.AccessToken =>
    inr (Js.JStr ("jwt-for-" +:+ match Server.identity t with
                                 | Js.JStr name => name
                                 | _ => "anyone"
                                 end)) :> Js.exn + Js.jsval in
  let env : gmap string string :=
    {[ "REACT_APP_LIVEKIT_API_KEY" := "APIkey"; "LIVEKIT_API_SECRET" := "secret" ]} in
  let body := Server.mkTokenBody (Js.JStr "room-1") (Js.JStr "alice") (Js.JStr "5551234567") in
  Server.credentials_configured env = true /\
  Js.truthy (Server.tb_roomName body) = true /\
  Js.truthy (Server.tb_participantName body) = true /\
  exists jwt,
    jwt <> "" /\
    toJwt (Server.mkAccessToken (Server.LIVEKIT_API_KEY env)
             (Server.LIVEKIT_API_SECRET env) (Server.tb_participantName body) "10m"
             [Server.mkVideoGrant true (Server.tb_roomName body) true true true])
    = inr (Js.JStr jwt) /\
    Server.livekit_token toJwt env body
    = Server.json 200 [("token", Js.JStr jwt);
                       ("wsUrl", Server.LIVEKIT_WS_URL env);
                       ("roomName", Server.tb_roomName body);
                       ("participantName", Server.tb_participantName body)].
Proof.
  intros toJwt env body.
  exact (proj1 (proj2 (livekit_token_sound toJwt env body)) eq_refl).
Defined.

(** ** The call panel: durations *)

Example formatDuration_examples :
  CallPanel.formatDuration 0 = "0:00" /\
  CallPanel.formatDuration 59 = "0:59" /\
  CallPanel.formatDuration 125 = "2:05" /\
  CallPanel.formatDuration 3600 = "60:00" /\
  CallPanel.formatDuration (-5) = "-1:-5" /\
  CallPanel.formatDuration (10 ^ 20) = "1666666666666666800:40".
Proof. repeat split; vm_compute; reflexivity. Qed.

Lemma string_app_inj_length (a b x y : string) :
  String.length a = String.length b -> a +:+ x = b +:+ y -> a = b /\ x = y.
Proof.
  revert b. induction a as [|c a IH]; intros [|d b] Hlen Heq; try discriminate Hlen.
  - now split.
  - change (String c (a +:+ x) = String d (b +:+ y)) in Heq.
    injection Heq as -> Heq. injection Hlen as Hlen.
    destruct (IH b Hlen Heq) as [-> ->]. now split.
Qed.

Lemma string_length_app (a b : string) :
  String.length (a +:+ b) = (String.length a + String.length b)%nat.
Proof.
  induction a as [|c a IH]; [reflexivity|].
  change (String c a +:+ b) with (String c (a +:+ b)). simpl. now rewrite IH.
Qed.

Lemma pretty_digit_length (d : Z) : 0 <= d < 10 -> String.length (pretty d) = 1%nat.
Proof.
  intros Hd.
  assert (Hcases : d = 0 \/ d = 1 \/ d = 2 \/ d = 3 \/ d = 4 \/ d = 5 \/ d = 6
                   \/ d = 7 \/ d = 8 \/ d = 9) by lia.
  repeat (destruct Hcases as [->|Hcases]; [reflexivity|]). now subst.
Qed.

(** Below sixty, the padded seconds are the tens digit and the units
    digit. *)
Lemma padStart_two_digits (secs : Z) :
  0 <= secs < 60 ->
  JsText.padStart (pretty secs) 2 "0" = pretty (secs / 10) +:+ pretty (secs mod 10).
Proof.
  intros Hs.
  assert (Hall : forallb
            (fun n => String.eqb (JsText.padStart (pretty (Z.of_nat n)) 2 "0")
                        (pretty (Z.of_nat n / 10) +:+ pretty (Z.of_nat n mod 10)))
            (seq 0 60) = true) by (vm_compute; reflexivity).
  rewrite forallb_forall in Hall.
  specialize (Hall (Z.to_nat secs)).
  rewrite Z2Nat.id in Hall by lia.
  apply String.eqb_eq, Hall, in_seq. lia.
Qed.

(** X8: for a non-negative number of seconds below 2^53 (where whole
    numbers are held exactly), [formatDuration] prints the whole minutes,
    a colon and the remaining seconds on exactly two digits; the minutes
    are not capped at 59; and two different such durations are never
    printed alike. *)
Theorem formatDuration_two_digit_seconds (seconds : Z) :
  0 <= seconds <= 9007199254740991 ->
  CallPanel.formatDuration seconds
  = pretty (seconds / 60) +:+ ":"
    +:+ pretty (seconds mod 60 / 10) +:+ pretty (seconds mod 60 mod 10) /\
  String.length (CallPanel.formatDuration seconds)
  = S (S (S (String.length (pretty (seconds / 60))))) /\
  (forall other, 0 <= other <= 9007199254740991 ->
     CallPanel.formatDuration other = CallPanel.formatDuration seconds ->
     other = seconds).
Proof.
  intros [Hs Hsafe].
  assert (Hshape : forall s, 0 <= s <= 9007199254740991 ->
    CallPanel.formatDuration s
    = pretty (s / 60) +:+ ":" +:+ pretty (s mod 60 / 10) +:+ pretty (s mod 60 mod 10)).
  { intros s [Hs0 Hs1]. unfold CallPanel.formatDuration.
    replace (Z.abs s <? 9007199254740992) with true
      by (symmetry; apply Z.ltb_lt; lia).
    rewrite Z.rem_mod_nonneg by lia.
    rewrite padStart_two_digits by (apply Z.mod_pos_bound; lia). reflexivity. }
  assert (Hdig : forall s, 0 <= s ->
    String.length (pretty (s mod 60 / 10)) = 1%nat /\
    String.length (pretty (s mod 60 mod 10)) = 1%nat).
  { intros s Hs0. pose proof (Z.mod_pos_bound s 60 ltac:(lia)) as Hb.
    split; apply pretty_digit_length.
    - split; [apply Z.div_pos; lia|apply Z.div_lt_upper_bound; lia].
    - apply Z.mod_pos_bound. lia. }
  assert (Hlen : forall s, 0 <= s <= 9007199254740991 ->
    String.length (CallPanel.formatDuration s)
    = S (S (S (String.length (pretty (s / 60)))))).
  { intros s Hs0. rewrite (Hshape s Hs0), !string_length_app.
    destruct (Hdig s (proj1 Hs0)) as [-> ->]. cbn [String.length]. lia. }
  split; [now apply Hshape|]. split; [now apply Hlen|].
  intros other [Ho Hosafe] Heq.
  assert (Hlens : String.length (pretty (other / 60))
                  = String.length (pretty (seconds / 60))).
  { apply (f_equal String.length) in Heq.
    rewrite (Hlen other), (Hlen seconds) in Heq by lia. lia. }
  rewrite (Hshape other), (Hshape seconds) in Heq by lia.
  destruct (string_app_inj_length _ _ _ _ Hlens Heq) as [Hm Hrest].
  apply (inj pretty) in Hm.
  change (":" +:+ ?r) with (String ":" r) in Hrest. injection Hrest as Hrest.
  assert (Hl1 : String.length (pretty (other mod 60 / 10))
                = String.length (pretty (seconds mod 60 / 10))).
  { rewrite (proj1 (Hdig other Ho)), (proj1 (Hdig seconds Hs)). reflexivity. }
  destruct (string_app_inj_length _ _ _ _ Hl1 Hrest) as [Ht Hu].
  apply (inj pretty) in Ht. apply (inj pretty) in Hu.
  rewrite (Z.div_mod other 60), (Z.div_mod seconds 60) by lia.
  rewrite (Z.div_mod (other mod 60) 10), (Z.div_mod (seconds mod 60) 10) by lia.
  now rewrite Hm, Ht, Hu.
Qed.

Lemma formatDuration_two_digit_seconds_witness :
  CallPanel.formatDuration 125 = "2:05" /\
  String.length (CallPanel.formatDuration 125) = 4%nat.
Proof.
  destruct (formatDuration_two_digit_seconds 125 ltac:(lia)) as (Hshape & Hlen & _).
  split; [exact Hshape|exact Hlen].
Defined.

(** ** Decimal printing *)

Lemma pretty_N_go_all_digits (x : N) (s : string) :
  Text.all_digits s = true -> Text.all_digits (pretty_N_go x s) = true.
Proof.
  revert s. induction (N.lt_wf_0 x) as [x _ IH]; intros s Hs.
  destruct (N.eq_dec x 0) as [->|Hx].
  - now rewrite pretty_N_go_0.
  - rewrite pretty_N_go_step by lia. apply IH.
    + apply N.div_lt; lia.
    + cbn [Text.all_digits]. rewrite Hs, andb_true_r.
      unfold pretty_N_char. repeat case_match; reflexivity.
Qed.

Lemma pretty_N_all_digits (x : N) : Text.all_digits (pretty x) = true.
Proof.
  unfold pretty, pretty_N. case_decide; [reflexivity|].
  now apply pretty_N_go_all_digits.
Qed.

Lemma pretty_nat_all_digits (n : nat) : Text.all_digits (pretty n) = true.
Proof. apply pretty_N_all_digits. Qed.

Lemma pretty_Z_all_digits (z : Z) : 0 <= z -> Text.all_digits (pretty z) = true.
Proof.
  intros Hz. destruct z as [|p|p]; [reflexivity| |lia].
  apply (pretty_N_all_digits (Npos p)).
Qed.

(** Two digit strings followed by a dash are told apart at the dash. *)
Lemma digits_dash_inj (d1 d2 r1 r2 : string) :
  Text.all_digits d1 = true -> Text.all_digits d2 = true ->
  d1 +:+ String "-" r1 = d2 +:+ String "-" r2 -> d1 = d2 /\ r1 = r2.
Proof.
  revert d2. induction d1 as [|c d1 IH]; intros [|e d2] H1 H2 Heq.
  - injection Heq as ->. now split.
  - change (String "-" r1 = String e (d2 +:+ String "-" r2)) in Heq.
    injection Heq as <- _. discriminate H2.
  - change (String c (d1 +:+ String "-" r1) = String "-" r2) in Heq.
    injection Heq as -> _. discriminate H1.
  - change (String c (d1 +:+ String "-" r1) = String e (d2 +:+ String "-" r2)) in Heq.
    injection Heq as -> Heq.
    cbn [Text.all_digits] in H1, H2.
    apply andb_true_iff in H1 as [_ H1]. apply andb_true_iff in H2 as [_ H2].
    destruct (IH d2 H1 H2 Heq) as [-> ->]. now split.
Qed.

(** ** The state container: files *)

Lemma file_id_inj (now now' : Z) (index index' : nat) :
  0 <= now -> 0 <= now' ->
  AppHandlers.file_id now index = AppHandlers.file_id now' index' ->
  now = now' /\ index = index'.
Proof.
  intros Hn Hn'. unfold AppHandlers.file_id. intros Heq.
  apply (inj (String.app "new-")) in Heq.
  change ("-" +:+ ?r) with (String "-" r) in Heq.
  apply digits_dash_inj in Heq as [Hnow Hidx];
    [|now apply pretty_Z_all_digits..].
  split; [now apply (inj pretty) in Hnow|now apply (inj pretty) in Hidx].
Qed.

Lemma newFiles_lookup (fileList : list AppHandlers.Upload) (i : nat)
  (file : FileItem.t) :
  AppHandlers.newFiles fileList !! i = Some file ->
  exists upload,
    fileList !! i = Some upload /\
    FileItem.id file = AppHandlers.file_id (AppHandlers.id_clock upload) i /\
    FileItem.name file = AppHandlers.file_name upload /\
    FileItem.size file = AppHandlers.file_size upload /\
    FileItem.type file = AppHandlers.file_type upload.
Proof.
  unfold AppHandlers.newFiles. rewrite list_lookup_imap.
  destruct (fileList !! i) as [upload|]; [|discriminate].
  intros [= <-]. exists upload. repeat split.
Qed.

(** X9: [handleFileUpload] keeps the files there are and puts the new
    ones behind them, one per entry of the file list and in its order,
    each under the name, size and type of its entry; nothing else in the
    state changes.  The id of a new file records the clock and the
    position in the list, so that (for a clock that is not negative) two
    files get the same id only when they were read at the same position
    at the same millisecond; in particular the ids of one upload are
    pairwise different. *)
Theorem handleFileUpload_appends (fileList : list AppHandlers.Upload)
  (s : App.AppState) :
  let s' := AppHandlers.handleFileUpload fileList s in
  let added := AppHandlers.newFiles fileList in
  App.files s' = App.files s ++ added /\
  map (fun f => (FileItem.name f, FileItem.size f, FileItem.type f)) added
  = map (fun u => (AppHandlers.file_name u, AppHandlers.file_size u,
                   AppHandlers.file_type u)) fileList /\
  (forall now now' index index',
     0 <= now -> 0 <= now' ->
     AppHandlers.file_id now index = AppHandlers.file_id now' index' ->
     now = now' /\ index = index') /\
  (Forall (fun u => 0 <= AppHandlers.id_clock u) fileList ->
   NoDup (map FileItem.id added)) /\
  App.agents s' = App.agents s /\
  App.selectedAgent s' = App.selectedAgent s /\
  App.currentSession s' = App.currentSession s /\
  App.currentCall s' = App.currentCall s /\
  App.context s' = App.context s /\
  App.isContextUpdating s' = App.isContextUpdating s.
Proof.
  cbv zeta. split; [reflexivity|]. split.
  { unfold AppHandlers.newFiles.
    assert (Hgen : forall (g : nat -> nat) l,
      map (fun f => (FileItem.name f, FileItem.size f, FileItem.type f))
          (imap (fun index file =>
                   FileItem.mk (AppHandlers.file_id (AppHandlers.id_clock file) (g index))
                     (AppHandlers.file_name file) (AppHandlers.file_size file)
                     (AppHandlers.file_type file)
                     (DateOfClock (AppHandlers.date_clock file)) None) l)
      = map (fun u => (AppHandlers.file_name u, AppHandlers.file_size u,
                       AppHandlers.file_type u)) l).
    { intros g l. revert g. induction l as [|u l IH]; intros g; [reflexivity|].
      rewrite imap_cons. cbn [map]. f_equal. apply (IH (g ∘ S)). }
    apply (Hgen id). }
  split; [exact file_id_inj|]. split; [|repeat split].
  intros Hclocks.
  change (NoDup (FileItem.id <$> AppHandlers.newFiles fileList)).
  apply NoDup_alt. intros i j fid Hi Hj.
  rewrite list_lookup_fmap in Hi, Hj.
  destruct (AppHandlers.newFiles fileList !! i) as [fi|] eqn:Hfi; [|discriminate].
  destruct (AppHandlers.newFiles fileList !! j) as [fj|] eqn:Hfj; [|discriminate].
  injection Hi as Hi. injection Hj as Hj.
  apply newFiles_lookup in Hfi as (ui & Hui & Hidi & _).
  apply newFiles_lookup in Hfj as (uj & Huj & Hidj & _).
  rewrite Forall_forall in Hclocks.
  assert (Hci : 0 <= AppHandlers.id_clock ui)
    by (apply Hclocks, list_elem_of_lookup; eauto).
  assert (Hcj : 0 <= AppHandlers.id_clock uj)
    by (apply Hclocks, list_elem_of_lookup; eauto).
  apply (file_id_inj _ _ i j Hci Hcj). congruence.
Qed.

Lemma filter_all (A : Type) (P : A -> Prop) `{!forall x, Decision (P x)} (l : list A) :
  (forall x, x ∈ l -> P x) -> filter P l = l.
Proof.
  induction l as [|x l IH]; intros Hall; [reflexivity|].
  rewrite filter_cons_True by (apply Hall; left).
  f_equal. apply IH. intros y Hy. apply Hall. now right.
Qed.

Lemma filter_none (A : Type) (P : A -> Prop) `{!forall x, Decision (P x)} (l : list A) :
  (forall x, x ∈ l -> ~ P x) -> filter P l = [].
Proof.
  induction l as [|x l IH]; intros Hall; [reflexivity|].
  rewrite filter_cons_False by (apply Hall; left).
  apply IH. intros y Hy. apply Hall. now right.
Qed.

(** X10: [handleFileDelete] drops every file that carries the given id,
    not only the first one, and keeps all the others in their order; with
    no such file the state is left as it is; deleting twice is deleting
    once; nothing but [files] changes.  A single file that was uploaded
    and is then deleted leaves the files as they were before the upload,
    provided no older file shares its id; a file uploaded earlier at the
    same position and millisecond does share it, and goes too. *)
Theorem handleFileDelete_removes_every_match (fileId : string) (s : App.AppState) :
  let s' := AppHandlers.handleFileDelete fileId s in
  (forall file, file ∈ App.files s' <->
                file ∈ App.files s /\ FileItem.id file <> fileId) /\
  App.files s' `sublist_of` App.files s /\
  ((forall file, file ∈ App.files s -> FileItem.id file <> fileId) -> s' = s) /\
  AppHandlers.handleFileDelete fileId s' = s' /\
  (forall upload,
     (forall file, file ∈ App.files s ->
                   FileItem.id file <> AppHandlers.file_id (AppHandlers.id_clock upload) 0) ->
     AppHandlers.handleFileDelete (AppHandlers.file_id (AppHandlers.id_clock upload) 0)
       (AppHandlers.handleFileUpload [upload] s) = s) /\
  (forall first second,
     AppHandlers.id_clock first = AppHandlers.id_clock second ->
     App.files
       (AppHandlers.handleFileDelete
          (AppHandlers.file_id (AppHandlers.id_clock second) 0)
          (AppHandlers.handleFileUpload [second]
             (AppHandlers.handleFileUpload [first] s)))
     = App.files
         (AppHandlers.handleFileDelete
            (AppHandlers.file_id (AppHandlers.id_clock second) 0) s)) /\
  App.agents s' = App.agents s /\
  App.selectedAgent s' = App.selectedAgent s /\
  App.currentSession s' = App.currentSession s /\
  App.currentCall s' = App.currentCall s /\
  App.context s' = App.context s /\
  App.isContextUpdating s' = App.isContextUpdating s.
Proof.
  cbv zeta. destruct s as [ags sel ses call ctx fs upd].
  unfold AppHandlers.handleFileDelete, AppHandlers.handleFileUpload,
    AppHandlers.with_files. cbn [App.files App.agents App.selectedAgent
    App.currentSession App.currentCall App.context App.isContextUpdating].
  split; [|split; [|split; [|split; [|split; [|split; [|repeat split]]]]]].
  - intros file. rewrite list_elem_of_filter. tauto.
  - apply sublist_filter.
  - intros Hnone. f_equal. now apply filter_all.
  - f_equal. apply list_filter_filter_l. tauto.
  - intros upload Hfresh. f_equal. rewrite filter_app.
    rewrite (filter_all _ _ fs Hfresh).
    cbn [AppHandlers.newFiles imap]. rewrite filter_cons_False.
    + apply app_nil_r.
    + cbn [FileItem.id]. tauto.
  - intros first second Hclock. rewrite !filter_app.
    cbn [AppHandlers.newFiles imap]. rewrite !filter_cons_False.
    + now rewrite !app_nil_r.
    + cbn [FileItem.id]. tauto.
    + cbn [FileItem.id]. rewrite Hclock. tauto.
Qed.

(** ** The state container: agents *)

Lemma toggle_one (agentId : string) (enabled : bool) (agent : Agent.t) :
  let toggled := if decide (Agent.id agent = agentId)
                 then AppHandlers.with_autoReceiveCalls enabled agent else agent in
  Agent.id toggled = Agent.id agent /\
  Agent.name toggled = Agent.name agent /\
  Agent.status toggled = Agent.status agent.
Proof. cbv zeta. case_decide; repeat split. Qed.

(** X11: [handleToggleAutoReceive] sets the flag on every agent that
    carries the given id and changes nothing else: the list keeps its
    agents, in order, under the same ids, names and statuses, an agent
    with another id is left exactly as it was, and the rest of the state
    is untouched.  With no agent of that id the state does not change;
    the last of two toggles of the same id is the one that counts; and
    toggles of different ids can be exchanged. *)
Theorem handleToggleAutoReceive_sets_flag (agentId : string) (enabled : bool)
  (s : App.AppState) :
  let s' := AppHandlers.handleToggleAutoReceive agentId enabled s in
  map (fun a => (Agent.id a, Agent.name a, Agent.status a)) (App.agents s')
  = map (fun a => (Agent.id a, Agent.name a, Agent.status a)) (App.agents s) /\
  (forall i agent, App.agents s !! i = Some agent ->
     App.agents s' !! i
     = Some (if decide (Agent.id agent = agentId)
             then AppHandlers.with_autoReceiveCalls enabled agent else agent)) /\
  (forall agent, agent ∈ App.agents s' -> Agent.id agent = agentId ->
     Agent.autoReceiveCalls agent = Some enabled) /\
  ((forall agent, agent ∈ App.agents s -> Agent.id agent <> agentId) -> s' = s) /\
  (forall earlier,
     AppHandlers.handleToggleAutoReceive agentId enabled
       (AppHandlers.handleToggleAutoReceive agentId earlier s) = s') /\
  (forall otherId otherEnabled, otherId <> agentId ->
     AppHandlers.handleToggleAutoReceive otherId otherEnabled s'
     = AppHandlers.handleToggleAutoReceive agentId enabled
         (AppHandlers.handleToggleAutoReceive otherId otherEnabled s)) /\
  App.selectedAgent s' = App.selectedAgent s /\
  App.currentSession s' = App.currentSession s /\
  App.currentCall s' = App.currentCall s /\
  App.context s' = App.context s /\
  App.files s' = App.files s /\
  App.isContextUpdating s' = App.isContextUpdating s.
Proof.
  cbv zeta. destruct s as [ags sel ses call ctx fs upd].
  unfold AppHandlers.handleToggleAutoReceive, AppHandlers.with_agents.
  cbn [App.files App.agents App.selectedAgent App.currentSession App.currentCall
       App.context App.isContextUpdating].
  split; [|split; [|split; [|split; [|split; [|split; [|repeat split]]]]]].
  - rewrite List.map_map. apply List.map_ext. intros a.
    destruct (toggle_one agentId enabled a) as (-> & -> & ->). reflexivity.
  - intros i agent Hi.
    change (map ?f ags) with (f <$> ags). now rewrite list_lookup_fmap, Hi.
  - intros agent Hin Hid.
    apply list_elem_of_In, in_map_iff in Hin as (a & <- & _).
    case_decide as Ha; [reflexivity|]. congruence.
  - intros Hnone. f_equal. rewrite <- (List.map_id ags) at 2.
    apply List.map_ext_in. intros a Ha.
    apply decide_False, Hnone, list_elem_of_In, Ha.
  - intros earlier. f_equal. rewrite List.map_map. apply List.map_ext. intros a.
    destruct (decide (Agent.id a = agentId)) as [Ha|Ha].
    + cbn [AppHandlers.with_autoReceiveCalls Agent.id].
      rewrite decide_True by exact Ha. reflexivity.
    + rewrite decide_False by exact Ha. reflexivity.
  - intros otherId otherEnabled Hne. f_equal. rewrite !List.map_map.
    apply List.map_ext. intros a.
    destruct (decide (Agent.id a = agentId)) as [Ha|Ha],
             (decide (Agent.id a = otherId)) as [Ho|Ho];
      cbn [AppHandlers.with_autoReceiveCalls Agent.id];
      rewrite ?(decide_True _ _ Ha), ?(decide_False _ _ Ha),
              ?(decide_True _ _ Ho), ?(decide_False _ _ Ho);
      try reflexivity.
    congruence.
Qed.

(* ===================================================================== *)
(** * Creating an agent                                                   *)
(* ===================================================================== *)

Lemma prefix_app (p s : string) : String.prefix p (p +:+ s) = true.
Proof.
  induction p as [|c p IH]; simpl; [now destruct s|].
  destruct (ascii_dec c c); [exact IH|congruence].
Qed.

Lemma or_default_nonempty (text : option string) (fallback : string) :
  fallback <> "" ->
  LettaCreate.or_default text fallback <> "" /\
  (forall s, text = Some s -> s <> "" -> LettaCreate.or_default text fallback = s) /\
  (text = None \/ text = Some "" -> LettaCreate.or_default text fallback = fallback).
Proof.
  intros Hf. unfold LettaCreate.or_default.
  destruct text as [s|].
  - destruct (String.eqb_spec s "") as [->|Hs].
    + split; [exact Hf|split]; [congruence|reflexivity].
    + split; [exact Hs|split]; [congruence|].
      intros [?|[= ->]]; [discriminate|congruence].
  - split; [exact Hf|split]; [discriminate|reflexivity].
Qed.

(** X12: what [createAgent] sends and how it ends.  The four voice
    fields go out exactly when the voice settings are enabled and of type
    voice_convo_agent, and then carry the settings; otherwise none of the
    four is sent, whatever the settings hold.  The persona and human
    memory blocks are never empty: a missing or empty text is replaced.
    The Authorization header is sent exactly when an API key is set.  The
    call returns what the server answered.  A failure is thrown as an
    error whose message is 'Failed to create agent: ' followed, for an
    axios error, by the status, the error text (the detail of the
    response, else its message, else the message of the error) and the
    URL, for another error by its message, and otherwise by 'Unknown
    error'; the one exception is an axios error whose error text cannot
    be converted to a string: then the error of that conversion is what
    is thrown, without the prefix. *)
Theorem createAgent_request (post : LettaCreate.Request -> LettaCreate.posted)
  (baseUrl apiKey : string) (agentData : LettaCreate.CreateAgentRequest) :
  let payload := LettaCreate.requestPayload agentData in
  let request := LettaCreate.mkRequest (baseUrl +:+ "/v1/agents/") payload
                   (LettaCreate.getHeaders apiKey) in
  let result := LettaCreate.createAgent post baseUrl apiKey agentData in
  (LettaCreate.isVoiceAgent agentData = true <->
   exists v, LettaCreate.voiceSettings agentData = Some v /\
             LettaCreate.enabled v = true /\
             LettaCreate.agentType v = LettaCreate.voice_convo_agent) /\
  (forall v, LettaCreate.voiceSettings agentData = Some v ->
     LettaCreate.isVoiceAgent agentData = true ->
     JsObject.get payload "agent_type" = Js.JStr "voice_convo_agent" /\
     JsObject.get payload "enable_sleeptime" = Js.JBool (LettaCreate.enableSleeptime v) /\
     JsObject.get payload "max_message_buffer_length"
     = Js.JNum (LettaCreate.maxMessageBufferLength v) /\
     JsObject.get payload "min_message_buffer_length"
     = Js.JNum (LettaCreate.minMessageBufferLength v)) /\
  (LettaCreate.isVoiceAgent agentData = false ->
     JsObject.get payload "agent_type" = Js.JUndefined /\
     JsObject.get payload "enable_sleeptime" = Js.JUndefined /\
     JsObject.get payload "max_message_buffer_length" = Js.JUndefined /\
     JsObject.get payload "min_message_buffer_length" = Js.JUndefined) /\
  JsObject.get payload "name" = Js.JStr (LettaCreate.name agentData) /\
  (exists persona human,
     JsObject.get payload "memory_blocks"
     = Js.JArr [Js.JObj [("label", Js.JStr "persona"); ("value", Js.JStr persona)];
                Js.JObj [("label", Js.JStr "human"); ("value", Js.JStr human)]] /\
     persona <> "" /\ human <> "" /\
     (forall s, LettaCreate.persona agentData = Some s -> s <> "" -> persona = s) /\
     (forall s, LettaCreate.human agentData = Some s -> s <> "" -> human = s)) /\
  (("Authorization", "Bearer " +:+ apiKey) ∈ LettaCreate.getHeaders apiKey <->
   apiKey <> "") /\
  match post request with
  | LettaCreate.PostOk response => result = inr response
  | LettaCreate.PostAxiosError failure =>
      match Js.toString
              (Js.js_or (Js.js_or (LettaCreate.response_detail failure)
                                  (LettaCreate.response_message failure))
                        (Js.JStr (LettaCreate.error_message failure))) with
      | inr text =>
          result
          = inl (Js.Error
                   ("Failed to create agent: Status: "
                    +:+ match LettaCreate.response_status failure with
                        | Some status => Js.number_text status
                        | None => "undefined"
                        end
                    +:+ ", Error: " +:+ text +:+ ", URL: "
                    +:+ match LettaCreate.config_url failure with
                        | Some url => url
                        | None => "undefined"
                        end))
      | inl error => result = inl error
      end
  | LettaCreate.PostError message =>
      result = inl (Js.Error ("Failed to create agent: " +:+ message))
  | LettaCreate.PostThrown =>
      result = inl (Js.Error "Failed to create agent: Unknown error")
  end /\
  (forall failure detail,
     post request = LettaCreate.PostAxiosError failure ->
     LettaCreate.response_detail failure = Js.JStr detail -> detail <> "" ->
     exists status url,
       result = inl (Js.Error ("Failed to create agent: Status: " +:+ status
                               +:+ ", Error: " +:+ detail +:+ ", URL: " +:+ url))) /\
  (forall failure fields value,
     post request = LettaCreate.PostAxiosError failure ->
     LettaCreate.response_detail failure = Js.JObj fields ->
     ("toString", value) ∈ fields ->
     result = inl (Js.Error "Cannot convert object to primitive value")).
Proof.
  cbv zeta. split; [|split; [|split; [|split; [|split; [|split; [|split; [|split]]]]]]].
  8:{ intros failure detail Hpost Hdetail Hne.
      unfold LettaCreate.createAgent, LettaCreate.fullError, LettaCreate.errorMsg.
      assert (Ht : Js.truthy (Js.JStr detail) = true) by now apply truthy_nonempty.
      rewrite Hpost, Hdetail. unfold Js.js_or. rewrite Ht. cbv iota. rewrite Ht.
      cbn [Js.toString]. eexists _, _. reflexivity. }
  8:{ intros failure fields value Hpost Hdetail Hin.
      unfold LettaCreate.createAgent, LettaCreate.fullError, LettaCreate.errorMsg.
      rewrite Hpost, Hdetail. unfold Js.js_or. cbn [Js.truthy].
      now rewrite (toString_own_key fields value Hin). }
  - unfold LettaCreate.isVoiceAgent.
    destruct (LettaCreate.voiceSettings agentData) as [v|]; split.
    + intros H. exists v. apply andb_true_iff in H as [He Ht].
      destruct (LettaCreate.agentType v); [discriminate|auto].
    + intros (v' & [= <-] & -> & ->). reflexivity.
    + discriminate.
    + intros (v' & [=] & _).
  - intros v Hv Hvoice. unfold LettaCreate.requestPayload.
    rewrite Hv, Hvoice. repeat split; reflexivity.
  - intros Hvoice. unfold LettaCreate.requestPayload. rewrite Hvoice.
    destruct (LettaCreate.voiceSettings agentData); repeat split; reflexivity.
  - reflexivity.
  - eexists _, _. split; [reflexivity|].
    pose proof (or_default_nonempty (LettaCreate.persona agentData)
      "You are a helpful AI assistant that can make and receive phone calls."
      ltac:(discriminate)) as (Hp & Hp' & _).
    pose proof (or_default_nonempty (LettaCreate.human agentData)
      "The user is a human who needs assistance with phone calls."
      ltac:(discriminate)) as (Hh & Hh' & _).
    repeat split; assumption.
  - unfold LettaCreate.getHeaders.
    destruct (String.eqb_spec apiKey "") as [->|Hk]; cbn [app]; split.
    + intros Hin. apply list_elem_of_singleton in Hin. discriminate Hin.
    + congruence.
    + intros _. exact Hk.
    + intros _. apply elem_of_cons. right. apply list_elem_of_singleton. reflexivity.
  - unfold LettaCreate.createAgent, LettaCreate.fullError, LettaCreate.errorMsg.
    destruct (post _) as [response|failure|message|]; try reflexivity.
    destruct (Js.toString _) as [error|text]; [reflexivity|].
    destruct (LettaCreate.response_status failure), (LettaCreate.config_url failure);
      reflexivity.
Qed.

(** X13: [handleCreateAgent] raises the creating flag first and lowers
    it last, whatever happens.  When the server accepts the agent the
    new agent is appended to the list as it was at the time of the update
    (no sleeptime filter applies, unlike on reload), becomes the selected
    agent with the session cleared, is online under the id and name the
    server returned, and the modal closes without any alert.  When the
    call fails the state is not touched, the modal stays as it is, and
    the one alert is 'Failed to create agent: ' followed by the message
    of the error [createAgent] threw, so that the prefix appears twice
    unless that error is the one of a failed conversion of the server's
    error text. *)
Theorem handleCreateAgent_outcome (post : LettaCreate.Request -> LettaCreate.posted)
  (baseUrl apiKey : string) (agentData : AppCalls.AgentForm) (now : Z)
  (prev : App.AppState) :
  let trace := AppCalls.handleCreateAgent post baseUrl apiKey agentData now in
  let s' := Ui.after trace prev in
  let request :=
    LettaCreate.mkRequest (baseUrl +:+ "/v1/agents/")
      (LettaCreate.requestPayload
         (LettaCreate.mkCreateAgentRequest
            (AppCalls.form_name agentData)
            (Some (AppCalls.form_persona agentData))
            (Some (AppCalls.form_human agentData))
            (Some (AppCalls.form_voiceSettings agentData))))
      (LettaCreate.getHeaders apiKey) in
  head trace = Some (AppCalls.setIsCreatingAgent true) /\
  last trace = Some (AppCalls.setIsCreatingAgent false) /\
  ((exists lettaAgent agent,
      post request = LettaCreate.PostOk lettaAgent /\
      Ui.alerts trace = [] /\
      AppCalls.setIsCreateModalOpen false ∈ trace /\
      App.agents s' = App.agents prev ++ [agent] /\
      App.selectedAgent s' = Some agent /\
      App.currentSession s' = None /\
      App.currentCall s' = App.currentCall prev /\
      App.context s' = App.context prev /\
      App.files s' = App.files prev /\
      App.isContextUpdating s' = App.isContextUpdating prev /\
      agent = Agent.mk (LettaCreate.r_id lettaAgent) (LettaCreate.r_name lettaAgent)
                online None (DateOfClock now)
                (Some (Js.before_first "." (AppCalls.form_persona agentData)))
                None None None /\
      (forall listed : Letta.LettaAgent,
         Letta.name listed = LettaCreate.r_name lettaAgent ->
         Js.endsWith (LettaCreate.r_name lettaAgent) "sleeptime" = true ->
         App.formatAgents [listed] = []))
   \/
   (s' = prev /\
    (forall value, AppCalls.setIsCreateModalOpen value ∉ trace) /\
    exists reason,
      Ui.alerts trace = ["Failed to create agent: " +:+ reason] /\
      match post request with
      | LettaCreate.PostOk _ => False
      | LettaCreate.PostAxiosError failure =>
          match Js.toString
                  (Js.js_or (Js.js_or (LettaCreate.response_detail failure)
                                      (LettaCreate.response_message failure))
                            (Js.JStr (LettaCreate.error_message failure))) with
          | inr text =>
              exists detail, reason = "Failed to create agent: Status: " +:+ detail
          | inl error => reason = Js.message_of error
          end
      | LettaCreate.PostError message => reason = "Failed to create agent: " +:+ message
      | LettaCreate.PostThrown => reason = "Failed to create agent: Unknown error"
      end)) /\
  (forall failure fields value,
     post request = LettaCreate.PostAxiosError failure ->
     LettaCreate.response_detail failure = Js.JObj fields ->
     ("toString", value) ∈ fields ->
     Ui.alerts trace
     = ["Failed to create agent: Cannot convert object to primitive value"]).
Proof.
  cbv zeta. unfold AppCalls.handleCreateAgent, LettaCreate.createAgent,
    LettaCreate.fullError, LettaCreate.errorMsg.
  match goal with
  | |- ?A /\ ?B /\ ?D /\ ?C =>
      cut (C /\ A /\ B /\ D);
      [intros (HC & HA & HB & HD); exact (conj HA (conj HB (conj HD HC)))|]
  end.
  split.
  { intros failure fields value Hpost Hdetail Hin.
    rewrite Hpost, Hdetail. unfold Js.js_or. cbn [Js.truthy].
    rewrite (toString_own_key fields value Hin). reflexivity. }
  assert (Hmodal : forall a b (value : bool),
            AppCalls.setIsCreateModalOpen value
            ∉ [AppCalls.setIsCreatingAgent a; AppCalls.alert b;
               AppCalls.setIsCreatingAgent false]).
  { intros a b value Hin.
    repeat (apply elem_of_cons in Hin as [Hin|Hin]; [discriminate|]).
    inversion Hin. }
  destruct (post _) as [lettaAgent|failure|message|] eqn:Hpost;
    [|destruct (Js.toString _) as [error|text] eqn:Htext|..];
    cbn [app head]; (split; [reflexivity|]); (split; [reflexivity|]).
  - left. eexists lettaAgent, _.
    split; [reflexivity|]. split; [reflexivity|].
    split; [repeat constructor|].
    unfold Ui.after, Ui.updates, App.apply_updates. cbn.
    repeat (split; [reflexivity|]).
    intros listed Hname Hends. unfold App.formatAgents.
    cbn. rewrite Hname, Hends. reflexivity.
  - right. split; [reflexivity|]. split; [apply Hmodal|].
    eexists. split; reflexivity.
  - right. split; [reflexivity|]. split; [apply Hmodal|].
    eexists. split; [reflexivity|]. cbn [Js.message_of]. eexists. reflexivity.
  - right. split; [reflexivity|]. split; [apply Hmodal|].
    eexists. split; reflexivity.
  - right. split; [reflexivity|]. split; [apply Hmodal|].
    eexists. split; reflexivity.
Qed.

(* ===================================================================== *)
(** * Starting and ending a call from the page                            *)
(* ===================================================================== *)

Lemma set_status_twice (agentId : string) (first second : AgentStatus)
  (agents : list Agent.t) :
  AppHandlers.set_status agentId second (AppHandlers.set_status agentId first agents)
  = AppHandlers.set_status agentId second agents.
Proof.
  unfold AppHandlers.set_status. rewrite map_map. apply map_ext. intros a.
  destruct (decide (Agent.id a = agentId)) as [Heq|Hne].
  - cbn. rewrite decide_True by exact Heq. reflexivity.
  - rewrite decide_False by exact Hne. reflexivity.
Qed.

Lemma set_status_marked (agentId : string) (status : AgentStatus)
  (agents : list Agent.t) :
  Ui.marked agentId status agents (AppHandlers.set_status agentId status agents).
Proof.
  unfold Ui.marked, AppHandlers.set_status.
  induction agents as [|a agents IH]; [constructor|].
  cbn [map]. constructor; [|exact IH].
  destruct a. cbn. destruct (decide _); reflexivity.
Qed.

Lemma set_status_same (agentId : string) (status : AgentStatus)
  (agents : list Agent.t) :
  (forall a, a ∈ agents -> Agent.id a = agentId -> Agent.status a = status) ->
  AppHandlers.set_status agentId status agents = agents.
Proof.
  intros Hall. unfold AppHandlers.set_status.
  induction agents as [|a agents IH]; [reflexivity|]. cbn [map]. f_equal.
  - destruct (decide (Agent.id a = agentId)) as [Heq|]; [|reflexivity].
    specialize (Hall a ltac:(left) Heq). destruct a. cbn in *. now subst.
  - apply IH. intros b Hb. apply Hall. now right.
Qed.

Lemma find_agent (agentId : string) (agents : list Agent.t) :
  (exists a, a ∈ agents /\ Agent.id a = agentId) ->
  exists a, find (fun a => bool_decide (Agent.id a = agentId)) agents = Some a.
Proof.
  intros (a & Hin & Hid).
  destruct (find _ agents) as [b|] eqn:Hfind; [eauto|].
  apply list_elem_of_In in Hin.
  pose proof (find_none _ _ Hfind a Hin) as Hno. cbn in Hno.
  rewrite bool_decide_eq_false in Hno. contradiction.
Qed.

Lemma find_no_agent (agentId : string) (agents : list Agent.t) :
  (forall a, a ∈ agents -> Agent.id a <> agentId) ->
  find (fun a => bool_decide (Agent.id a = agentId)) agents = None.
Proof.
  intros Hall.
  destruct (find _ agents) as [b|] eqn:Hfind; [|reflexivity].
  apply find_some in Hfind as [Hin Hid]. rewrite bool_decide_eq_true in Hid.
  apply list_elem_of_In in Hin. now apply Hall in Hin.
Qed.

(** What the [try] block of [handleStartCall] leaves behind: either it
    was answered with a success and queues the one update that marks the
    call connected, or, whatever went wrong, one alert is shown and one
    update resets the call. *)
Lemma start_call_outcomes (not_a_function agentId : string) (later : Z)
  (answer : AppCalls.fetched) :
  let rest :=
    match AppCalls.start_call_try not_a_function agentId later answer with
    | inr effects => effects
    | inl error =>
        [AppCalls.setAppState (AppCalls.reset_call agentId);
         AppCalls.alert ("Failed to start call: " +:+ Js.message_of error)]
    end in
  (exists status statusText data,
     answer = AppCalls.Fetched status statusText (inr data) /\
     AppCalls.ok status = true /\
     rest = [AppCalls.setAppState
               (AppCalls.connect_call (JsObject.get data "roomName") later)])
  \/
  ((forall status statusText data,
      answer = AppCalls.Fetched status statusText (inr data) ->
      AppCalls.ok status = false) /\
   Ui.requests rest = [] /\
   Ui.updates rest = [AppCalls.reset_call agentId] /\
   exists text, Ui.alerts rest = [text]).
Proof.
  cbv zeta. unfold AppCalls.start_call_try.
  destruct answer as [message|status statusText [error|data]].
  - right. split; [discriminate|]. cbn. eauto.
  - right. split; [discriminate|]. cbn. eauto.
  - destruct (AppCalls.ok status) eqn:Hok; cbn [negb].
    { left. eauto 6. }
    right. split; [intros ? ? ? [= -> _ _]; exact Hok|].
    unfold AppCalls.includes_demo_mode.
    repeat case_match; simplify_eq; cbn; eauto.
Qed.

(** X14: [handleStartCall].  Without a listed agent of that id, or
    without a phone number, one alert is shown and nothing else happens.
    Otherwise the agent is marked busy and the call connecting before the
    one request (the number and the agent id) is sent, and then: when the
    request is answered with a 2xx status the call becomes connected
    under the room name of the answer (or an id made from the clock when
    the answer has none), with no alert; in every other case (the request
    fails, the body is not JSON, any other status) exactly one alert is
    shown, the call is cleared and the agent is back online.  Marking an
    agent changes the status of every agent of that id and nothing else;
    no other field of the state changes. *)
Theorem handleStartCall_outcome (not_a_function : string)
  (rendered prev : App.AppState) (agentId : string) (phoneNumber : option string)
  (id_now start_now later : Z) (answer : AppCalls.fetched) :
  let trace := AppCalls.handleStartCall not_a_function rendered agentId phoneNumber
                 id_now start_now later answer in
  let s' := Ui.after trace prev in
  Ui.same_page prev s' /\
  ((forall a, a ∈ App.agents rendered -> Agent.id a <> agentId) \/
   phoneNumber = None \/ phoneNumber = Some "" ->
   s' = prev /\ Ui.requests trace = [] /\ exists text, trace = [AppCalls.alert text]) /\
  (forall phone,
     (exists a, a ∈ App.agents rendered /\ Agent.id a = agentId) ->
     phoneNumber = Some phone -> phone <> "" ->
     Ui.requests trace
     = [(AppCalls.make_call_url,
         [("to", Js.JStr phone); ("agentId", Js.JStr agentId)])] /\
     (exists rest,
        trace = AppCalls.setAppState
                  (AppCalls.begin_call
                     (AppCalls.newCall agentId phone id_now start_now) agentId)
                :: AppCalls.fetch AppCalls.make_call_url
                     [("to", Js.JStr phone); ("agentId", Js.JStr agentId)]
                :: rest) /\
     (let s1 := AppCalls.begin_call
                  (AppCalls.newCall agentId phone id_now start_now) agentId prev in
      Ui.marked agentId busy (App.agents prev) (App.agents s1) /\
      App.currentCall s1
      = Some (VoiceCall.mk (Js.JStr ("call-" +:+ pretty id_now)) agentId
                call_connecting (DateOfClock start_now) None None
                (Some (mkCallerInfo None (Some phone))))) /\
     ((exists status statusText data,
         answer = AppCalls.Fetched status statusText (inr data) /\
         AppCalls.ok status = true /\
         Ui.alerts trace = [] /\
         Ui.marked agentId busy (App.agents prev) (App.agents s') /\
         App.currentCall s'
         = Some (VoiceCall.mk
                   (Js.js_or (JsObject.get data "roomName")
                             (Js.JStr ("call-" +:+ pretty later)))
                   agentId call_connected (DateOfClock start_now) None None
                   (Some (mkCallerInfo None (Some phone)))))
      \/
      ((forall status statusText data,
          answer = AppCalls.Fetched status statusText (inr data) ->
          AppCalls.ok status = false) /\
       (exists text, Ui.alerts trace = [text]) /\
       App.currentCall s' = None /\
       Ui.marked agentId online (App.agents prev) (App.agents s')))).
Proof.
  cbv zeta.
  pose proof (start_call_outcomes not_a_function agentId later answer) as Hrest.
  cbv zeta in Hrest. unfold AppCalls.handleStartCall.
  set (rest := match AppCalls.start_call_try not_a_function agentId later answer with
               | inr effects => effects
               | inl error => _
               end) in *.
  clearbody rest.
  assert (Hquiet : forall text,
            Ui.same_page prev (Ui.after [AppCalls.alert text] prev) /\
            Ui.after [AppCalls.alert text] prev = prev /\
            Ui.requests [AppCalls.alert text] = [] /\
            exists text', [AppCalls.alert text] = [AppCalls.alert text']).
  { intros text. repeat split; eauto. }
  assert (Hpage : forall phone,
            Ui.same_page prev
              (Ui.after
                 (AppCalls.setAppState
                    (AppCalls.begin_call
                       (AppCalls.newCall agentId phone id_now start_now) agentId)
                  :: AppCalls.fetch AppCalls.make_call_url
                       [("to", Js.JStr phone); ("agentId", Js.JStr agentId)]
                  :: rest) prev)).
  { intros phone. unfold Ui.after.
    change (Ui.updates (AppCalls.setAppState ?u :: AppCalls.fetch ?a ?b :: rest))
      with (u :: Ui.updates rest).
    destruct Hrest as [(status & statusText & data & _ & _ & ->)
                      |(_ & _ & Hup & _)].
    - cbn. repeat split.
    - rewrite Hup. cbn. repeat split. }
  split.
  { destruct (find _ _); [|apply Hquiet].
    destruct phoneNumber as [phone|]; [|apply Hquiet].
    destruct (String.eqb phone ""); [apply Hquiet|]. apply Hpage. }
  split.
  { intros [Hnone|[->| ->]].
    - rewrite (find_no_agent _ _ Hnone). apply Hquiet.
    - destruct (find _ _); apply Hquiet.
    - destruct (find _ _); apply Hquiet. }
  intros phone Hfound -> Hphone.
  destruct (find_agent _ _ Hfound) as [a ->].
  destruct (String.eqb_spec phone "") as [?|_]; [contradiction|].
  cbn [app]. split; [|split; [eauto|split]].
  { change (Ui.requests (AppCalls.setAppState ?u :: AppCalls.fetch ?a ?b :: rest))
      with ((a, b) :: Ui.requests rest).
    f_equal.
    destruct Hrest as [(status & statusText & data & _ & _ & ->)
                      |(_ & Hreq & _ & _)]; [reflexivity|exact Hreq]. }
  { split; [apply set_status_marked|reflexivity]. }
  unfold Ui.after.
  change (Ui.updates (AppCalls.setAppState ?u :: AppCalls.fetch ?a ?b :: rest))
    with (u :: Ui.updates rest).
  change (Ui.alerts (AppCalls.setAppState ?u :: AppCalls.fetch ?a ?b :: rest))
    with (Ui.alerts rest).
  destruct Hrest as [(status & statusText & data & -> & Hok & ->)
                    |(Hbad & _ & Hup & Halert)].
  - left. exists status, statusText, data.
    split; [reflexivity|]. split; [exact Hok|]. split; [reflexivity|].
    split; [apply set_status_marked|reflexivity].
  - right. rewrite Hup. split; [exact Hbad|]. split; [exact Halert|].
    cbn -[AppHandlers.set_status]. split; [reflexivity|].
    rewrite set_status_twice. apply set_status_marked.
Qed.

(** X15: a call that was started and answered with a success, then
    ended.  Ending sends one request to the end-call endpoint, naming the
    number and the agent the call was started with, shows no alert, and
    leaves no current call and the agent online, every other agent and
    every other field being as before the call; when the agent was online
    before the call the agent list is back to what it was.  With no
    current call, ending does nothing. *)
Theorem start_then_end_call (not_a_function : string) (s : App.AppState)
  (agentId phone : string) (id_now start_now later status : Z) (statusText : string)
  (data : list (string * Js.jsval)) :
  (exists a, a ∈ App.agents s /\ Agent.id a = agentId) ->
  phone <> "" ->
  AppCalls.ok status = true ->
  let s1 := Ui.after (AppCalls.handleStartCall not_a_function s agentId (Some phone)
                        id_now start_now later
                        (AppCalls.Fetched status statusText (inr data))) s in
  let hangup := AppCalls.handleEndCall s1 in
  let s2 := Ui.after hangup s1 in
  Ui.requests hangup
  = [(AppCalls.end_call_url,
      [("phoneNumber", Js.JStr phone); ("agentId", Js.JStr agentId)])] /\
  Ui.alerts hangup = [] /\
  App.currentCall s2 = None /\
  Ui.marked agentId online (App.agents s) (App.agents s2) /\
  Ui.same_page s s2 /\
  ((forall a, a ∈ App.agents s -> Agent.id a = agentId -> Agent.status a = online) ->
   App.agents s2 = App.agents s) /\
  AppCalls.handleEndCall s2 = [].
Proof.
  intros Hfound Hphone Hok. cbv zeta.
  unfold AppCalls.handleStartCall, AppCalls.start_call_try.
  destruct (find_agent _ _ Hfound) as [a ->].
  destruct (String.eqb_spec phone "") as [?|_]; [contradiction|].
  rewrite Hok. cbn [negb app].
  cbn -[AppHandlers.set_status].
  rewrite set_status_twice.
  do 3 (split; [reflexivity|]).
  split; [apply set_status_marked|].
  split; [repeat split|].
  split; [|reflexivity].
  apply set_status_same.
Qed.

Lemma start_then_end_call_witness :
  let agent := Agent.mk "agent-1" "Ada" offline None (DateOfClock 0) None None None None in
  let other := Agent.mk "agent-2" "Bob" busy None (DateOfClock 0) None None None None in
  let s := App.mkAppState [agent; other] None None None "" [] false in
  let s1 := Ui.after (AppCalls.handleStartCall "not a function" s "agent-1"
                        (Some "5551234567") 1000 1001 1002
                        (AppCalls.Fetched 200 "OK"
                           (inr [("roomName", Js.JStr "outbound-agent-1-1000")]))) s in
  Ui.marked "agent-1" online [agent; other]
    (App.agents (Ui.after (AppCalls.handleEndCall s1) s1)).
Proof.
  intros agent other s s1.
  refine (proj1 (proj2 (proj2 (proj2
    (start_then_end_call "not a function" s "agent-1" "5551234567" 1000 1001 1002
       200 "OK" [("roomName", Js.JStr "outbound-agent-1-1000")] _ _ _))))).
  - exists agent. split; [left|reflexivity].
  - discriminate.
  - reflexivity.
Defined.

(* ===================================================================== *)
(** * The page against the companion server                               *)
(* ===================================================================== *)

Section PageAndServer.
Variable path_join : string -> string -> string.
Variable dirname : string.
Variable env : gmap string string.

Local Abbreviation make_call_request := (Server.make_call_request path_join dirname env).
Local Abbreviation make_call := (Server.make_call path_join dirname env).

Lemma statuses_responses (trace : list Server.effect) :
  Trace.statuses trace = (Http.responses trace).*1.
Proof.
  unfold Trace.statuses, Http.responses.
  induction trace as [|e trace IH]; [reflexivity|].
  destruct e; cbn; try exact IH. now f_equal.
Qed.

Lemma responses_app (t1 t2 : list Server.effect) :
  Http.responses (t1 ++ t2) = Http.responses t1 ++ Http.responses t2.
Proof. unfold Http.responses. apply omap_app. Qed.

(** The answers the server can give to the request the page posts. *)
Lemma make_call_responses (phone agentId : string) (amb : Server.Ambient)
  (evs : list Server.event) :
  phone <> "" ->
  let body := Server.mkMakeCallBody (Js.JStr phone) (Js.JStr agentId) in
  let responses := Http.responses (make_call body amb evs) in
  responses = [] \/
  (agentId = "" /\
   responses = [(400, Js.JObj [("error", Js.JStr "Phone number and agentId are required")])]) \/
  (Server.credentials_configured env = false /\
   responses = [(503, Js.JObj [("error", Js.JStr "LiveKit not configured - demo mode only")])]) \/
  responses = [(500, Js.JObj [("error", Js.JStr "Failed to make call")])] \/
  responses
  = [(200, Js.JObj [("roomName",
                     Js.JStr (Server.room_name agentId (Server.clock_now amb)));
                    ("status", Js.JStr "dispatched");
                    ("phoneNumber", Js.JStr (Server.e164 phone));
                    ("agentId", Js.JStr agentId)])] \/
  (exists err,
     responses = [(500, Js.JObj [("error", Js.JStr ("SIP call failed: " +:+ err))])]).
Proof.
  intros Hphone. cbv zeta. unfold Server.make_call.
  destruct (make_call_request _ amb) as [es [c|]] eqn:Hreq.
  - apply make_call_request_pending in Hreq
      as (to_ & agentText & [= <-] & _ & _ & [= <-] & _ & _ & _ & _ & _ & -> & ->).
    rewrite responses_app.
    assert (Hquiet : Http.responses
                       (Observe.started path_join dirname env
                          (Server.mkMakeCallBody (Js.JStr phone) (Js.JStr agentId))
                          amb agentId (Server.e164 phone)) = []).
    { unfold Observe.started. destruct (Server.logs_dir_exists amb); reflexivity. }
    rewrite Hquiet. cbn [app Server.agentId].
    match goal with
    | |- context [Server.run_events env ?c evs] =>
        pose proof (run_shape_pending env c evs eq_refl) as Hshape;
        destruct (Server.dispatch (Server.run_events env c evs).1)
    end.
    + rewrite Hshape. now left.
    + destruct Hshape as [now ->]. now left.
    + destruct Hshape as (now & err & code & ->).
      cbn [Server.roomName Server.phoneNumber Server.call_agentId].
      unfold Observe.relayed. case_bool_decide.
      * do 4 right. left. reflexivity.
      * do 5 right. eexists. reflexivity.
    + destruct Hshape as [->|(now & [->|(err & code & ->)])]; [now left..|].
      cbn [Server.roomName Server.phoneNumber Server.call_agentId].
      unfold Observe.relayed. case_bool_decide.
      * do 4 right. left. reflexivity.
      * do 5 right. eexists. reflexivity.
  - revert Hreq.
    unfold Server.make_call_request, Server.make_call_try, Server.credentials_configured.
    destruct amb as [now iso crf lde mkf cwf spf].
    cbn [Server.to Server.agentId Server.clock_now Server.clock_iso
         Server.createRoom_failure Server.logs_dir_exists Server.mkdir_failure
         Server.createWriteStream_failure Server.spawn_failure].
    assert (Hto : Js.truthy (Js.JStr phone) = true).
    { simpl. destruct phone; [congruence|reflexivity]. }
    rewrite Hto. cbn [negb orb].
    destruct (Js.truthy (Js.JStr agentId)) eqn:Hag; cbn [negb orb].
    2:{ intros [= <-]. right. left. split; [|reflexivity].
        simpl in Hag. now destruct (String.eqb_spec agentId ""). }
    cbn [Server.bind Server.pure app Js.toString].
    destruct (Js.truthy (Server.LIVEKIT_API_KEY env)); cbn [negb orb andb];
      [|intros [= <-]; do 2 right; left; split; reflexivity].
    destruct (Js.truthy (Server.LIVEKIT_API_SECRET env)); cbn [negb orb andb];
      [|intros [= <-]; do 2 right; left; split; reflexivity].
    destruct crf as [e|]; cbn.
    { intros [= <-]. do 3 right. left. reflexivity. }
    destruct lde, mkf as [e|], cwf as [e'|], spf as [e''|]; cbn; try discriminate;
      intros [= <-]; do 3 right; left; reflexivity.
Qed.

Variable not_a_function : string.
Variable statusText : Z -> string.

(** X16: the page's [handleStartCall] against the server's make-call
    handler, for a listed agent and a non-empty number, once the server
    has answered.  When the server answers 200 the page shows the call
    connected under the very room name the server created
    (outbound-<agentId>-<the server's clock>), with the agent busy and no
    alert.  In every other case the call is cleared and
    the agent back online: on 503 (credentials not configured) the page
    shows its demo-mode notice; on 400 (only possible with an empty agent
    id) and on 500 it shows 'Failed to start call: Failed to make call: '
    followed by the server's error text.  The page's number-busy dialog
    is never shown, since this server never answers 409. *)
Theorem start_call_against_server (rendered prev : App.AppState)
  (agentId phone : string) (id_now start_now later : Z)
  (amb : Server.Ambient) (evs : list Server.event) (answer : AppCalls.fetched) :
  (exists a, a ∈ App.agents rendered /\ Agent.id a = agentId) ->
  phone <> "" ->
  let posted := [("to", Js.JStr phone); ("agentId", Js.JStr agentId)] in
  let server := make_call (Http.make_call_body posted) amb evs in
  Http.answer statusText server = Some answer ->
  let trace := AppCalls.handleStartCall not_a_function rendered agentId (Some phone)
                 id_now start_now later answer in
  let s' := Ui.after trace prev in
  Ui.requests trace = [(AppCalls.make_call_url, posted)] /\
  ((Trace.statuses server = [200] /\
    Ui.alerts trace = [] /\
    App.currentCall s'
    = Some (VoiceCall.mk
              (Js.JStr ("outbound-" +:+ agentId +:+ "-"
                        +:+ pretty (Server.clock_now amb)))
              agentId call_connected (DateOfClock start_now) None None
              (Some (mkCallerInfo None (Some phone)))) /\
    Ui.marked agentId busy (App.agents prev) (App.agents s'))
   \/
   (App.currentCall s' = None /\
    Ui.marked agentId online (App.agents prev) (App.agents s') /\
    ((Trace.statuses server = [503] /\
      Server.credentials_configured env = false /\
      Ui.alerts trace = [AppCalls.demo_mode_alert])
     \/
     (Trace.statuses server = [400] /\
      agentId = "" /\
      Ui.alerts trace
      = ["Failed to start call: Failed to make call: Phone number and agentId are required"])
     \/
     (Trace.statuses server = [500] /\
      exists reason,
        Ui.alerts trace
        = ["Failed to start call: Failed to make call: " +:+ reason] /\
        (reason = "Failed to make call" \/
         exists err, reason = "SIP call failed: " +:+ err))))).
Proof.
  intros Hfound Hphone. cbv zeta.
  change (Http.make_call_body [("to", Js.JStr phone); ("agentId", Js.JStr agentId)])
    with (Server.mkMakeCallBody (Js.JStr phone) (Js.JStr agentId)).
  rewrite statuses_responses. unfold Http.answer.
  pose proof (make_call_responses phone agentId amb evs Hphone) as Hresp.
  cbv zeta in Hresp.
  unfold AppCalls.handleStartCall.
  destruct (find_agent _ _ Hfound) as [a ->].
  destruct (String.eqb_spec phone "") as [?|_]; [contradiction|].
  destruct Hresp as [-> |[[-> ->]|[[Hcred ->]|[-> |[-> |[err ->]]]]]];
    [discriminate|intros [= <-]..].
  - split; [reflexivity|]. right. cbn -[AppHandlers.set_status].
    rewrite set_status_twice. split; [reflexivity|].
    split; [apply set_status_marked|]. right. left. repeat split.
  - split; [reflexivity|]. right. cbn -[AppHandlers.set_status].
    rewrite set_status_twice. split; [reflexivity|].
    split; [apply set_status_marked|]. left. repeat split. exact Hcred.
  - split; [reflexivity|]. right. cbn -[AppHandlers.set_status].
    rewrite set_status_twice. split; [reflexivity|].
    split; [apply set_status_marked|]. right. right. split; [reflexivity|].
    exists "Failed to make call". split; [reflexivity|now left].
  - split; [reflexivity|]. left. cbn -[AppHandlers.set_status].
    split; [reflexivity|]. split; [reflexivity|].
    split; [reflexivity|apply set_status_marked].
  - split; [reflexivity|]. right.
    cbn -[AppHandlers.set_status].
    change (Js.js_or (Js.JStr ("SIP call failed: " +:+ err)) (Js.JStr (statusText 500)))
      with (Js.JStr ("SIP call failed: " +:+ err)).
    cbn -[AppHandlers.set_status].
    rewrite set_status_twice. split; [reflexivity|].
    split; [apply set_status_marked|]. right. right. split; [reflexivity|].
    exists ("SIP call failed: " +:+ err). split; [reflexivity|eauto].
Qed.

End PageAndServer.

Lemma start_call_against_server_witness :
  let join := fun a b : string => a +:+ "/" +:+ b in
  let env : gmap string string :=
    {[ "LIVEKIT_API_KEY" := "APIkey"; "LIVEKIT_API_SECRET" := "secret" ]} in
  let amb := Server.mkAmbient 1700000000000 "2025-01-02T03:04:05.678Z" None true None None None in
  let evs := [Server.TimerFired 1700000002000; Server.DispatchClose (Some 0)] in
  let agent := Agent.mk "agent-1" "Ada" online None (DateOfClock 0) None None None None in
  let s := App.mkAppState [agent] None None None "" [] false in
  let answer :=
    AppCalls.Fetched 200 "OK"
      (inr [("roomName", Js.JStr "outbound-agent-1-1700000000000");
            ("status", Js.JStr "dispatched");
            ("phoneNumber", Js.JStr "+15551234567");
            ("agentId", Js.JStr "agent-1")]) in
  let s' := Ui.after
              (AppCalls.handleStartCall "not a function" s "agent-1" (Some "5551234567")
                 1000 1001 1002 answer) s in
  Ui.marked "agent-1" busy [agent] (App.agents s') /\
  App.currentCall s'
  = Some (VoiceCall.mk (Js.JStr "outbound-agent-1-1700000000000") "agent-1"
            call_connected (DateOfClock 1001) None None
            (Some (mkCallerInfo None (Some "5551234567")))).
Proof.
  intros join env amb evs agent s answer s'.
  assert (Hfound : exists a, a ∈ App.agents s /\ Agent.id a = "agent-1").
  { exists agent. split; [left|reflexivity]. }
  assert (Hphone : "5551234567" <> "") by discriminate.
  assert (Hanswer : Http.answer (fun _ => "OK")
                      (Server.make_call join "/srv/server" env
                         (Http.make_call_body
                            [("to", Js.JStr "5551234567"); ("agentId", Js.JStr "agent-1")])
                         amb evs)
                    = Some answer) by (vm_compute; reflexivity).
  destruct (proj2 (start_call_against_server join "/srv/server" env "not a function"
                     (fun _ => "OK") s s "agent-1" "5551234567" 1000 1001 1002
                     amb evs answer Hfound Hphone Hanswer))
    as [(_ & _ & Hcall & Hmark)|(Hnone & _)].
  - split; [exact Hmark|exact Hcall].
  - discriminate Hnone.
Defined.

(* ===================================================================== *)
(** * The telephony service                                               *)
(* ===================================================================== *)

Section TokenClient.
Variable toJwt : Server.AccessToken -> Js.exn + Js.jsval.
Variable env : gmap string string.
Variable statusText : Z -> string.
Variable REACT_APP_BACKEND_URL : option string.

Lemma truthy_text (s : string) : Js.truthy (Js.JStr s) = true <-> s <> "".
Proof.
  cbn [Js.truthy].
  destruct (String.eqb_spec s "") as [->|Hne]; cbn [negb]; split;
    [discriminate|congruence|auto|auto].
Qed.

(** X17: [generateTelephonyToken] against the token endpoint of the
    companion server.  Either it returns a token, which is then the
    non-empty string the server's SDK signed for that participant and
    room (this needs both names non-empty and the credentials
    configured), or it throws 'Token generation failed: ' followed by the
    reason phrase of a 400 (a name is empty) or of a 500 (credentials
    missing, or signing gave no non-empty string).  It never returns
    anything but a non-empty string, and the phone number makes no
    difference. *)
Theorem generateTelephonyToken_against_server (roomName participantName : string)
  (phoneNumber : option string) :
  let generate :=
    TelephonyToken.generateTelephonyToken
      (HttpToken.backend toJwt env statusText) REACT_APP_BACKEND_URL
      roomName participantName in
  let signed :=
    toJwt (Server.mkAccessToken (Server.LIVEKIT_API_KEY env)
             (Server.LIVEKIT_API_SECRET env) (Js.JStr participantName) "10m"
             [Server.mkVideoGrant true (Js.JStr roomName) true true true]) in
  ((exists jwt,
      generate phoneNumber = inr (Js.JStr jwt) /\
      jwt <> "" /\ signed = inr (Js.JStr jwt) /\
      roomName <> "" /\ participantName <> "" /\
      Server.credentials_configured env = true)
   \/
   (generate phoneNumber
    = inl (Js.Error ("Token generation failed: " +:+ statusText 400)) /\
    (roomName = "" \/ participantName = ""))
   \/
   (generate phoneNumber
    = inl (Js.Error ("Token generation failed: " +:+ statusText 500)) /\
    roomName <> "" /\ participantName <> "" /\
    (Server.credentials_configured env = false \/
     forall jwt, signed = inr (Js.JStr jwt) -> jwt = ""))) /\
  (forall other, generate other = generate phoneNumber).
Proof.
  cbv zeta.
  assert (Hfields : forall phone : option string,
            HttpToken.token_body
              ([("roomName", Js.JStr roomName);
                ("participantName", Js.JStr participantName)]
               ++ match phone with
                  | Some p => [("phoneNumber", Js.JStr p)]
                  | None => []
                  end)
            = Server.mkTokenBody (Js.JStr roomName) (Js.JStr participantName)
                (from_option Js.JStr Js.JUndefined phone)).
  { intros [p|]; reflexivity. }
  unfold TelephonyToken.generateTelephonyToken, HttpToken.backend.
  split.
  2:{ intros other. rewrite !Hfields.
      unfold Server.livekit_token, Server.generateLiveKitToken.
      cbn [Server.tb_roomName Server.tb_participantName Server.tb_phoneNumber].
      reflexivity. }
  rewrite Hfields.
  unfold Server.livekit_token, Server.generateLiveKitToken,
    Server.credentials_configured.
  cbn [Server.tb_roomName Server.tb_participantName Server.tb_phoneNumber].
  destruct (Js.truthy (Js.JStr roomName)) eqn:Hroom; cbn [negb orb].
  2:{ right. left. split; [reflexivity|]. left.
      cbn in Hroom. now destruct (String.eqb_spec roomName ""). }
  destruct (Js.truthy (Js.JStr participantName)) eqn:Hname; cbn [negb orb].
  2:{ right. left. split; [reflexivity|]. right.
      cbn in Hname. now destruct (String.eqb_spec participantName ""). }
  apply truthy_text in Hroom, Hname.
  destruct (Js.truthy (Server.LIVEKIT_API_KEY env)); cbn [negb orb andb];
    [|right; right; split; [reflexivity|auto]].
  destruct (Js.truthy (Server.LIVEKIT_API_SECRET env)); cbn [negb orb andb];
    [|right; right; split; [reflexivity|auto]].
  destruct (toJwt _) as [err|[| | | |jwt| |]] eqn:Hjwt;
    try (right; right; split; [reflexivity|];
         split; [assumption|]; split; [assumption|]; right; discriminate).
  destruct (Js.len jwt >? 0) eqn:Hlen.
  - left. exists jwt. cbn. repeat split; try assumption.
    intros ->. discriminate Hlen.
  - right. right. split; [reflexivity|].
    split; [assumption|]. split; [assumption|]. right.
    intros jwt' [= <-]. destruct jwt; [reflexivity|discriminate Hlen].
Qed.

End TokenClient.

Section EmitFacts.
Context {Handler : Type} `{EqDecision Handler} {Data World : Type}.
Variable invoke :
  Handler -> TelephonyEvents.CallEvent Data ->
  TelephonyService.t Handler * World -> TelephonyService.t Handler * World * bool.

Local Abbreviation forEach := (TelephonyEvents.forEach invoke).
Local Abbreviation emit := (TelephonyEvents.emit invoke).
Local Abbreviation handlers := TelephonyService.eventHandlers.

(** The handlers leave the handler list alone. *)
Hypothesis handlers_kept :
  forall handler event st, handlers (invoke handler event st).1.1 = handlers st.1.

Lemma forEach_calls (count k : nat) (event : TelephonyEvents.CallEvent Data)
  (st : TelephonyService.t Handler * World) (called : list Handler) :
  (forEach count k event st called).2
  = called ++ take count (drop k (handlers st.1)) /\
  handlers (forEach count k event st called).1.1 = handlers st.1.
Proof.
  revert k st called. induction count as [|count IH]; intros k st called.
  - cbn. rewrite take_0, app_nil_r. auto.
  - cbn [TelephonyEvents.forEach].
    destruct (handlers st.1 !! k) as [handler|] eqn:Hk.
    + pose proof (handlers_kept handler event st) as Hkept.
      destruct (invoke handler event st) as [st' threw]. cbn [fst] in Hkept.
      destruct (IH (S k) st' (called ++ [handler])) as [-> ->].
      rewrite Hkept. split; [|reflexivity].
      rewrite (drop_S _ _ _ Hk). cbn [take]. now rewrite <- app_assoc.
    + destruct (IH (S k) st called) as [-> ->]. split; [|reflexivity].
      apply lookup_ge_None in Hk.
      rewrite !drop_ge by lia. now rewrite !take_nil.
Qed.

(** X18: [emit] calls every registered handler, once per registration
    and in the order of registration, whether or not any of them throws,
    provided the handlers do not register or remove handlers while they
    run; the handler list is the same afterwards. *)
Theorem emit_reaches_every_handler (event : TelephonyEvents.CallEvent Data)
  (st : TelephonyService.t Handler * World) :
  (emit event st).2 = handlers st.1 /\
  handlers (emit event st).1.1 = handlers st.1.
Proof.
  unfold TelephonyEvents.emit.
  destruct (forEach_calls (List.length (handlers st.1)) 0 event st []) as [-> ->].
  split; [|reflexivity]. cbn [app]. rewrite drop_0. apply firstn_all.
Qed.

End EmitFacts.

Lemma emit_reaches_every_handler_witness :
  let invoke := fun (handler : nat) (event : TelephonyEvents.CallEvent ())
                    (st : TelephonyService.t nat * list nat) =>
                  (st.1, st.2 ++ [handler], Nat.even handler) in
  (TelephonyEvents.emit invoke
     (TelephonyEvents.mkCallEvent TelephonyEvents.call_ended None)
     (TelephonyService.mk (Some Connected) [1; 2; 2; 3]%nat, [])).2
  = [1; 2; 2; 3]%nat.
Proof.
  intros invoke.
  refine (proj1 (emit_reaches_every_handler invoke _
                   (TelephonyEvents.mkCallEvent TelephonyEvents.call_ended None)
                   (TelephonyService.mk (Some Connected) [1; 2; 2; 3]%nat, []))).
  intros handler event st. reflexivity.
Defined.

(** A handler that removes itself while [emit] runs makes [emit] pass
    over the handler registered after it. *)
Example emit_skips_after_self_removal :
  let invoke := fun (handler : nat) (event : TelephonyEvents.CallEvent ())
                    (st : TelephonyService.t nat * ()) =>
                  (if decide (handler = 1%nat)
                   then TelephonyService.removeEvent st.1 handler else st.1,
                   (), false) in
  (TelephonyEvents.emit invoke
     (TelephonyEvents.mkCallEvent TelephonyEvents.call_started None)
     (TelephonyService.mk None [1; 2; 3]%nat, ())).2
  = [1; 3]%nat.
Proof. reflexivity. Qed.

(** X19: [isInCall] is true exactly when [getConnectionState] is
    Connected; a service without a room (as it is constructed) reports
    Disconnected and is not in a call; registering or removing an event
    handler changes neither. *)
Theorem connection_state_observers {Handler : Type} `{EqDecision Handler}
  (this : TelephonyService.t Handler) (handler : Handler) :
  (TelephonyEvents.isInCall this = true <->
   TelephonyEvents.getConnectionState this = Connected) /\
  (TelephonyService.room this = None ->
   TelephonyEvents.getConnectionState this = Disconnected /\
   TelephonyEvents.isInCall this = false) /\
  TelephonyEvents.getConnectionState (TelephonyService.create (Handler := Handler))
  = Disconnected /\
  TelephonyEvents.getConnectionState (TelephonyService.onEvent this handler)
  = TelephonyEvents.getConnectionState this /\
  TelephonyEvents.getConnectionState (TelephonyService.removeEvent this handler)
  = TelephonyEvents.getConnectionState this /\
  TelephonyEvents.isInCall (TelephonyService.onEvent this handler)
  = TelephonyEvents.isInCall this /\
  TelephonyEvents.isInCall (TelephonyService.removeEvent this handler)
  = TelephonyEvents.isInCall this.
Proof.
  unfold TelephonyEvents.isInCall, TelephonyEvents.getConnectionState,
    TelephonyService.removeEvent.
  destruct this as [[state|] hs]; cbn [TelephonyService.room TelephonyService.onEvent].
  - split; [destruct state; split; congruence|].
    split; [discriminate|].
    split; [reflexivity|].
    destruct (_ >? _); repeat split.
  - split; [split; discriminate|].
    split; [auto|]. split; [reflexivity|].
    destruct (_ >? _); repeat split.
Qed.

(** X20: a telephony event in the call panel.  The handler acts only
    when it was made for a render with a current call, and only on
    call_started, call_ended and error: the page's current call then
    becomes that call (whatever the current call is by then) with status
    connected, ended or failed, the end time being set on the last two;
    its id, agent, start time, duration and caller are kept.  The agent
    list is never touched, so the agent stays busy after call_ended; no
    other field changes. *)
Theorem telephony_event_updates (prev : App.AppState)
  (currentCall : option VoiceCall.t) (type : TelephonyEvents.CallEventType) (now : Z) :
  let s' := App.apply_updates (PanelEvents.on_telephony_event currentCall type now) prev in
  App.agents s' = App.agents prev /\
  Ui.same_page prev s' /\
  (currentCall = None \/
   type = TelephonyEvents.participant_connected \/
   type = TelephonyEvents.participant_disconnected ->
   s' = prev) /\
  (forall call,
     currentCall = Some call ->
     type = TelephonyEvents.call_started \/
     type = TelephonyEvents.call_ended \/
     type = TelephonyEvents.error ->
     exists call',
       App.currentCall s' = Some call' /\
       VoiceCall.id call' = VoiceCall.id call /\
       VoiceCall.agentId call' = VoiceCall.agentId call /\
       VoiceCall.startTime call' = VoiceCall.startTime call /\
       VoiceCall.duration call' = VoiceCall.duration call /\
       VoiceCall.callerInfo call' = VoiceCall.callerInfo call /\
       VoiceCall.status call'
       = match type with
         | TelephonyEvents.call_started => call_connected
         | TelephonyEvents.call_ended => call_ended
         | _ => call_failed
         end /\
       VoiceCall.endTime call'
       = match type with
         | TelephonyEvents.call_started => VoiceCall.endTime call
         | _ => Some (DateOfClock now)
         end).
Proof.
  cbv zeta. unfold PanelEvents.on_telephony_event, PanelEvents.handleTelephonyEvent.
  split; [|split; [|split]].
  - destruct currentCall, type; reflexivity.
  - destruct currentCall, type; repeat split.
  - intros [->|[->| ->]]; [reflexivity|destruct currentCall; reflexivity..].
  - intros call -> [->|[->| ->]]; eexists; repeat split.
Qed.
